(** * The OKE cluster lifecycle of [cluster/oke.go]

    A shallow embedding of the Oracle Kubernetes Engine cluster type of the
    pipeline: the worker-subnet distribution, the network population step,
    the create / update / delete sequences and the status projection,
    followed by the properties established about them.

    Conventions.
    - Go's [uint] is embedded as [N] and [int] as [Z]; the one place where
      the source can leave the 64-bit range ([getNodeCount]) wraps
      explicitly through [wrap_int].
    - The node pools of a spec are held through pointers: an entry of a
      pool list is an [option], [None] for nil, and reading a field of a nil
      pool is a panic. The receiver [o], its [modelCluster] and the request
      objects handed to the methods are the objects themselves: their
      callers build them before the call.
    - Code of other packages (the OCI client, the VCN manager, the cluster
      manager, the secret store, the Kubernetes client, the model
      constructors) is not part of this file: it is a record of functions,
      [Env], each of which may answer differently depending on everything
      that happened before (the [World], a log of the calls made so far and
      of their answers). The cluster manager is given a pointer to the
      spec and answers with the spec as it leaves it. Node pools are
      embedded by value: what a collaborator might write into a stored pool
      through a pointer it shares is outside this model, which follows
      which pools the lists hold and in what order. *)

From stdpp Require Import gmap strings list.
From Stdlib Require Import ZArith NArith Lia.

Local Open Scope string_scope.

(** ** Machine integers *)

Definition uint := N.
Definition int := Z.

(** Two's complement reading of an integer in 64 bits: the value Go's [int]
    holds after a conversion or a multiplication. *)
Definition wrap_int (z : Z) : int :=
  ((z + 2 ^ 63) `mod` 2 ^ 64 - 2 ^ 63)%Z.

(** [int(u)] for [u : uint]. *)
Definition int_of_uint (u : uint) : int := wrap_int (Z.of_N u).

(** [a * b] on [int]. *)
Definition int_mul (a b : int) : int := wrap_int (a * b).

(** [len(s)] as an [int]. *)
Definition len {A} (s : list A) : int := Z.of_nat (length s).

(** The slice expression [s[lo:hi]]. The source only uses it with
    [hi <= len(s)], where it cannot panic. *)
Definition slice {A} (s : list A) (lo hi : nat) : list A :=
  take (hi - lo) (drop lo s).

(** ** Errors *)

(** Error values: the two constructors of plain errors the file uses
    ([fmt.Errorf], [errors.New]), the sentinel of [pkg/errors] the file
    returns, and the two wrappers of [github.com/pkg/errors]. An error
    coming from a collaborator is any value of this type. *)
Inductive error : Type :=
| Errorf (msg : string)
| New (msg : string)
| ErrorClusterNotReady
| Wrap (cause : error) (msg : string)
| WithMessage (cause : error) (msg : string).

(** An error that carries stage context added by a wrapper. *)
Definition wrapped (e : error) : bool :=
  match e with
  | Wrap _ _ | WithMessage _ _ => true
  | _ => false
  end.

(** ** Data of the other packages, as this file uses it *)

Definition Time := Z.

(** Modelled from the spec: [network.NetworkValues] is declared in the
    network package; it is the subnet inventory of a network, the ids of
    its load-balancer subnets and of its worker subnets. *)
Record NetworkValues : Type := {
  LBSubnetIDs : list string;
  WNSubnetIDs : list string
}.

(** Modelled from the spec: [NewCreatorBaseFields] is declared elsewhere in
    the package; the value it builds from a creation time and a creator is
    kept as the pair of its arguments. *)
Inductive CreatorBaseFields : Type :=
| NewCreatorBaseFields (createdAt : Time) (createdBy : uint).

Module modelOracle.

Module NodePool.
(** Modelled from the spec: [modelOracle.NodePool] is declared in the model
    package; a stored node pool has a name, compute shape, image, version,
    per-subnet instance quantity, assigned subnets and a pending-delete
    flag. These are the fields this file reads. *)
Record t : Type := {
  Name : string;
  Image : string;
  Shape : string;
  Version : string;
  QuantityPerSubnet : uint;
  Subnets : list string;
  CreatedAt : Time;
  CreatedBy : uint;
  Delete : bool
}.
End NodePool.

Module Cluster.
(** Modelled from the spec: [modelOracle.Cluster] is declared in the model
    package; the provider spec holds the engine's cluster id, the
    virtual-network id, the version, the ordered list of node pools (a
    slice of pointers) and the deleting flag. *)
Record t : Type := {
  OCID : string;
  VCNID : string;
  Version : string;
  NodePools : list (option NodePool.t);
  Delete : bool
}.

Definition zero : t :=
  {| OCID := ""; VCNID := ""; Version := ""; NodePools := []; Delete := false |}.

Definition with_Delete (c : t) (b : bool) : t :=
  {| OCID := OCID c; VCNID := VCNID c; Version := Version c;
     NodePools := NodePools c; Delete := b |}.

Definition with_NodePools (c : t) (nps : list (option NodePool.t)) : t :=
  {| OCID := OCID c; VCNID := VCNID c; Version := Version c;
     NodePools := nps; Delete := Delete c |}.
End Cluster.

End modelOracle.

Module oracle.

Module NodePool.
(** Modelled from the spec: [oracle.NodePool] and its setters are declared
    in the provider package; a requested node pool has the requested
    [Count] and receives the quantity per subnet and the assigned subnets,
    which the setters write into the pool. *)
Record t : Type := {
  Count : uint;
  quantityPerSubnet : uint;
  subnetIds : list string
}.

Definition SetQuantityPerSubnet (np : t) (q : uint) : t :=
  {| Count := Count np; quantityPerSubnet := q; subnetIds := subnetIds np |}.

Definition SetSubnetIDs (np : t) (ids : list string) : t :=
  {| Count := Count np; quantityPerSubnet := quantityPerSubnet np;
     subnetIds := ids |}.
End NodePool.

Module Cluster.
(** Modelled from the spec: [oracle.Cluster] and its setters are declared
    in the provider package; the requested spec receives the
    virtual-network id and the two load-balancer subnet ids, which the
    setters assign into it. [NodePools] holds pointers, in the order the
    loop of [PopulateNetworkValues] visits them. *)
Record t : Type := {
  Version : string;
  NodePools : list (option NodePool.t);
  vcnID : string;
  lbSubnetID1 : string;
  lbSubnetID2 : string
}.

Definition SetVCNID (r : t) (id : string) : t :=
  {| Version := Version r; NodePools := NodePools r; vcnID := id;
     lbSubnetID1 := lbSubnetID1 r; lbSubnetID2 := lbSubnetID2 r |}.

Definition SetLBSubnetID1 (r : t) (id : string) : t :=
  {| Version := Version r; NodePools := NodePools r; vcnID := vcnID r;
     lbSubnetID1 := id; lbSubnetID2 := lbSubnetID2 r |}.

Definition SetLBSubnetID2 (r : t) (id : string) : t :=
  {| Version := Version r; NodePools := NodePools r; vcnID := vcnID r;
     lbSubnetID1 := lbSubnetID1 r; lbSubnetID2 := id |}.

Definition with_NodePools (r : t) (nps : list (option NodePool.t)) : t :=
  {| Version := Version r; NodePools := nps; vcnID := vcnID r;
     lbSubnetID1 := lbSubnetID1 r; lbSubnetID2 := lbSubnetID2 r |}.
End Cluster.

End oracle.

(** ** The distribution of a node pool over the worker subnets *)

(** [GetPoolQuantityValues]: the named results start at their zero values
    and are returned as they are by the bare [return]. *)
Definition GetPoolQuantityValues (count : uint) (networkValues : NetworkValues)
  : uint * list string :=
  let qps := 0%N in
  let subnetIDS := @nil string in
  if (count =? 0)%N || (length (WNSubnetIDs networkValues) <? 3)%nat then
    (qps, subnetIDS)
  else
    let qps := count in
    let subnetIDS := slice (WNSubnetIDs networkValues) 0 1 in
    if (count `mod` 3 =? 0)%N then
      ((count `div` 3)%N, slice (WNSubnetIDs networkValues) 0 3)
    else if (count `mod` 2 =? 0)%N then
      ((count `div` 2)%N, slice (WNSubnetIDs networkValues) 0 2)
    else
      (qps, subnetIDS).

(** [getNodeCount]: [int(np.QuantityPerSubnet) * len(np.Subnets)]. *)
Definition getNodeCount (np : modelOracle.NodePool.t) : int :=
  int_mul (int_of_uint (modelOracle.NodePool.QuantityPerSubnet np))
          (len (modelOracle.NodePool.Subnets np)).

Module model.

Module ClusterModel.
(** Modelled from the spec: [model.ClusterModel] is declared in the model
    package; it is the persisted cluster aggregate (identity, name,
    location, distribution, status and message, secret references and the
    provider spec). *)
Record t : Type := {
  ID : uint;
  UID : string;
  Name : string;
  Location : string;
  Cloud : string;
  OrganizationId : uint;
  SecretId : string;
  ConfigSecretId : string;
  SshSecretId : string;
  Status : string;
  StatusMessage : string;
  Distribution : string;
  CreatedAt : Time;
  CreatedBy : uint;
  OKE : modelOracle.Cluster.t
}.

Definition with_OKE (m : t) (c : modelOracle.Cluster.t) : t :=
  {| ID := ID m; UID := UID m; Name := Name m; Location := Location m;
     Cloud := Cloud m; OrganizationId := OrganizationId m;
     SecretId := SecretId m; ConfigSecretId := ConfigSecretId m;
     SshSecretId := SshSecretId m; Status := Status m;
     StatusMessage := StatusMessage m; Distribution := Distribution m;
     CreatedAt := CreatedAt m; CreatedBy := CreatedBy m; OKE := c |}.
End ClusterModel.

End model.

Module pkgCluster.

Module CreateClusterRequest.
(** [pkgCluster.CreateClusterRequest]; [Properties.CreateClusterOKE] is the
    object the request points to. *)
Record t : Type := {
  Name : string;
  Location : string;
  Cloud : string;
  SecretId : string;
  Properties_CreateClusterOKE : oracle.Cluster.t
}.

Definition with_CreateClusterOKE (r : t) (c : oracle.Cluster.t) : t :=
  {| Name := Name r; Location := Location r; Cloud := Cloud r;
     SecretId := SecretId r; Properties_CreateClusterOKE := c |}.
End CreateClusterRequest.

Module UpdateClusterRequest.
(** [pkgCluster.UpdateClusterRequest]; [UpdateProperties.OKE] is the object
    the request points to. *)
Record t : Type := {
  UpdateProperties_OKE : oracle.Cluster.t
}.
End UpdateClusterRequest.

Module NodePoolStatus.
Record t : Type := {
  Count : int;
  Autoscaling : bool;
  MinCount : int;
  MaxCount : int;
  InstanceType : string;
  Image : string;
  Version : string
}.
End NodePoolStatus.

Module GetClusterStatusResponse.
Record t : Type := {
  Status : string;
  StatusMessage : string;
  Name : string;
  Location : string;
  Cloud : string;
  Distribution : string;
  Version : string;
  ResourceID : uint;
  CreatorBaseFields : CreatorBaseFields;
  NodePools : gmap string NodePoolStatus.t
}.
End GetClusterStatusResponse.

Module NodeDetails.
Record t : Type := {
  CreatorBaseFields : CreatorBaseFields;
  Version : string;
  Count : int;
  MinCount : int;
  MaxCount : int
}.
End NodeDetails.

Module DetailsResponse.
Record t : Type := {
  CreatorBaseFields : CreatorBaseFields;
  Name : string;
  Id : uint;
  Location : string;
  MasterVersion : string;
  NodePools : gmap string NodeDetails.t;
  Status : string
}.
End DetailsResponse.

End pkgCluster.

(** [OKECluster]. The embedded [CommonClusterBase] has no field this file
    reads; what it caches is part of the [World]. *)
Record OKECluster : Type := {
  modelCluster : model.ClusterModel.t;
  APIEndpoint : string
}.

Definition with_modelOKE (o : OKECluster) (c : modelOracle.Cluster.t) : OKECluster :=
  {| modelCluster := model.ClusterModel.with_OKE (modelCluster o) c;
     APIEndpoint := APIEndpoint o |}.

(** ** Objects of the collaborators *)

(** Clients are handles: what they refer to lives outside and is reached
    only through calls. *)
Definition OCI := N.
Definition ContainerEngineClient := N.
Definition K8sClient := N.

Inductive VCNManager : Type := NewVCNManager (oci : OCI).
Inductive ClusterManager : Type := NewClusterManager (oci : OCI).

(** The network a VCN manager returns: [Id] is a [*string]. *)
Record VCN : Type := { Id : option string }.

(** The cluster the container engine reports. *)
Record LiveCluster : Type := { LifecycleState : string }.

(** [secret.SecretItemResponse]. *)
Record SecretItemResponse : Type := { Values : gmap string string }.

Module rbac.
Record Subject : Type := {
  Kind : string;
  Name : string;
  APIGroup : string
}.
Record RoleRef : Type := {
  RoleKind : string;
  RoleName : string;
  RoleAPIGroup : string
}.
Record ClusterRoleBinding : Type := {
  ObjectMeta_Name : string;
  Subjects : list Subject;
  Ref : RoleRef
}.
End rbac.

(** The answer of a collaborator that returns [(value, error)]. *)
Inductive result (A : Type) : Type :=
| Ok (a : A)
| Err (e : error).
Arguments Ok {A} a.
Arguments Err {A} e.

(** ** The world: a log of the calls made and of their answers *)

Inductive Event : Type :=
| Ev_getSecret (organizationId : uint) (secretId : string)
    (res : result SecretItemResponse)
| Ev_NewOCI (values : gmap string string) (res : result OCI)
| Ev_ChangeRegion (oci : OCI) (region : string) (err : option error)
| Ev_VCNCreate (m : VCNManager) (name : string) (res : result VCN)
| Ev_VCNDelete (m : VCNManager) (id : string) (err : option error)
| Ev_GetNetworkValues (m : VCNManager) (id : string) (res : result NetworkValues)
| Ev_ManageOKECluster (cm : ClusterManager)
    (submitted after : modelOracle.Cluster.t) (err : option error)
| Ev_NewContainerEngineClient (oci : OCI) (res : result ContainerEngineClient)
| Ev_GetCluster (ce : ContainerEngineClient) (ocid : string)
    (res : result LiveCluster)
| Ev_getConfig (clusterId : uint) (res : result string)
| Ev_GetK8sConnection (kubeConfig : string) (res : result K8sClient)
| Ev_ClusterRoleBindingsCreate (client : K8sClient)
    (binding : rbac.ClusterRoleBinding) (err : option error)
| Ev_CreateModelFromCreateRequest (request : pkgCluster.CreateClusterRequest.t)
    (userId : uint) (res : result modelOracle.Cluster.t)
| Ev_CreateModelFromUpdateRequest (current : modelOracle.Cluster.t)
    (request : pkgCluster.UpdateClusterRequest.t) (userId : uint)
    (res : result modelOracle.Cluster.t).

Definition World := list Event.

(** The collaborators and the constants of other packages. Each function
    receives the log so far, so a collaborator may answer a repeated call
    differently. [ManageOKECluster] receives a pointer to the spec: it
    answers with the spec as it left it and the error. *)
Record Env : Type := {
  pkgCluster_OKE : string;
  pkgCluster_Oracle : string;
  secretOracle_UserOCID : string;
  v1_GroupName : string;
  v1beta1_GroupName : string;
  env_getSecret : World -> uint -> string -> result SecretItemResponse;
  env_NewOCI : World -> gmap string string -> result OCI;
  env_ChangeRegion : World -> OCI -> string -> option error;
  env_VCNCreate : World -> VCNManager -> string -> result VCN;
  env_VCNDelete : World -> VCNManager -> string -> option error;
  env_GetNetworkValues : World -> VCNManager -> string -> result NetworkValues;
  env_ManageOKECluster :
    World -> ClusterManager -> modelOracle.Cluster.t ->
    modelOracle.Cluster.t * option error;
  env_NewContainerEngineClient : World -> OCI -> result ContainerEngineClient;
  env_GetCluster : World -> ContainerEngineClient -> string -> result LiveCluster;
  env_getConfig : World -> uint -> result string;
  env_GetK8sConnection : World -> string -> result K8sClient;
  env_ClusterRoleBindingsCreate :
    World -> K8sClient -> rbac.ClusterRoleBinding -> option error;
  env_CreateModelFromCreateRequest :
    World -> pkgCluster.CreateClusterRequest.t -> uint ->
    result modelOracle.Cluster.t;
  env_CreateModelFromUpdateRequest :
    World -> modelOracle.Cluster.t -> pkgCluster.UpdateClusterRequest.t ->
    uint -> result modelOracle.Cluster.t
}.

(** ** Computations: a state monad over the world, with panics *)

Inductive outcome (A : Type) : Type :=
| Returns (a : A) (w : World)
| Panics (w : World).
Arguments Returns {A} a w.
Arguments Panics {A} w.

Definition M (A : Type) : Type := World -> outcome A.

Definition ret {A} (a : A) : M A := fun w => Returns a w.

Definition bind {A B} (m : M A) (k : A -> M B) : M B :=
  fun w => match m w with
           | Returns a w' => k a w'
           | Panics w' => Panics w'
           end.

Definition panic {A} : M A := fun w => Panics w.

(** A call to a collaborator: its answer is computed from the log, and the
    call is appended to the log together with the answer. *)
Definition extern {A} (answer : World -> A) (ev : A -> Event) : M A :=
  fun w => let a := answer w in Returns a (w ++ [ev a])%list.

Declare Scope go_scope.
Delimit Scope go_scope with go.
Notation "'let*' x ':=' m 'in' k" := (bind m (fun x => k))
  (at level 10, x pattern, m at level 100, k at level 200) : go_scope.
Local Open Scope go_scope.

(** ** The methods of [OKECluster] *)

Section Lifecycle.

Context (E : Env).

(** Calls to the collaborators. *)

Definition getSecret (o : OKECluster) : M (result SecretItemResponse) :=
  let org := model.ClusterModel.OrganizationId (modelCluster o) in
  let sid := model.ClusterModel.SecretId (modelCluster o) in
  extern (fun w => env_getSecret E w org sid) (Ev_getSecret org sid).

Definition NewOCI (values : gmap string string) : M (result OCI) :=
  extern (fun w => env_NewOCI E w values) (Ev_NewOCI values).

Definition ChangeRegion (oci : OCI) (region : string) : M (option error) :=
  extern (fun w => env_ChangeRegion E w oci region) (Ev_ChangeRegion oci region).

Definition VCNManager_Create (m : VCNManager) (name : string) : M (result VCN) :=
  extern (fun w => env_VCNCreate E w m name) (Ev_VCNCreate m name).

Definition VCNManager_Delete (m : VCNManager) (id : string) : M (option error) :=
  extern (fun w => env_VCNDelete E w m id) (Ev_VCNDelete m id).

Definition VCNManager_GetNetworkValues (m : VCNManager) (id : string)
  : M (result NetworkValues) :=
  extern (fun w => env_GetNetworkValues E w m id) (Ev_GetNetworkValues m id).

Definition ManageOKECluster (cm : ClusterManager) (c : modelOracle.Cluster.t)
  : M (modelOracle.Cluster.t * option error) :=
  extern (fun w => env_ManageOKECluster E w cm c)
         (fun a => Ev_ManageOKECluster cm c (fst a) (snd a)).

Definition NewContainerEngineClient (oci : OCI) : M (result ContainerEngineClient) :=
  extern (fun w => env_NewContainerEngineClient E w oci)
         (Ev_NewContainerEngineClient oci).

Definition GetCluster (ce : ContainerEngineClient) (ocid : string)
  : M (result LiveCluster) :=
  extern (fun w => env_GetCluster E w ce ocid) (Ev_GetCluster ce ocid).

Definition getConfig (o : OKECluster) : M (result string) :=
  let id := model.ClusterModel.ID (modelCluster o) in
  extern (fun w => env_getConfig E w id) (Ev_getConfig id).

Definition GetK8sConnection (kubeConfig : string) : M (result K8sClient) :=
  extern (fun w => env_GetK8sConnection E w kubeConfig)
         (Ev_GetK8sConnection kubeConfig).

Definition ClusterRoleBindings_Create (client : K8sClient)
  (b : rbac.ClusterRoleBinding) : M (option error) :=
  extern (fun w => env_ClusterRoleBindingsCreate E w client b)
         (Ev_ClusterRoleBindingsCreate client b).

Definition CreateModelFromCreateRequest
  (request : pkgCluster.CreateClusterRequest.t) (userId : uint)
  : M (result modelOracle.Cluster.t) :=
  extern (fun w => env_CreateModelFromCreateRequest E w request userId)
         (Ev_CreateModelFromCreateRequest request userId).

Definition CreateModelFromUpdateRequest (current : modelOracle.Cluster.t)
  (request : pkgCluster.UpdateClusterRequest.t) (userId : uint)
  : M (result modelOracle.Cluster.t) :=
  extern (fun w => env_CreateModelFromUpdateRequest E w current request userId)
         (Ev_CreateModelFromUpdateRequest current request userId).

(** [GetSecretWithValidation] and [GetK8sConfig] hand over to the base. *)
Definition GetSecretWithValidation (o : OKECluster) : M (result SecretItemResponse) :=
  getSecret o.

Definition GetK8sConfig (o : OKECluster) : M (result string) :=
  getConfig o.

(** [GetOCI]. No caller reads the client returned next to an error. *)
Definition GetOCI (o : OKECluster) : M (result OCI) :=
  let* s := getSecret o in
  match s with
  | Err err => ret (Err err)
  | Ok s =>
      let* r := NewOCI (Values s) in
      match r with
      | Err err => ret (Err err)
      | Ok OCI => ret (Ok OCI)
      end
  end.

(** [GetOCIWithRegion]. *)
Definition GetOCIWithRegion (o : OKECluster) (region : string) : M (result OCI) :=
  let* r := GetOCI o in
  match r with
  | Err err => ret (Err err)
  | Ok OCI =>
      let* err := ChangeRegion OCI region in
      match err with
      | Some err => ret (Err err)
      | None => ret (Ok OCI)
      end
  end.

(** [GetClusterManager]. *)
Definition GetClusterManager (o : OKECluster) : M (result ClusterManager) :=
  let* r := GetOCIWithRegion o (model.ClusterModel.Location (modelCluster o)) in
  match r with
  | Err err => ret (Err err)
  | Ok oci => ret (Ok (NewClusterManager oci))
  end.

(** [CreatePreconfiguredVCN]: the named result [VCNID] is the empty string
    on every error path. *)
Definition CreatePreconfiguredVCN (o : OKECluster) (name : string)
  : M (string * option error) :=
  let VCNID := "" in
  let* r := GetOCIWithRegion o (model.ClusterModel.Location (modelCluster o)) in
  match r with
  | Err err => ret (VCNID, Some err)
  | Ok oci =>
      let m := NewVCNManager oci in
      let* r := VCNManager_Create m ("p-" +:+ name) in
      match r with
      | Err err => ret (VCNID, Some err)
      | Ok vcn =>
          match Id vcn with
          | None => ret (VCNID, Some (Errorf "Invalid VCN!"))
          | Some id => ret (id, None)
          end
      end
  end.

(** [DeletePreconfiguredVCN]. *)
Definition DeletePreconfiguredVCN (o : OKECluster) (VCNID : string)
  : M (option error) :=
  let* r := GetOCIWithRegion o (model.ClusterModel.Location (modelCluster o)) in
  match r with
  | Err err => ret (Some err)
  | Ok oci =>
      let m := NewVCNManager oci in
      VCNManager_Delete m VCNID
  end.

(** The loop of [PopulateNetworkValues] over [r.NodePools]: each pool is
    updated through its pointer; [np.Count] on a nil pointer panics
    ([None] here). *)
Fixpoint populate_NodePools (networkValues : NetworkValues)
  (nps : list (option oracle.NodePool.t))
  : option (list (option oracle.NodePool.t)) :=
  match nps with
  | [] => Some []
  | None :: _ => None
  | Some np :: rest =>
      let '(quanityPerSubnet, subnetIDs) :=
        GetPoolQuantityValues (oracle.NodePool.Count np) networkValues in
      let np := oracle.NodePool.SetQuantityPerSubnet np quanityPerSubnet in
      let np := oracle.NodePool.SetSubnetIDs np subnetIDs in
      match populate_NodePools networkValues rest with
      | None => None
      | Some rest => Some (Some np :: rest)
      end
  end.

(** [PopulateNetworkValues]: [r] is the object behind the pointer, and the
    first component of the result is that object as the call leaves it. *)
Definition PopulateNetworkValues (o : OKECluster) (r : oracle.Cluster.t)
  (VCNID : string) : M (oracle.Cluster.t * option error) :=
  let* res := GetOCIWithRegion o (model.ClusterModel.Location (modelCluster o)) in
  match res with
  | Err err => ret (r, Some err)
  | Ok oci =>
      let m := NewVCNManager oci in
      let* res := VCNManager_GetNetworkValues m VCNID in
      match res with
      | Err err => ret (r, Some err)
      | Ok networkValues =>
          let r := oracle.Cluster.SetVCNID r VCNID in
          if negb (length (LBSubnetIDs networkValues) =? 2)%nat then
            ret (r, Some (Errorf
              "Invalid network config: there must be 2 loadbalancer subnets!"))
          else
            let r := oracle.Cluster.SetLBSubnetID1 r
                       (LBSubnetIDs networkValues !!! 0%nat) in
            let r := oracle.Cluster.SetLBSubnetID2 r
                       (LBSubnetIDs networkValues !!! 1%nat) in
            match populate_NodePools networkValues (oracle.Cluster.NodePools r) with
            | None => panic
            | Some nps => ret (oracle.Cluster.with_NodePools r nps, None)
            end
      end
  end.

(** The cluster [CreateOKEClusterFromRequest] starts from: the model built
    from the request, every other field at its zero value. *)
Definition new_OKECluster (request : pkgCluster.CreateClusterRequest.t)
  (orgId userId : uint) : OKECluster :=
  {| modelCluster :=
       {| model.ClusterModel.ID := 0%N;
          model.ClusterModel.UID := "";
          model.ClusterModel.Name := pkgCluster.CreateClusterRequest.Name request;
          model.ClusterModel.Location :=
            pkgCluster.CreateClusterRequest.Location request;
          model.ClusterModel.Cloud := pkgCluster.CreateClusterRequest.Cloud request;
          model.ClusterModel.OrganizationId := orgId;
          model.ClusterModel.SecretId :=
            pkgCluster.CreateClusterRequest.SecretId request;
          model.ClusterModel.ConfigSecretId := "";
          model.ClusterModel.SshSecretId := "";
          model.ClusterModel.Status := "";
          model.ClusterModel.StatusMessage := "";
          model.ClusterModel.Distribution := pkgCluster_OKE E;
          model.ClusterModel.CreatedAt := 0%Z;
          model.ClusterModel.CreatedBy := userId;
          model.ClusterModel.OKE := modelOracle.Cluster.zero |};
     APIEndpoint := "" |}.

(** [CreateOKEClusterFromRequest]. The result carries the new cluster, the
    request as the call leaves it (its [CreateClusterOKE] object is written
    to through the pointer given to [PopulateNetworkValues]) and the
    error. *)
Definition CreateOKEClusterFromRequest
  (request : pkgCluster.CreateClusterRequest.t) (orgId userId : uint)
  : M (OKECluster * pkgCluster.CreateClusterRequest.t * option error) :=
  let oke := new_OKECluster request orgId userId in
  let* (VCNID, err) :=
    CreatePreconfiguredVCN oke (pkgCluster.CreateClusterRequest.Name request) in
  match err with
  | Some err => ret (oke, request, Some err)
  | None =>
      let* (properties, err) :=
        PopulateNetworkValues oke
          (pkgCluster.CreateClusterRequest.Properties_CreateClusterOKE request)
          VCNID in
      let request :=
        pkgCluster.CreateClusterRequest.with_CreateClusterOKE request properties in
      match err with
      | Some err => ret (oke, request, Some err)
      | None =>
          let* res := CreateModelFromCreateRequest request userId in
          match res with
          | Err err => ret (oke, request, Some err)
          | Ok Model => ret (with_modelOKE oke Model, request, None)
          end
      end
  end.

(** [setClusterAdminRights]. A key missing from [secret.Values] reads as
    the empty string. *)
Definition setClusterAdminRights (o : OKECluster) (name : string)
  : M (option error) :=
  let* res := GetK8sConfig o in
  match res with
  | Err err => ret (Some (Wrap err "error getting k8s config"))
  | Ok kubeConfig =>
      let* res := GetK8sConnection kubeConfig in
      match res with
      | Err err => ret (Some (Wrap err "error getting k8s client"))
      | Ok client =>
          let* res := GetSecretWithValidation o in
          match res with
          | Err err => ret (Some (Wrap err "error getting secret"))
          | Ok secret =>
              if String.eqb (default "" (Values secret !! secretOracle_UserOCID E)) ""
              then ret (Some (New "empty user OCID"))
              else
                let* err :=
                  ClusterRoleBindings_Create client
                    {| rbac.ObjectMeta_Name := name;
                       rbac.Subjects :=
                         [ {| rbac.Kind := "User";
                              rbac.Name := default "" (Values secret !! "user_ocid");
                              rbac.APIGroup := v1_GroupName E |} ];
                       rbac.Ref :=
                         {| rbac.RoleKind := "ClusterRole";
                            rbac.RoleName := "cluster-admin";
                            rbac.RoleAPIGroup := v1beta1_GroupName E |} |} in
                match err with
                | Some err =>
                    ret (Some (Wrap err "creating cluster role binding failed"))
                | None => ret None
                end
          end
      end
  end.

(** [CreateCluster]. The manager is given a pointer to the stored spec, so
    the cluster holds the spec as the manager left it. *)
Definition CreateCluster (o : OKECluster) : M (OKECluster * option error) :=
  let* res := GetClusterManager o in
  match res with
  | Err err => ret (o, Some err)
  | Ok cm =>
      let* (after, err) :=
        ManageOKECluster cm (model.ClusterModel.OKE (modelCluster o)) in
      let o := with_modelOKE o after in
      match err with
      | Some err => ret (o, Some (Wrap err "error creating cluster"))
      | None =>
          let* err := setClusterAdminRights o "cluster-creator-admin-right" in
          match err with
          | Some err =>
              ret (o, Some (WithMessage err "error get/create clusterrolebinding"))
          | None => ret (o, None)
          end
      end
  end.

(** The loop of [UpdateCluster] over [model.NodePools]: the pools not
    marked for deleting are appended to [nodePools]; [np.Delete] on a nil
    pointer panics ([None] here). *)
Fixpoint keep_NodePools (nodePools nps : list (option modelOracle.NodePool.t))
  : option (list (option modelOracle.NodePool.t)) :=
  match nps with
  | [] => Some nodePools
  | None :: _ => None
  | Some np :: rest =>
      if negb (modelOracle.NodePool.Delete np)
      then keep_NodePools (nodePools ++ [Some np])%list rest
      else keep_NodePools nodePools rest
  end.

(** [UpdateCluster]. The result carries the cluster, the request as the
    call leaves it and the error. *)
Definition UpdateCluster (o : OKECluster)
  (r : pkgCluster.UpdateClusterRequest.t) (userId : uint)
  : M (OKECluster * pkgCluster.UpdateClusterRequest.t * option error) :=
  let* (updated, err) :=
    PopulateNetworkValues o (pkgCluster.UpdateClusterRequest.UpdateProperties_OKE r)
      (modelOracle.Cluster.VCNID (model.ClusterModel.OKE (modelCluster o))) in
  let r := {| pkgCluster.UpdateClusterRequest.UpdateProperties_OKE := updated |} in
  match err with
  | Some err => ret (o, r, Some err)
  | None =>
      let* res :=
        CreateModelFromUpdateRequest (model.ClusterModel.OKE (modelCluster o))
          r userId in
      match res with
      | Err err => ret (o, r, Some err)
      | Ok model =>
          let* res := GetClusterManager o in
          match res with
          | Err err => ret (o, r, Some err)
          | Ok cm =>
              let* (model, err) := ManageOKECluster cm model in
              match err with
              | Some err => ret (o, r, Some err)
              | None =>
                  match keep_NodePools [] (modelOracle.Cluster.NodePools model) with
                  | None => panic
                  | Some nodePools =>
                      let model :=
                        modelOracle.Cluster.with_NodePools model nodePools in
                      let o := with_modelOKE o model in
                      ret (o, r, err)
                  end
              end
          end
      end
  end.

(** [DeleteCluster]. *)
Definition DeleteCluster (o : OKECluster) : M (OKECluster * option error) :=
  let o :=
    with_modelOKE o
      (modelOracle.Cluster.with_Delete
         (model.ClusterModel.OKE (modelCluster o)) true) in
  let* res := GetClusterManager o in
  match res with
  | Err err => ret (o, Some err)
  | Ok cm =>
      let* (after, err) :=
        ManageOKECluster cm (model.ClusterModel.OKE (modelCluster o)) in
      let o := with_modelOKE o after in
      match err with
      | Some err => ret (o, Some err)
      | None =>
          let* err :=
            DeletePreconfiguredVCN o
              (modelOracle.Cluster.VCNID
                 (model.ClusterModel.OKE (modelCluster o))) in
          match err with
          | Some err => ret (o, Some err)
          | None => ret (o, None)
          end
      end
  end.

(** [GetID]. *)
Definition GetID (o : OKECluster) : uint :=
  model.ClusterModel.ID (modelCluster o).

(** The entry [GetStatus] stores for a pool that is not nil. *)
Definition NodePoolStatus_of (np : modelOracle.NodePool.t)
  : pkgCluster.NodePoolStatus.t :=
  let count := getNodeCount np in
  {| pkgCluster.NodePoolStatus.Count := count;
     pkgCluster.NodePoolStatus.Autoscaling := false;
     pkgCluster.NodePoolStatus.MinCount := count;
     pkgCluster.NodePoolStatus.MaxCount := count;
     pkgCluster.NodePoolStatus.InstanceType := modelOracle.NodePool.Shape np;
     pkgCluster.NodePoolStatus.Image := modelOracle.NodePool.Image np;
     pkgCluster.NodePoolStatus.Version := modelOracle.NodePool.Version np |}.

(** The loop of [GetStatus]: [nodePools[np.Name] = ...] for every pool that
    is not nil, in order. *)
Definition GetStatus_body (nodePools : gmap string pkgCluster.NodePoolStatus.t)
  (np : option modelOracle.NodePool.t) : gmap string pkgCluster.NodePoolStatus.t :=
  match np with
  | None => nodePools
  | Some np => <[modelOracle.NodePool.Name np := NodePoolStatus_of np]> nodePools
  end.

Definition GetStatus_nodePools (nps : list (option modelOracle.NodePool.t))
  : gmap string pkgCluster.NodePoolStatus.t :=
  foldl GetStatus_body ∅ nps.

(** [GetStatus]. *)
Definition GetStatus (o : OKECluster)
  : pkgCluster.GetClusterStatusResponse.t * option error :=
  let m := modelCluster o in
  let nodePools :=
    GetStatus_nodePools (modelOracle.Cluster.NodePools (model.ClusterModel.OKE m)) in
  ({| pkgCluster.GetClusterStatusResponse.Status := model.ClusterModel.Status m;
      pkgCluster.GetClusterStatusResponse.StatusMessage :=
        model.ClusterModel.StatusMessage m;
      pkgCluster.GetClusterStatusResponse.Name := model.ClusterModel.Name m;
      pkgCluster.GetClusterStatusResponse.Location := model.ClusterModel.Location m;
      pkgCluster.GetClusterStatusResponse.Cloud := pkgCluster_Oracle E;
      pkgCluster.GetClusterStatusResponse.Distribution :=
        model.ClusterModel.Distribution m;
      pkgCluster.GetClusterStatusResponse.Version :=
        modelOracle.Cluster.Version (model.ClusterModel.OKE m);
      pkgCluster.GetClusterStatusResponse.ResourceID := GetID o;
      pkgCluster.GetClusterStatusResponse.CreatorBaseFields :=
        NewCreatorBaseFields (model.ClusterModel.CreatedAt m)
                             (model.ClusterModel.CreatedBy m);
      pkgCluster.GetClusterStatusResponse.NodePools := nodePools |}, None).

(** The loop of [GetClusterDetails] over the stored node pools. *)
Definition GetClusterDetails_nodePools (nps : list (option modelOracle.NodePool.t))
  : gmap string pkgCluster.NodeDetails.t :=
  foldl (fun nodePools np =>
           match np with
           | None => nodePools
           | Some np =>
               let count := getNodeCount np in
               <[modelOracle.NodePool.Name np :=
                   {| pkgCluster.NodeDetails.CreatorBaseFields :=
                        NewCreatorBaseFields (modelOracle.NodePool.CreatedAt np)
                                             (modelOracle.NodePool.CreatedBy np);
                      pkgCluster.NodeDetails.Version := modelOracle.NodePool.Version np;
                      pkgCluster.NodeDetails.Count := count;
                      pkgCluster.NodeDetails.MinCount := count;
                      pkgCluster.NodeDetails.MaxCount := count |}]> nodePools
           end) ∅ nps.

(** [GetClusterDetails]: [(nil, err)] on every error path. *)
Definition GetClusterDetails (o : OKECluster)
  : M (option pkgCluster.DetailsResponse.t * option error) :=
  let m := modelCluster o in
  let* res := GetOCIWithRegion o (model.ClusterModel.Location m) in
  match res with
  | Err err => ret (None, Some err)
  | Ok oci =>
      let* res := NewContainerEngineClient oci in
      match res with
      | Err err => ret (None, Some err)
      | Ok ce =>
          let* res :=
            GetCluster ce (modelOracle.Cluster.OCID (model.ClusterModel.OKE m)) in
          match res with
          | Err err => ret (None, Some err)
          | Ok cluster =>
              if negb (String.eqb (LifecycleState cluster) "ACTIVE")
              then ret (None, Some ErrorClusterNotReady)
              else
                let '(status, err) := GetStatus o in
                match err with
                | Some err => ret (None, Some err)
                | None =>
                    let nodePools :=
                      GetClusterDetails_nodePools
                        (modelOracle.Cluster.NodePools (model.ClusterModel.OKE m)) in
                    ret (Some
                      {| pkgCluster.DetailsResponse.CreatorBaseFields :=
                           NewCreatorBaseFields (model.ClusterModel.CreatedAt m)
                                                (model.ClusterModel.CreatedBy m);
                         pkgCluster.DetailsResponse.Name :=
                           pkgCluster.GetClusterStatusResponse.Name status;
                         pkgCluster.DetailsResponse.Id :=
                           pkgCluster.GetClusterStatusResponse.ResourceID status;
                         pkgCluster.DetailsResponse.Location :=
                           pkgCluster.GetClusterStatusResponse.Location status;
                         pkgCluster.DetailsResponse.MasterVersion :=
                           modelOracle.Cluster.Version (model.ClusterModel.OKE m);
                         pkgCluster.DetailsResponse.NodePools := nodePools;
                         pkgCluster.DetailsResponse.Status :=
                           model.ClusterModel.Status m |}, None)
                end
          end
      end
  end.

End Lifecycle.

(** ** Reading a run *)

(** The log a computation ends with. *)
Definition world_of {A} (out : outcome A) : World :=
  match out with
  | Returns _ w => w
  | Panics w => w
  end.

(** The calls a computation started on the log [w] added to it. *)
Definition new_events {A} (w : World) (out : outcome A) : list Event :=
  drop (length w) (world_of out).

(** The calls [GetOCIWithRegion] makes: the secret store and the OCI
    client. *)
Definition is_auth_event (ev : Event) : bool :=
  match ev with
  | Ev_getSecret _ _ _ | Ev_NewOCI _ _ | Ev_ChangeRegion _ _ _ => true
  | _ => false
  end.

Definition auth_events (evs : list Event) : Prop :=
  Forall (fun ev => is_auth_event ev = true) evs.

(** The five ways a run of [PopulateNetworkValues] on [r] can end, with the
    calls it made: the client or the query failed and [r] is untouched; the
    network does not have 2 load-balancer subnets; a pool of the request is
    nil; or every value is written. *)
Inductive Populate_run (r : oracle.Cluster.t) (VCNID : string) (w : World)
  : outcome (oracle.Cluster.t * option error) -> Prop :=
| Populate_no_client evs err :
    auth_events evs ->
    Populate_run r VCNID w (Returns (r, Some err) (w ++ evs)%list)
| Populate_no_values evs oci err :
    auth_events evs ->
    Populate_run r VCNID w
      (Returns (r, Some err)
         (w ++ evs ++ [Ev_GetNetworkValues (NewVCNManager oci) VCNID (Err err)])%list)
| Populate_bad_network evs oci nv :
    auth_events evs ->
    length (LBSubnetIDs nv) <> 2%nat ->
    Populate_run r VCNID w
      (Returns
         (oracle.Cluster.SetVCNID r VCNID,
          Some (Errorf "Invalid network config: there must be 2 loadbalancer subnets!"))
         (w ++ evs ++ [Ev_GetNetworkValues (NewVCNManager oci) VCNID (Ok nv)])%list)
| Populate_nil_pool evs oci nv :
    auth_events evs ->
    length (LBSubnetIDs nv) = 2%nat ->
    populate_NodePools nv (oracle.Cluster.NodePools r) = None ->
    Populate_run r VCNID w
      (Panics
         (w ++ evs ++ [Ev_GetNetworkValues (NewVCNManager oci) VCNID (Ok nv)])%list)
| Populate_done evs oci nv lb1 lb2 nps :
    auth_events evs ->
    LBSubnetIDs nv = [lb1; lb2] ->
    populate_NodePools nv (oracle.Cluster.NodePools r) = Some nps ->
    Populate_run r VCNID w
      (Returns
         ({| oracle.Cluster.Version := oracle.Cluster.Version r;
             oracle.Cluster.NodePools := nps;
             oracle.Cluster.vcnID := VCNID;
             oracle.Cluster.lbSubnetID1 := lb1;
             oracle.Cluster.lbSubnetID2 := lb2 |}, None)
         (w ++ evs ++ [Ev_GetNetworkValues (NewVCNManager oci) VCNID (Ok nv)])%list).

(** What the loop wrote: each pool keeps its count and receives the
    quantity and the subnets of the distribution. *)
Definition populated (nv : NetworkValues) (p p' : option oracle.NodePool.t) : Prop :=
  exists np np', p = Some np /\ p' = Some np' /\
    oracle.NodePool.Count np' = oracle.NodePool.Count np /\
    (oracle.NodePool.quantityPerSubnet np', oracle.NodePool.subnetIds np') =
    GetPoolQuantityValues (oracle.NodePool.Count np) nv.

(** The cluster with the deleting flag set on its spec. *)
Definition marked_deleting (o : OKECluster) : OKECluster :=
  with_modelOKE o
    (modelOracle.Cluster.with_Delete (model.ClusterModel.OKE (modelCluster o)) true).


(** A pool that the loop of [UpdateCluster] keeps: one not marked for
    deleting. *)
Definition kept (p : option modelOracle.NodePool.t) : bool :=
  match p with
  | Some np => negb (modelOracle.NodePool.Delete np)
  | None => false
  end.

(** ** Sample data and sample collaborators *)

Definition sample_networkValues : NetworkValues :=
  {| LBSubnetIDs := ["lb1"; "lb2"]; WNSubnetIDs := ["s1"; "s2"; "s3"; "s4"] |}.

Definition sample_pool (name : string) (q : uint) (subnets : list string)
  (delete : bool) : modelOracle.NodePool.t :=
  {| modelOracle.NodePool.Name := name;
     modelOracle.NodePool.Image := "Oracle-Linux-7.4";
     modelOracle.NodePool.Shape := "VM.Standard1.1";
     modelOracle.NodePool.Version := "v1.10.3";
     modelOracle.NodePool.QuantityPerSubnet := q;
     modelOracle.NodePool.Subnets := subnets;
     modelOracle.NodePool.CreatedAt := 0%Z;
     modelOracle.NodePool.CreatedBy := 1%N;
     modelOracle.NodePool.Delete := delete |}.

Definition sample_spec (pools : list (option modelOracle.NodePool.t))
  : modelOracle.Cluster.t :=
  {| modelOracle.Cluster.OCID := "ocid1.cluster.x";
     modelOracle.Cluster.VCNID := "ocid1.vcn.x";
     modelOracle.Cluster.Version := "v1.10.3";
     modelOracle.Cluster.NodePools := pools;
     modelOracle.Cluster.Delete := false |}.

Definition sample_cluster (status : string)
  (pools : list (option modelOracle.NodePool.t)) : OKECluster :=
  {| modelCluster :=
       {| model.ClusterModel.ID := 7%N;
          model.ClusterModel.UID := "uid-7";
          model.ClusterModel.Name := "demo";
          model.ClusterModel.Location := "eu-frankfurt-1";
          model.ClusterModel.Cloud := "oracle";
          model.ClusterModel.OrganizationId := 1%N;
          model.ClusterModel.SecretId := "secret-1";
          model.ClusterModel.ConfigSecretId := "";
          model.ClusterModel.SshSecretId := "";
          model.ClusterModel.Status := status;
          model.ClusterModel.StatusMessage := "";
          model.ClusterModel.Distribution := "oke";
          model.ClusterModel.CreatedAt := 0%Z;
          model.ClusterModel.CreatedBy := 1%N;
          model.ClusterModel.OKE := sample_spec pools |};
     APIEndpoint := "" |}.

Definition sample_request_spec (counts : list uint) : oracle.Cluster.t :=
  {| oracle.Cluster.Version := "v1.10.3";
     oracle.Cluster.NodePools :=
       map (fun c => Some {| oracle.NodePool.Count := c;
                             oracle.NodePool.quantityPerSubnet := 0%N;
                             oracle.NodePool.subnetIds := [] |}) counts;
     oracle.Cluster.vcnID := "";
     oracle.Cluster.lbSubnetID1 := "";
     oracle.Cluster.lbSubnetID2 := "" |}.

Definition sample_create_request (counts : list uint)
  : pkgCluster.CreateClusterRequest.t :=
  {| pkgCluster.CreateClusterRequest.Name := "demo";
     pkgCluster.CreateClusterRequest.Location := "eu-frankfurt-1";
     pkgCluster.CreateClusterRequest.Cloud := "oracle";
     pkgCluster.CreateClusterRequest.SecretId := "secret-1";
     pkgCluster.CreateClusterRequest.Properties_CreateClusterOKE :=
       sample_request_spec counts |}.

Definition sample_update_request (counts : list uint)
  : pkgCluster.UpdateClusterRequest.t :=
  {| pkgCluster.UpdateClusterRequest.UpdateProperties_OKE :=
       sample_request_spec counts |}.

(** A model built from a request spec: one stored pool per requested pool,
    all named ["pool1"]. *)
Definition sample_model_of (r : oracle.Cluster.t) : modelOracle.Cluster.t :=
  {| modelOracle.Cluster.OCID := "";
     modelOracle.Cluster.VCNID := oracle.Cluster.vcnID r;
     modelOracle.Cluster.Version := oracle.Cluster.Version r;
     modelOracle.Cluster.NodePools :=
       map (fmap (fun np =>
                    sample_pool "pool1" (oracle.NodePool.quantityPerSubnet np)
                                (oracle.NodePool.subnetIds np) false))
           (oracle.Cluster.NodePools r);
     modelOracle.Cluster.Delete := false |}.

(** Collaborators that answer the same whatever happened before: the
    network manager with [vcn] and [nv], the cluster manager with
    [apply_err] (leaving the spec as it is), the role binding call with
    [rbac_err], the container engine with [live]. The update constructor
    keeps the stored spec. *)
Definition sample_env (vcn : result VCN) (nv : result NetworkValues)
  (apply_err rbac_err : option error) (live : result LiveCluster) : Env :=
  {| pkgCluster_OKE := "oke";
     pkgCluster_Oracle := "oracle";
     secretOracle_UserOCID := "user_ocid";
     v1_GroupName := "";
     v1beta1_GroupName := "rbac.authorization.k8s.io";
     env_getSecret := fun _ _ _ =>
       Ok {| Values := {[ "user_ocid" := "ocid1.user.x" ]} |};
     env_NewOCI := fun _ _ => Ok 1%N;
     env_ChangeRegion := fun _ _ _ => None;
     env_VCNCreate := fun _ _ _ => vcn;
     env_VCNDelete := fun _ _ _ => None;
     env_GetNetworkValues := fun _ _ _ => nv;
     env_ManageOKECluster := fun _ _ c => (c, apply_err);
     env_NewContainerEngineClient := fun _ _ => Ok 2%N;
     env_GetCluster := fun _ _ _ => live;
     env_getConfig := fun _ _ => Ok "kubeconfig";
     env_GetK8sConnection := fun _ _ => Ok 3%N;
     env_ClusterRoleBindingsCreate := fun _ _ _ => rbac_err;
     env_CreateModelFromCreateRequest := fun _ r _ =>
       Ok (sample_model_of
             (pkgCluster.CreateClusterRequest.Properties_CreateClusterOKE r));
     env_CreateModelFromUpdateRequest := fun _ current _ _ => Ok current |}.

Definition sample_env_ok : Env :=
  sample_env (Ok {| Id := Some "ocid1.vcn.x" |}) (Ok sample_networkValues)
             None None (Ok {| LifecycleState := "ACTIVE" |}).

(** ** Further methods of [OKECluster] *)

(** The getters used below. *)
Definition GetName (o : OKECluster) : string :=
  model.ClusterModel.Name (modelCluster o).

Definition GetDistribution (o : OKECluster) : string :=
  model.ClusterModel.Distribution (modelCluster o).

Definition GetOrganizationId (o : OKECluster) : uint :=
  model.ClusterModel.OrganizationId (modelCluster o).

Definition GetLocation (o : OKECluster) : string :=
  model.ClusterModel.Location (modelCluster o).

Definition GetSecretId (o : OKECluster) : string :=
  model.ClusterModel.SecretId (modelCluster o).

(** [GetAPIEndpoint]. The cluster the container engine reports holds its
    Kubernetes endpoint behind two pointers, [cluster.Endpoints] and
    [Endpoints.Kubernetes]; [LiveCluster] does not hold them, so they are
    read through [Endpoints_Kubernetes], a parameter that is given the log
    up to the call that returned the cluster and the cluster: [None] for a
    nil [Endpoints], [Some None] for a nil [Kubernetes]. Dereferencing
    either nil pointer panics. The result carries the cluster (its cached
    [APIEndpoint] is written on success) and the two values returned. *)
Definition GetAPIEndpoint (E : Env)
  (Endpoints_Kubernetes : World -> LiveCluster -> option (option string))
  (o : OKECluster) : M (OKECluster * (string * option error)) :=
  let* res := GetOCIWithRegion E o (model.ClusterModel.Location (modelCluster o)) in
  match res with
  | Err err => ret (o, (APIEndpoint o, Some err))
  | Ok oci =>
      let* res := NewContainerEngineClient E oci in
      match res with
      | Err err => ret (o, (APIEndpoint o, Some err))
      | Ok ce =>
          let* res :=
            GetCluster E ce
              (modelOracle.Cluster.OCID (model.ClusterModel.OKE (modelCluster o))) in
          match res with
          | Err err => ret (o, (APIEndpoint o, Some err))
          | Ok cluster =>
              fun w =>
                match Endpoints_Kubernetes w cluster with
                | Some (Some host) =>
                    let o :=
                      {| modelCluster := modelCluster o;
                         APIEndpoint := "https://" +:+ host |} in
                    Returns (o, (APIEndpoint o, None)) w
                | _ => Panics w
                end
          end
      end
  end.

(** The role binding [setClusterAdminRights] asks for, given the name and
    the secret it read. *)
Definition admin_binding (E : Env) (name : string) (secret : SecretItemResponse)
  : rbac.ClusterRoleBinding :=
  {| rbac.ObjectMeta_Name := name;
     rbac.Subjects :=
       [ {| rbac.Kind := "User";
            rbac.Name := default "" (Values secret !! "user_ocid");
            rbac.APIGroup := v1_GroupName E |} ];
     rbac.Ref :=
       {| rbac.RoleKind := "ClusterRole";
          rbac.RoleName := "cluster-admin";
          rbac.RoleAPIGroup := v1beta1_GroupName E |} |}.

(** The five ways a run of [setClusterAdminRights] can end: the error it
    returns and the calls it made, in order. *)
Inductive Rbac_calls (E : Env) (o : OKECluster) (name : string)
  : option error -> list Event -> Prop :=
| Rbac_no_config e :
    Rbac_calls E o name (Some (Wrap e "error getting k8s config"))
      [Ev_getConfig (model.ClusterModel.ID (modelCluster o)) (Err e)]
| Rbac_no_connection cfg e :
    Rbac_calls E o name (Some (Wrap e "error getting k8s client"))
      [Ev_getConfig (model.ClusterModel.ID (modelCluster o)) (Ok cfg);
       Ev_GetK8sConnection cfg (Err e)]
| Rbac_no_secret cfg client e :
    Rbac_calls E o name (Some (Wrap e "error getting secret"))
      [Ev_getConfig (model.ClusterModel.ID (modelCluster o)) (Ok cfg);
       Ev_GetK8sConnection cfg (Ok client);
       Ev_getSecret (model.ClusterModel.OrganizationId (modelCluster o))
         (model.ClusterModel.SecretId (modelCluster o)) (Err e)]
| Rbac_empty_user cfg client secret :
    default "" (Values secret !! secretOracle_UserOCID E) = "" ->
    Rbac_calls E o name (Some (New "empty user OCID"))
      [Ev_getConfig (model.ClusterModel.ID (modelCluster o)) (Ok cfg);
       Ev_GetK8sConnection cfg (Ok client);
       Ev_getSecret (model.ClusterModel.OrganizationId (modelCluster o))
         (model.ClusterModel.SecretId (modelCluster o)) (Ok secret)]
| Rbac_asked cfg client secret err :
    default "" (Values secret !! secretOracle_UserOCID E) <> "" ->
    Rbac_calls E o name
      (match err with
       | Some e => Some (Wrap e "creating cluster role binding failed")
       | None => None
       end)
      [Ev_getConfig (model.ClusterModel.ID (modelCluster o)) (Ok cfg);
       Ev_GetK8sConnection cfg (Ok client);
       Ev_getSecret (model.ClusterModel.OrganizationId (modelCluster o))
         (model.ClusterModel.SecretId (modelCluster o)) (Ok secret);
       Ev_ClusterRoleBindingsCreate client (admin_binding E name secret) err].

(** The calls only the role-binding step makes. *)
Definition is_rbac_event (ev : Event) : bool :=
  match ev with
  | Ev_getConfig _ _ | Ev_GetK8sConnection _ _
  | Ev_ClusterRoleBindingsCreate _ _ _ => true
  | _ => false
  end.

(** The error a call answered with, if any. *)
Definition result_error {A} (r : result A) : option error :=
  match r with
  | Ok _ => None
  | Err e => Some e
  end.

Definition event_error (ev : Event) : option error :=
  match ev with
  | Ev_getSecret _ _ r => result_error r
  | Ev_NewOCI _ r => result_error r
  | Ev_ChangeRegion _ _ e => e
  | Ev_VCNCreate _ _ r => result_error r
  | Ev_VCNDelete _ _ e => e
  | Ev_GetNetworkValues _ _ r => result_error r
  | Ev_ManageOKECluster _ _ _ e => e
  | Ev_NewContainerEngineClient _ r => result_error r
  | Ev_GetCluster _ _ r => result_error r
  | Ev_getConfig _ r => result_error r
  | Ev_GetK8sConnection _ r => result_error r
  | Ev_ClusterRoleBindingsCreate _ _ e => e
  | Ev_CreateModelFromCreateRequest _ _ r => result_error r
  | Ev_CreateModelFromUpdateRequest _ _ _ r => result_error r
  end.

(** A list of calls whose last one answered with the error [e]. *)
Definition failed_with (evs : list Event) (e : error) : Prop :=
  exists ev, last evs = Some ev /\ event_error ev = Some e.

(** The ways a run of [CreateCluster] can end: no cluster manager; the
    manager refused the spec; or the spec was applied and the role-binding
    step ran on the cluster holding the spec as the manager left it. *)
Inductive CreateCluster_run (E : Env) (o : OKECluster) (w : World)
  : outcome (OKECluster * option error) -> Prop :=
| CreateCluster_no_manager evs e :
    auth_events evs -> failed_with evs e ->
    CreateCluster_run E o w (Returns (o, Some e) (w ++ evs)%list)
| CreateCluster_refused evs cm after e :
    auth_events evs ->
    CreateCluster_run E o w
      (Returns (with_modelOKE o after, Some (Wrap e "error creating cluster"))
         (w ++ evs ++
          [Ev_ManageOKECluster cm (model.ClusterModel.OKE (modelCluster o))
             after (Some e)])%list)
| CreateCluster_applied evs cm after err revs :
    auth_events evs ->
    Rbac_calls E (with_modelOKE o after) "cluster-creator-admin-right" err revs ->
    CreateCluster_run E o w
      (Returns
         (with_modelOKE o after,
          match err with
          | Some e => Some (WithMessage e "error get/create clusterrolebinding")
          | None => None
          end)
         (w ++ evs ++
          Ev_ManageOKECluster cm (model.ClusterModel.OKE (modelCluster o))
            after None :: revs)%list).

(** The request of an update whose provider part is [c]. *)
Definition update_request_of (c : oracle.Cluster.t)
  : pkgCluster.UpdateClusterRequest.t :=
  {| pkgCluster.UpdateClusterRequest.UpdateProperties_OKE := c |}.

(** The ways a run of [UpdateCluster] can end after [PopulateNetworkValues]
    returned the request spec [c] without error on the log [w1]. *)
Inductive Update_tail (E : Env) (o : OKECluster) (c : oracle.Cluster.t)
  (userId : uint) (w1 : World)
  : outcome (OKECluster * pkgCluster.UpdateClusterRequest.t * option error) -> Prop :=
| Update_no_model e :
    Update_tail E o c userId w1
      (Returns (o, update_request_of c, Some e)
         (w1 ++
          [Ev_CreateModelFromUpdateRequest (model.ClusterModel.OKE (modelCluster o))
             (update_request_of c) userId (Err e)])%list)
| Update_no_manager model evs e :
    auth_events evs -> failed_with evs e ->
    Update_tail E o c userId w1
      (Returns (o, update_request_of c, Some e)
         (w1 ++
          Ev_CreateModelFromUpdateRequest (model.ClusterModel.OKE (modelCluster o))
            (update_request_of c) userId (Ok model) :: evs)%list)
| Update_refused model evs cm after e :
    auth_events evs ->
    Update_tail E o c userId w1
      (Returns (o, update_request_of c, Some e)
         (w1 ++
          Ev_CreateModelFromUpdateRequest (model.ClusterModel.OKE (modelCluster o))
            (update_request_of c) userId (Ok model) ::
          evs ++ [Ev_ManageOKECluster cm model after (Some e)])%list)
| Update_nil_pool model evs cm after :
    auth_events evs ->
    keep_NodePools [] (modelOracle.Cluster.NodePools after) = None ->
    Update_tail E o c userId w1
      (Panics
         (w1 ++
          Ev_CreateModelFromUpdateRequest (model.ClusterModel.OKE (modelCluster o))
            (update_request_of c) userId (Ok model) ::
          evs ++ [Ev_ManageOKECluster cm model after None])%list)
| Update_applied model evs cm after nodePools :
    auth_events evs ->
    keep_NodePools [] (modelOracle.Cluster.NodePools after) = Some nodePools ->
    Update_tail E o c userId w1
      (Returns
         (with_modelOKE o (modelOracle.Cluster.with_NodePools after nodePools),
          update_request_of c, None)
         (w1 ++
          Ev_CreateModelFromUpdateRequest (model.ClusterModel.OKE (modelCluster o))
            (update_request_of c) userId (Ok model) ::
          evs ++ [Ev_ManageOKECluster cm model after None])%list).

(** The calls made to the network manager. *)
Definition is_network_event (ev : Event) : bool :=
  match ev with
  | Ev_VCNCreate _ _ _ | Ev_VCNDelete _ _ _ | Ev_GetNetworkValues _ _ _ => true
  | _ => false
  end.

(** A stored pool that is there and not marked for deleting. *)
Definition live_pool (p : option modelOracle.NodePool.t) : Prop :=
  exists np, p = Some np /\ modelOracle.NodePool.Delete np = false.

(** A request pool that holds as many instances as it asks for. *)
Definition distributed (p : option oracle.NodePool.t) : Prop :=
  exists np, p = Some np /\
    oracle.NodePool.Count np =
    (oracle.NodePool.quantityPerSubnet np *
     N.of_nat (length (oracle.NodePool.subnetIds np)))%N.

(** * Properties *)

(** ** Arithmetic of [int] *)

Lemma wrap_int_small (z : Z) :
  (- 2 ^ 63 <= z < 2 ^ 63)%Z -> wrap_int z = z.
Proof.
  intros Hz. unfold wrap_int.
  rewrite Z.mod_small by lia. lia.
Qed.

Lemma wrap_int_mul_l (a b : Z) :
  wrap_int (wrap_int a * b) = wrap_int (a * b).
Proof.
  unfold wrap_int. f_equal.
  pose proof (Z.div_mod (a + 2 ^ 63) (2 ^ 64) ltac:(lia)) as Hdm.
  replace (((a + 2 ^ 63) `mod` 2 ^ 64 - 2 ^ 63) * b + 2 ^ 63)%Z
    with (a * b + 2 ^ 63 + (- ((a + 2 ^ 63) `div` 2 ^ 64 * b)) * 2 ^ 64)%Z by nia.
  apply Z_mod_plus_full.
Qed.

Lemma getNodeCount_wrap (np : modelOracle.NodePool.t) :
  getNodeCount np =
  wrap_int (Z.of_N (modelOracle.NodePool.QuantityPerSubnet np) *
            Z.of_nat (length (modelOracle.NodePool.Subnets np))).
Proof.
  unfold getNodeCount, int_mul, int_of_uint, len. apply wrap_int_mul_l.
Qed.

(** ** The distribution *)

Lemma slice_0 {A} (s : list A) (hi : nat) : slice s 0 hi = take hi s.
Proof. unfold slice. by rewrite Nat.sub_0_r. Qed.

Lemma GetPoolQuantityValues_degenerate (count : uint) (nv : NetworkValues) :
  count = 0%N \/ (length (WNSubnetIDs nv) < 3)%nat ->
  GetPoolQuantityValues count nv = (0%N, []).
Proof.
  intros H. unfold GetPoolQuantityValues.
  destruct (N.eqb_spec count 0) as [->|Hc]; [done|].
  destruct (Nat.ltb_spec (length (WNSubnetIDs nv)) 3) as [Hl|Hl]; [done|].
  destruct H; [done|lia].
Qed.

Lemma GetPoolQuantityValues_regular (count : uint) (nv : NetworkValues) :
  count <> 0%N -> (3 <= length (WNSubnetIDs nv))%nat ->
  GetPoolQuantityValues count nv =
  if (count `mod` 3 =? 0)%N then ((count `div` 3)%N, take 3 (WNSubnetIDs nv))
  else if (count `mod` 2 =? 0)%N then ((count `div` 2)%N, take 2 (WNSubnetIDs nv))
  else (count, take 1 (WNSubnetIDs nv)).
Proof.
  intros Hc Hl. unfold GetPoolQuantityValues.
  destruct (N.eqb_spec count 0) as [?|_]; [done|].
  destruct (Nat.ltb_spec (length (WNSubnetIDs nv)) 3) as [?|_]; [lia|].
  cbn [orb]. by rewrite !slice_0.
Qed.

(** C1. For every count and every list of worker subnets,
    [GetPoolQuantityValues] returns quantity 0 and no subnet when the count
    is 0 or fewer than 3 worker subnets are available; otherwise a third of
    the count with the first 3 subnets when 3 divides the count; otherwise
    half of the count with the first 2 subnets when 2 divides it; otherwise
    the whole count with the first subnet alone. *)
Theorem GetPoolQuantityValues_spec (count : uint) (nv : NetworkValues) :
  (count = 0%N \/ (length (WNSubnetIDs nv) < 3)%nat ->
   GetPoolQuantityValues count nv = (0%N, [])) /\
  (count <> 0%N -> (3 <= length (WNSubnetIDs nv))%nat ->
   (count `mod` 3 = 0)%N ->
   GetPoolQuantityValues count nv =
   ((count `div` 3)%N, take 3 (WNSubnetIDs nv)) /\
   length (take 3 (WNSubnetIDs nv)) = 3%nat) /\
  (count <> 0%N -> (3 <= length (WNSubnetIDs nv))%nat ->
   (count `mod` 3 <> 0)%N -> (count `mod` 2 = 0)%N ->
   GetPoolQuantityValues count nv =
   ((count `div` 2)%N, take 2 (WNSubnetIDs nv)) /\
   length (take 2 (WNSubnetIDs nv)) = 2%nat) /\
  (count <> 0%N -> (3 <= length (WNSubnetIDs nv))%nat ->
   (count `mod` 3 <> 0)%N -> (count `mod` 2 <> 0)%N ->
   GetPoolQuantityValues count nv = (count, take 1 (WNSubnetIDs nv)) /\
   length (take 1 (WNSubnetIDs nv)) = 1%nat).
Proof.
  split; [apply GetPoolQuantityValues_degenerate|].
  split; [|split]; intros Hc Hl H3; intros;
    rewrite GetPoolQuantityValues_regular by done;
    rewrite length_take;
    (split; [|lia]);
    destruct (N.eqb_spec (count `mod` 3) 0); try done;
    destruct (N.eqb_spec (count `mod` 2) 0); done.
Qed.

Lemma GetPoolQuantityValues_spec_witness :
  GetPoolQuantityValues 0%N sample_networkValues = (0%N, []) /\
  GetPoolQuantityValues 6%N sample_networkValues = (2%N, ["s1"; "s2"; "s3"]) /\
  GetPoolQuantityValues 4%N sample_networkValues = (2%N, ["s1"; "s2"]) /\
  GetPoolQuantityValues 5%N sample_networkValues = (5%N, ["s1"]).
Proof.
  split; [|split; [|split]].
  - apply (proj1 (GetPoolQuantityValues_spec 0%N sample_networkValues)).
    left. reflexivity.
  - apply (proj1 (proj2 (GetPoolQuantityValues_spec 6%N sample_networkValues)));
      [discriminate | simpl; lia | reflexivity].
  - apply (proj1 (proj2 (proj2 (GetPoolQuantityValues_spec 4%N sample_networkValues))));
      [discriminate | simpl; lia | discriminate | reflexivity].
  - apply (proj2 (proj2 (proj2 (GetPoolQuantityValues_spec 5%N sample_networkValues))));
      [discriminate | simpl; lia | discriminate | discriminate].
Defined.

(** C2, as stated: the requested count always equals the returned quantity
    times the number of assigned subnets. It fails for a positive count on
    a network with fewer than 3 worker subnets: 5 instances over 2 worker
    subnets give quantity 0 over no subnet. *)
Lemma distribution_product_counterexample :
  ~ (forall (count : uint) (nv : NetworkValues),
       count =
       (fst (GetPoolQuantityValues count nv) *
        N.of_nat (length (snd (GetPoolQuantityValues count nv))))%N).
Proof.
  intros H.
  specialize (H 5%N {| LBSubnetIDs := ["lb1"; "lb2"]; WNSubnetIDs := ["s1"; "s2"] |}).
  vm_compute in H. discriminate.
Qed.

(** C2, amended. When the count is 0 or at least 3 worker subnets are
    available, the requested count equals the returned quantity times the
    number of assigned subnets. For a positive count on fewer than 3 worker
    subnets the result is the degenerate one, and the product is 0. *)
Theorem distribution_product (count : uint) (nv : NetworkValues) :
  (count = 0%N \/ (3 <= length (WNSubnetIDs nv))%nat ->
   count =
   (fst (GetPoolQuantityValues count nv) *
    N.of_nat (length (snd (GetPoolQuantityValues count nv))))%N) /\
  (count <> 0%N -> (length (WNSubnetIDs nv) < 3)%nat ->
   GetPoolQuantityValues count nv = (0%N, []) /\
   (fst (GetPoolQuantityValues count nv) *
    N.of_nat (length (snd (GetPoolQuantityValues count nv))))%N = 0%N).
Proof.
  split.
  - intros [->|Hl].
    + by rewrite GetPoolQuantityValues_degenerate by (by left).
    + destruct (N.eq_dec count 0) as [->|Hc].
      { by rewrite GetPoolQuantityValues_degenerate by (by left). }
      rewrite GetPoolQuantityValues_regular by done.
      destruct (N.eqb_spec (count `mod` 3) 0) as [H3|H3];
        [|destruct (N.eqb_spec (count `mod` 2) 0) as [H2|H2]];
        cbn [fst snd]; rewrite length_take.
      * rewrite Nat.min_l by lia.
        pose proof (N.div_mod count 3 ltac:(done)). lia.
      * rewrite Nat.min_l by lia.
        pose proof (N.div_mod count 2 ltac:(done)). lia.
      * rewrite Nat.min_l by lia. lia.
  - intros Hc Hl.
    by rewrite GetPoolQuantityValues_degenerate by (by right).
Qed.

Lemma distribution_product_witness :
  (9 =
   fst (GetPoolQuantityValues 9 sample_networkValues) *
   N.of_nat (length (snd (GetPoolQuantityValues 9 sample_networkValues))))%N.
Proof.
  apply (proj1 (distribution_product 9%N sample_networkValues)).
  right. simpl. lia.
Defined.

(** ** The status projection *)

Lemma NodePoolStatus_of_Count (np : modelOracle.NodePool.t) :
  pkgCluster.NodePoolStatus.Count (NodePoolStatus_of np) =
  wrap_int (Z.of_N (modelOracle.NodePool.QuantityPerSubnet np) *
            Z.of_nat (length (modelOracle.NodePool.Subnets np))).
Proof. apply getNodeCount_wrap. Qed.

(** An entry found after the loop was there before it or was written for
    a pool of the list. *)
Lemma GetStatus_loop_lookup (nps : list (option modelOracle.NodePool.t))
  (m0 : gmap string pkgCluster.NodePoolStatus.t) (name : string)
  (st : pkgCluster.NodePoolStatus.t) :
  foldl GetStatus_body m0 nps !! name = Some st ->
  m0 !! name = Some st \/
  exists np, Some np ∈ nps /\ modelOracle.NodePool.Name np = name /\
             st = NodePoolStatus_of np.
Proof.
  revert m0. induction nps as [|[np|] nps IH]; intros m0 H; simpl in H.
  - by left.
  - apply IH in H as [H|(np' & Hin & Hn & Hst)].
    + destruct (decide (modelOracle.NodePool.Name np = name)) as [<-|Hne].
      * rewrite lookup_insert_eq in H. right. exists np.
        split; [set_solver|]. split; [done|congruence].
      * rewrite lookup_insert_ne in H by done. by left.
    + right. exists np'. split; [set_solver|done].
  - apply IH in H as [H|(np' & Hin & Hn & Hst)]; [by left|].
    right. exists np'. split; [set_solver|done].
Qed.

(** The loop never removes a key. *)
Lemma GetStatus_loop_keeps (nps : list (option modelOracle.NodePool.t))
  (m0 : gmap string pkgCluster.NodePoolStatus.t) (name : string) :
  is_Some (m0 !! name) -> is_Some (foldl GetStatus_body m0 nps !! name).
Proof.
  revert m0. induction nps as [|[np|] nps IH]; intros m0 H; simpl; [done| |by apply IH].
  apply IH. destruct (decide (modelOracle.NodePool.Name np = name)) as [<-|Hne].
  - rewrite lookup_insert_eq. by eexists.
  - by rewrite lookup_insert_ne.
Qed.

(** An entry survives the pools that carry other names. *)
Lemma GetStatus_loop_other (nps : list (option modelOracle.NodePool.t))
  (m0 : gmap string pkgCluster.NodePoolStatus.t) (name : string) :
  (forall np, Some np ∈ nps -> modelOracle.NodePool.Name np <> name) ->
  foldl GetStatus_body m0 nps !! name = m0 !! name.
Proof.
  revert m0. induction nps as [|[np|] nps IH]; intros m0 H; simpl; [done| |].
  - rewrite IH by (intros; apply H; set_solver).
    apply lookup_insert_ne. apply H. set_solver.
  - apply IH. intros; apply H; set_solver.
Qed.

(** C7. For every persisted cluster, [GetStatus] succeeds without any call
    and reports the node pools in a map keyed by pool name: every pool that
    is not nil has an entry under its name; every entry is the one computed
    from a stored pool of that name (the one of the last such pool in the
    list), with [Count] the product of [QuantityPerSubnet] and the number of
    assigned subnets as Go's [int] holds it (the product itself when it is
    below 2^63), autoscaling disabled and [MinCount = MaxCount = Count]. *)
Theorem GetStatus_node_pools (E : Env) (o : OKECluster) :
  let pools := modelOracle.Cluster.NodePools (model.ClusterModel.OKE (modelCluster o)) in
  let reported := pkgCluster.GetClusterStatusResponse.NodePools (fst (GetStatus E o)) in
  snd (GetStatus E o) = None /\
  (forall np, Some np ∈ pools ->
     is_Some (reported !! modelOracle.NodePool.Name np)) /\
  (forall name st, reported !! name = Some st ->
     exists np, Some np ∈ pools /\ modelOracle.NodePool.Name np = name /\
       pkgCluster.NodePoolStatus.Count st =
         wrap_int (Z.of_N (modelOracle.NodePool.QuantityPerSubnet np) *
                   Z.of_nat (length (modelOracle.NodePool.Subnets np))) /\
       ((Z.of_N (modelOracle.NodePool.QuantityPerSubnet np) *
         Z.of_nat (length (modelOracle.NodePool.Subnets np)) < 2 ^ 63)%Z ->
        pkgCluster.NodePoolStatus.Count st =
          (Z.of_N (modelOracle.NodePool.QuantityPerSubnet np) *
           Z.of_nat (length (modelOracle.NodePool.Subnets np)))%Z) /\
       pkgCluster.NodePoolStatus.Autoscaling st = false /\
       pkgCluster.NodePoolStatus.MinCount st = pkgCluster.NodePoolStatus.Count st /\
       pkgCluster.NodePoolStatus.MaxCount st = pkgCluster.NodePoolStatus.Count st) /\
  (forall before np after, pools = (before ++ Some np :: after)%list ->
     (forall np', Some np' ∈ after ->
        modelOracle.NodePool.Name np' <> modelOracle.NodePool.Name np) ->
     reported !! modelOracle.NodePool.Name np = Some (NodePoolStatus_of np)).
Proof.
  intros pools reported. subst reported. cbn [GetStatus fst snd].
  cbn [pkgCluster.GetClusterStatusResponse.NodePools].
  fold pools. unfold GetStatus_nodePools.
  split; [done|]. split; [|split].
  - intros np Hin. apply list_elem_of_split in Hin as (l1 & l2 & ->).
    rewrite foldl_app. simpl. apply GetStatus_loop_keeps.
    rewrite lookup_insert_eq. by eexists.
  - intros name st H. apply GetStatus_loop_lookup in H as [H|(np & Hin & Hn & ->)].
    { by rewrite lookup_empty in H. }
    exists np. split; [done|]. split; [done|].
    split; [apply NodePoolStatus_of_Count|].
    split; [|repeat split; reflexivity].
    intros Hlt. rewrite NodePoolStatus_of_Count. apply wrap_int_small. lia.
  - intros l1 np l2 -> Hlast.
    rewrite foldl_app. simpl. rewrite GetStatus_loop_other by done.
    apply lookup_insert_eq.
Qed.

Lemma GetStatus_node_pools_witness :
  pkgCluster.GetClusterStatusResponse.NodePools
    (fst (GetStatus sample_env_ok
            (sample_cluster "RUNNING"
               [Some (sample_pool "pool1" 3%N ["s1"; "s2"; "s3"] false); None])))
    !! "pool1"
  = Some (NodePoolStatus_of (sample_pool "pool1" 3%N ["s1"; "s2"; "s3"] false)).
Proof.
  apply (proj2 (proj2 (proj2
           (GetStatus_node_pools sample_env_ok
              (sample_cluster "RUNNING"
                 [Some (sample_pool "pool1" 3%N ["s1"; "s2"; "s3"] false); None]))))
         [] (sample_pool "pool1" 3%N ["s1"; "s2"; "s3"] false) [None]).
  - reflexivity.
  - intros np' Hin. apply list_elem_of_singleton in Hin. discriminate.
Defined.

(** ** Runs of the client constructors *)

Lemma new_events_app {A} (w evs : World) (a : A) :
  new_events w (Returns a (w ++ evs)%list) = evs.
Proof. unfold new_events. simpl. apply drop_app_length. Qed.

Lemma new_events_app_panic {A} (w evs : World) :
  new_events w (@Panics A (w ++ evs)%list) = evs.
Proof. unfold new_events. simpl. apply drop_app_length. Qed.

Lemma auth_events_elem (evs : list Event) (ev : Event) :
  auth_events evs -> ev ∈ evs ->
  is_auth_event ev = true.
Proof. intros H Hin. by eapply Forall_forall in H. Qed.

Ltac run := unfold bind, extern, ret, panic; cbn beta iota zeta.

Lemma GetOCI_run (E : Env) (o : OKECluster) (w : World) :
  exists res evs,
    GetOCI E o w = Returns res (w ++ evs)%list /\
    auth_events evs.
Proof.
  unfold GetOCI, getSecret, NewOCI. run.
  destruct (env_getSecret E w _ _) as [s|err].
  - destruct (env_NewOCI E _ _) as [oci|err];
      eexists _, [_; _]; (split; [by rewrite <- app_assoc|by repeat constructor]).
  - eexists _, [_]; split; [done|by repeat constructor].
Qed.

Lemma GetOCIWithRegion_run (E : Env) (o : OKECluster) (region : string) (w : World) :
  exists res evs,
    GetOCIWithRegion E o region w = Returns res (w ++ evs)%list /\
    auth_events evs.
Proof.
  unfold GetOCIWithRegion. run.
  destruct (GetOCI_run E o w) as (res & evs & -> & Hauth).
  destruct res as [oci|err].
  - unfold ChangeRegion. run.
    destruct (env_ChangeRegion E _ _ _) as [err|];
      eexists _, (evs ++ [_])%list;
      (split; [by rewrite <- app_assoc|]);
      apply Forall_app; (split; [done|by repeat constructor]).
  - by eexists _, evs.
Qed.


(** Splitting a membership in the calls of a run into its cases. *)
Ltac in_trace H :=
  repeat first
    [ apply elem_of_app in H as [H|H]
    | apply elem_of_cons in H as [H|H]
    | apply elem_of_nil in H; destruct H ].

Ltac not_auth :=
  match goal with
  | Hauth : auth_events ?evs, H : _ ∈ ?evs |- _ =>
      apply (auth_events_elem _ _ Hauth) in H; discriminate H
  end.

(** ** The details query *)

(** C5. Whatever the cluster model holds (its persisted status included),
    when the container engine answers [GetCluster] with a cluster whose
    lifecycle state is not ACTIVE, [GetClusterDetails] returns no details
    and the error [ErrorClusterNotReady]. *)
Theorem GetClusterDetails_not_ready (E : Env) (o : OKECluster) (w : World)
  (ce : ContainerEngineClient) (ocid : string) (cluster : LiveCluster) :
  Ev_GetCluster ce ocid (Ok cluster) ∈ new_events w (GetClusterDetails E o w) ->
  LifecycleState cluster <> "ACTIVE" ->
  GetClusterDetails E o w =
  Returns (None, Some ErrorClusterNotReady) (world_of (GetClusterDetails E o w)).
Proof.
  intros Hin Hstate. revert Hin.
  unfold GetClusterDetails. run.
  destruct (GetOCIWithRegion_run E o
              (model.ClusterModel.Location (modelCluster o)) w)
    as (res & evs & -> & Hauth).
  destruct res as [oci|err].
  2:{ rewrite new_events_app. intros Hin. not_auth. }
  unfold NewContainerEngineClient. run.
  destruct (env_NewContainerEngineClient E _ _) as [ce'|err].
  2:{ rewrite <- app_assoc, new_events_app. intros Hin.
      in_trace Hin; [not_auth|discriminate]. }
  unfold GetCluster. run.
  destruct (env_GetCluster E _ _ _) as [cl|err].
  2:{ rewrite <- !app_assoc, new_events_app. intros Hin.
      in_trace Hin; [not_auth|discriminate|discriminate]. }
  destruct (String.eqb_spec (LifecycleState cl) "ACTIVE") as [Heq|Hne]; cbn [negb].
  - cbn [GetStatus]. run. rewrite <- !app_assoc, new_events_app. intros Hin.
    in_trace Hin; [not_auth|discriminate|].
    injection Hin as _ _ <-. contradiction.
  - reflexivity.
Qed.

Lemma GetClusterDetails_not_ready_witness :
  GetClusterDetails
    (sample_env (Ok {| Id := Some "ocid1.vcn.x" |}) (Ok sample_networkValues)
                None None (Ok {| LifecycleState := "CREATING" |}))
    (sample_cluster "RUNNING" []) [] =
  Returns (None, Some ErrorClusterNotReady)
    (world_of
       (GetClusterDetails
          (sample_env (Ok {| Id := Some "ocid1.vcn.x" |}) (Ok sample_networkValues)
                      None None (Ok {| LifecycleState := "CREATING" |}))
          (sample_cluster "RUNNING" []) [])).
Proof.
  apply (GetClusterDetails_not_ready _ _ _ 2%N "ocid1.cluster.x"
           {| LifecycleState := "CREATING" |}).
  - vm_compute. apply list_elem_of_In. do 4 right. left. reflexivity.
  - discriminate.
Defined.

(** ** The virtual network *)

(** C9. [CreatePreconfiguredVCN] never panics; every creation request it
    sends carries the name ["p-"] followed by the cluster name, and it sends
    exactly that request once the OCI client is obtained; when the network
    the manager returns has no id the result is the error "Invalid VCN!"
    with an empty id, and otherwise the id of the network with no error. *)
Theorem CreatePreconfiguredVCN_spec (E : Env) (o : OKECluster) (name : string)
  (w : World) :
  let out := CreatePreconfiguredVCN E o name w in
  (exists VCNID err, out = Returns (VCNID, err) (world_of out)) /\
  (forall m nm res, Ev_VCNCreate m nm res ∈ new_events w out ->
     nm = "p-" +:+ name) /\
  (forall oci w1,
     GetOCIWithRegion E o (model.ClusterModel.Location (modelCluster o)) w =
       Returns (Ok oci) w1 ->
     exists res,
       world_of out =
       (w1 ++ [Ev_VCNCreate (NewVCNManager oci) ("p-" +:+ name) res])%list) /\
  (forall m nm vcn, Ev_VCNCreate m nm (Ok vcn) ∈ new_events w out ->
     match Id vcn with
     | None => out = Returns ("", Some (Errorf "Invalid VCN!")) (world_of out)
     | Some id => out = Returns (id, None) (world_of out)
     end).
Proof.
  intros out. subst out. unfold CreatePreconfiguredVCN. run.
  destruct (GetOCIWithRegion_run E o
              (model.ClusterModel.Location (modelCluster o)) w)
    as (res & evs & -> & Hauth).
  destruct res as [oci|err].
  2:{ rewrite new_events_app. split; [by eexists _, _|].
      split; [intros m nm res Hin; not_auth|].
      split; [intros oci w1 [=]|intros m nm vcn Hin; not_auth]. }
  unfold VCNManager_Create. run.
  destruct (env_VCNCreate E _ _ _) as [vcn|err] eqn:Hcreate.
  2:{ rewrite <- app_assoc, new_events_app. split; [by eexists _, _|].
      split; [|split].
      - intros m nm res Hin. in_trace Hin; [not_auth|]. by injection Hin as _ <- _.
      - intros oci' w1 [= <- <-]. eexists. simpl. by rewrite <- ?app_assoc.
      - intros m nm vcn Hin. in_trace Hin; [not_auth|discriminate]. }
  destruct (Id vcn) as [id|] eqn:Hid;
    rewrite <- app_assoc, new_events_app;
    (split; [by eexists _, _|]); (split; [|split]).
  - intros m nm res Hin. in_trace Hin; [not_auth|]. by injection Hin as _ <- _.
  - intros oci' w1 [= <- <-]. eexists. simpl. by rewrite <- ?app_assoc.
  - intros m nm vcn' Hin. in_trace Hin; [not_auth|].
    injection Hin as _ _ <-. by rewrite Hid.
  - intros m nm res Hin. in_trace Hin; [not_auth|]. by injection Hin as _ <- _.
  - intros oci' w1 [= <- <-]. eexists. simpl. by rewrite <- ?app_assoc.
  - intros m nm vcn' Hin. in_trace Hin; [not_auth|].
    injection Hin as _ _ <-. by rewrite Hid.
Qed.

Lemma CreatePreconfiguredVCN_spec_witness :
  "p-demo" = "p-" +:+ "demo" /\
  CreatePreconfiguredVCN
    (sample_env (Ok {| Id := None |}) (Ok sample_networkValues) None None
                (Ok {| LifecycleState := "ACTIVE" |}))
    (sample_cluster "" []) "demo" [] =
  Returns ("", Some (Errorf "Invalid VCN!"))
    (world_of
       (CreatePreconfiguredVCN
          (sample_env (Ok {| Id := None |}) (Ok sample_networkValues) None None
                      (Ok {| LifecycleState := "ACTIVE" |}))
          (sample_cluster "" []) "demo" [])).
Proof.
  split.
  - apply (proj1 (proj2 (CreatePreconfiguredVCN_spec
             (sample_env (Ok {| Id := None |}) (Ok sample_networkValues) None None
                         (Ok {| LifecycleState := "ACTIVE" |}))
             (sample_cluster "" []) "demo" []))
           (NewVCNManager 1%N) "p-demo" (Ok {| Id := None |})).
    vm_compute. apply list_elem_of_In. do 3 right. left. reflexivity.
  - apply (proj2 (proj2 (proj2 (CreatePreconfiguredVCN_spec
             (sample_env (Ok {| Id := None |}) (Ok sample_networkValues) None None
                         (Ok {| LifecycleState := "ACTIVE" |}))
             (sample_cluster "" []) "demo" [])))
           (NewVCNManager 1%N) "p-demo" {| Id := None |}).
    vm_compute. apply list_elem_of_In. do 3 right. left. reflexivity.
Defined.

(** ** Network values *)

Lemma PopulateNetworkValues_run (E : Env) (o : OKECluster) (r : oracle.Cluster.t)
  (VCNID : string) (w : World) :
  Populate_run r VCNID w (PopulateNetworkValues E o r VCNID w).
Proof.
  unfold PopulateNetworkValues. run.
  destruct (GetOCIWithRegion_run E o
              (model.ClusterModel.Location (modelCluster o)) w)
    as (res & evs & -> & Hauth).
  destruct res as [oci|err]; [|by constructor].
  unfold VCNManager_GetNetworkValues. run. rewrite <- app_assoc.
  destruct (env_GetNetworkValues E _ _ _) as [nv|err]; [|by constructor].
  destruct (LBSubnetIDs nv) as [|lb1 [|lb2 [|lb3 lbs]]] eqn:Hlb; cbn [length Nat.eqb negb];
    try (apply Populate_bad_network; [done|by rewrite Hlb]).
  change ([lb1; lb2] !!! 0%nat) with lb1. change ([lb1; lb2] !!! 1%nat) with lb2.
  cbn [oracle.Cluster.NodePools oracle.Cluster.SetVCNID oracle.Cluster.SetLBSubnetID1
       oracle.Cluster.SetLBSubnetID2].
  destruct (populate_NodePools nv (oracle.Cluster.NodePools r)) as [nps|] eqn:Hpools.
  - exact (Populate_done r VCNID w evs oci nv lb1 lb2 nps Hauth Hlb Hpools).
  - apply Populate_nil_pool; [done|by rewrite Hlb|done].
Qed.

Lemma populate_NodePools_spec (nv : NetworkValues)
  (nps nps' : list (option oracle.NodePool.t)) :
  populate_NodePools nv nps = Some nps' -> Forall2 (populated nv) nps nps'.
Proof.
  revert nps'. induction nps as [|[np|] nps IH]; intros nps' H; simpl in H.
  - injection H as <-. constructor.
  - destruct (GetPoolQuantityValues (oracle.NodePool.Count np) nv) as [q ids] eqn:Hd.
    destruct (populate_NodePools nv nps) as [rest|]; [|discriminate].
    injection H as <-. constructor; [|by apply IH].
    eexists np, _. split; [done|]. split; [done|]. by rewrite Hd.
  - discriminate.
Qed.

Lemma populate_NodePools_total (nv : NetworkValues)
  (nps : list (option oracle.NodePool.t)) :
  Forall is_Some nps -> is_Some (populate_NodePools nv nps).
Proof.
  induction 1 as [|p nps [np ->] _ [rest IH]]; simpl; [done|].
  destruct (GetPoolQuantityValues _ _). rewrite IH. done.
Qed.

(** C4. Whenever the network query answers with an inventory whose number
    of load-balancer subnets is not 2, [PopulateNetworkValues] returns the
    error "Invalid network config: there must be 2 loadbalancer subnets!",
    whatever node pools the spec holds (nil ones included). When it returns
    without error, the query was made for the given network, the inventory
    has exactly 2 load-balancer subnets, both ids are in the spec, and every
    node pool holds the quantity and subnets [GetPoolQuantityValues] gives
    for its count. It does return without error when the inventory has 2
    load-balancer subnets and no pool of the spec is nil. *)
Theorem PopulateNetworkValues_spec (E : Env) (o : OKECluster)
  (r : oracle.Cluster.t) (VCNID : string) (w : World) :
  let out := PopulateNetworkValues E o r VCNID w in
  (forall m id nv,
     Ev_GetNetworkValues m id (Ok nv) ∈ new_events w out ->
     length (LBSubnetIDs nv) <> 2%nat ->
     exists r',
       out =
       Returns
         (r', Some (Errorf "Invalid network config: there must be 2 loadbalancer subnets!"))
         (world_of out)) /\
  (forall r' w', out = Returns (r', None) w' ->
     exists m nv lb1 lb2,
       Ev_GetNetworkValues m VCNID (Ok nv) ∈ new_events w out /\
       LBSubnetIDs nv = [lb1; lb2] /\
       oracle.Cluster.lbSubnetID1 r' = lb1 /\
       oracle.Cluster.lbSubnetID2 r' = lb2 /\
       Forall2 (populated nv) (oracle.Cluster.NodePools r) (oracle.Cluster.NodePools r')) /\
  (forall m id nv,
     Ev_GetNetworkValues m id (Ok nv) ∈ new_events w out ->
     length (LBSubnetIDs nv) = 2%nat ->
     Forall is_Some (oracle.Cluster.NodePools r) ->
     exists r', out = Returns (r', None) (world_of out)).
Proof.
  intros out. subst out.
  destruct (PopulateNetworkValues_run E o r VCNID w)
    as [evs err Hauth|evs oci err Hauth|evs oci nv Hauth Hlb|evs oci nv Hauth Hlb Hnil
       |evs oci nv lb1 lb2 nps Hauth Hlb Hnps];
    rewrite ?new_events_app, ?new_events_app_panic; cbn [world_of].
  - split; [|split]; [intros m id nv Hin; not_auth|intros r' w' [=]
                     |intros m id nv Hin; not_auth].
  - split; [|split]; [|intros r' w' [=]|];
      intros m id nv Hin; in_trace Hin; solve [not_auth|discriminate].
  - split; [|split].
    + intros m id nv' Hin Hlen. by eexists.
    + intros r' w' [=].
    + intros m id nv' Hin Hlen. in_trace Hin; [not_auth|].
      injection Hin as _ _ <-. contradiction.
  - split; [|split].
    + intros m id nv' Hin Hlen. in_trace Hin; [not_auth|].
      injection Hin as _ _ <-. contradiction.
    + intros r' w' [=].
    + intros m id nv' Hin Hlen Hsome. in_trace Hin; [not_auth|].
      injection Hin as _ _ <-.
      destruct (populate_NodePools_total nv' _ Hsome) as [? Heq]. congruence.
  - split; [|split].
    + intros m id nv' Hin Hlen. in_trace Hin; [not_auth|].
      injection Hin as _ _ <-. by rewrite Hlb in Hlen.
    + intros r' w' [= <- <-]. exists (NewVCNManager oci), nv, lb1, lb2.
      split; [set_solver|]. split; [done|]. split; [done|]. split; [done|].
      by apply populate_NodePools_spec.
    + intros. by eexists.
Qed.

Lemma PopulateNetworkValues_spec_witness :
  (exists r',
     PopulateNetworkValues
       (sample_env (Ok {| Id := Some "ocid1.vcn.x" |})
                   (Ok {| LBSubnetIDs := ["lb1"]; WNSubnetIDs := ["s1"; "s2"; "s3"] |})
                   None None (Ok {| LifecycleState := "ACTIVE" |}))
       (sample_cluster "" []) (sample_request_spec [6%N]) "ocid1.vcn.x" [] =
     Returns
       (r', Some (Errorf "Invalid network config: there must be 2 loadbalancer subnets!"))
       (world_of
          (PopulateNetworkValues
             (sample_env (Ok {| Id := Some "ocid1.vcn.x" |})
                         (Ok {| LBSubnetIDs := ["lb1"]; WNSubnetIDs := ["s1"; "s2"; "s3"] |})
                         None None (Ok {| LifecycleState := "ACTIVE" |}))
             (sample_cluster "" []) (sample_request_spec [6%N]) "ocid1.vcn.x" []))) /\
  (exists m nv lb1 lb2,
     Ev_GetNetworkValues m "ocid1.vcn.x" (Ok nv) ∈
       new_events []
         (PopulateNetworkValues sample_env_ok (sample_cluster "" [])
            (sample_request_spec [9%N]) "ocid1.vcn.x" []) /\
     LBSubnetIDs nv = [lb1; lb2] /\
     "lb1" = lb1 /\ "lb2" = lb2 /\
     Forall2 (populated nv)
       [Some {| oracle.NodePool.Count := 9%N;
                oracle.NodePool.quantityPerSubnet := 0%N;
                oracle.NodePool.subnetIds := [] |}]
       [Some {| oracle.NodePool.Count := 9%N;
                oracle.NodePool.quantityPerSubnet := 3%N;
                oracle.NodePool.subnetIds := ["s1"; "s2"; "s3"] |}]).
Proof.
  split.
  - apply (proj1 (PopulateNetworkValues_spec _ _ _ _ _)
             (NewVCNManager 1%N) "ocid1.vcn.x"
             {| LBSubnetIDs := ["lb1"]; WNSubnetIDs := ["s1"; "s2"; "s3"] |}).
    + vm_compute. apply list_elem_of_In. do 3 right. left. reflexivity.
    + simpl. lia.
  - apply (proj1 (proj2 (PopulateNetworkValues_spec sample_env_ok (sample_cluster "" [])
                           (sample_request_spec [9%N]) "ocid1.vcn.x" []))
             {| oracle.Cluster.Version := "v1.10.3";
                oracle.Cluster.NodePools :=
                  [Some {| oracle.NodePool.Count := 9%N;
                           oracle.NodePool.quantityPerSubnet := 3%N;
                           oracle.NodePool.subnetIds := ["s1"; "s2"; "s3"] |}];
                oracle.Cluster.vcnID := "ocid1.vcn.x";
                oracle.Cluster.lbSubnetID1 := "lb1";
                oracle.Cluster.lbSubnetID2 := "lb2" |}
             (world_of
                (PopulateNetworkValues sample_env_ok (sample_cluster "" [])
                   (sample_request_spec [9%N]) "ocid1.vcn.x" []))).
    vm_compute. reflexivity.
Defined.

(** C10. When [PopulateNetworkValues] fails because the inventory does not
    have 2 load-balancer subnets, the spec it returns (the object the caller
    passed) already holds the given network id and is otherwise as it was:
    it differs from the spec passed in whenever that one held another id. *)
Theorem PopulateNetworkValues_sets_VCNID_before_check (E : Env) (o : OKECluster)
  (r : oracle.Cluster.t) (VCNID : string) (w : World) (m : VCNManager)
  (id : string) (nv : NetworkValues) :
  let out := PopulateNetworkValues E o r VCNID w in
  Ev_GetNetworkValues m id (Ok nv) ∈ new_events w out ->
  length (LBSubnetIDs nv) <> 2%nat ->
  out =
  Returns
    (oracle.Cluster.SetVCNID r VCNID,
     Some (Errorf "Invalid network config: there must be 2 loadbalancer subnets!"))
    (world_of out) /\
  oracle.Cluster.vcnID (oracle.Cluster.SetVCNID r VCNID) = VCNID /\
  oracle.Cluster.NodePools (oracle.Cluster.SetVCNID r VCNID) = oracle.Cluster.NodePools r /\
  oracle.Cluster.lbSubnetID1 (oracle.Cluster.SetVCNID r VCNID) = oracle.Cluster.lbSubnetID1 r /\
  oracle.Cluster.lbSubnetID2 (oracle.Cluster.SetVCNID r VCNID) = oracle.Cluster.lbSubnetID2 r /\
  (oracle.Cluster.vcnID r <> VCNID -> oracle.Cluster.SetVCNID r VCNID <> r).
Proof.
  intros out. subst out.
  destruct (PopulateNetworkValues_run E o r VCNID w)
    as [evs err Hauth|evs oci err Hauth|evs oci nv' Hauth Hlb|evs oci nv' Hauth Hlb Hnil
       |evs oci nv' lb1 lb2 nps Hauth Hlb Hnps];
    rewrite ?new_events_app, ?new_events_app_panic; cbn [world_of];
    intros Hin Hlen; in_trace Hin; try solve [not_auth|discriminate].
  - split; [done|]. repeat (split; [done|]). intros Hne Heq. apply Hne.
    by rewrite <- Heq.
  - injection Hin as _ _ <-. contradiction.
  - injection Hin as _ _ <-. by rewrite Hlb in Hlen.
Qed.

Lemma PopulateNetworkValues_sets_VCNID_before_check_witness :
  oracle.Cluster.SetVCNID (sample_request_spec [6%N]) "ocid1.vcn.x" <>
  sample_request_spec [6%N].
Proof.
  apply (proj2 (proj2 (proj2 (proj2 (proj2
           (PopulateNetworkValues_sets_VCNID_before_check
              (sample_env (Ok {| Id := Some "ocid1.vcn.x" |})
                          (Ok {| LBSubnetIDs := ["lb1"; "lb2"; "lb3"];
                                 WNSubnetIDs := ["s1"; "s2"; "s3"] |})
                          None None (Ok {| LifecycleState := "ACTIVE" |}))
              (sample_cluster "" []) (sample_request_spec [6%N]) "ocid1.vcn.x" []
              (NewVCNManager 1%N) "ocid1.vcn.x"
              {| LBSubnetIDs := ["lb1"; "lb2"; "lb3"];
                 WNSubnetIDs := ["s1"; "s2"; "s3"] |}
              ltac:(vm_compute; apply list_elem_of_In; do 3 right; left; reflexivity)
              ltac:(simpl; lia))))))).
  discriminate.
Defined.

(** ** Deleting a cluster *)

Ltac after_auth := apply elem_of_app; right; apply list_elem_of_here.


(** An event that is not a client call sits, in a list that starts with
    client calls, at the first position after them or later. *)
Lemma split_after_auth (evs : list Event) (x y : Event) (rest l1 l2 : list Event) :
  auth_events evs -> is_auth_event y = false ->
  (evs ++ x :: rest = l1 ++ y :: l2)%list ->
  (l1 = evs /\ x = y /\ rest = l2) \/
  (exists l1', l1 = (evs ++ x :: l1')%list /\ rest = (l1' ++ y :: l2)%list).
Proof.
  intros Hauth Hy. revert l1.
  induction Hauth as [|e evs He _ IH]; intros l1 Heq; simpl in Heq.
  - destruct l1 as [|a l1]; injection Heq as Hx Hrest; subst;
      [by left|right; by eexists].
  - destruct l1 as [|a l1]; injection Heq as Hx Hrest; [congruence|]. subst a.
    destruct (IH _ Hrest) as [(-> & -> & ->)|(l1' & -> & ->)]; [by left|].
    right. by eexists.
Qed.




(** ** Updating a cluster *)

Lemma keep_NodePools_spec (nps acc l : list (option modelOracle.NodePool.t)) :
  keep_NodePools acc nps = Some l -> l = (acc ++ List.filter kept nps)%list.
Proof.
  revert acc. induction nps as [|[np|] nps IH]; intros acc H; simpl in H.
  - injection H as <-. by rewrite app_nil_r.
  - simpl. destruct (modelOracle.NodePool.Delete np); simpl in *.
    + by apply IH.
    + apply IH in H. by rewrite <- app_assoc in H.
  - discriminate.
Qed.




(** ** Creating a cluster *)

Lemma CreatePreconfiguredVCN_run (E : Env) (o : OKECluster) (name : string)
  (w : World) :
  exists evs, auth_events evs /\
    ((exists err,
        CreatePreconfiguredVCN E o name w = Returns ("", Some err) (w ++ evs)%list) \/
     (exists oci res,
        CreatePreconfiguredVCN E o name w =
        Returns
          (match res with
           | Err err => ("", Some err)
           | Ok vcn =>
               match Id vcn with
               | None => ("", Some (Errorf "Invalid VCN!"))
               | Some id => (id, None)
               end
           end)
          (w ++ evs ++ [Ev_VCNCreate (NewVCNManager oci) ("p-" +:+ name) res])%list)).
Proof.
  unfold CreatePreconfiguredVCN. run.
  destruct (GetOCIWithRegion_run E o
              (model.ClusterModel.Location (modelCluster o)) w)
    as (res & evs & -> & Hauth).
  exists evs. split; [done|].
  destruct res as [oci|err]; [right|left; by eexists].
  unfold VCNManager_Create. run. rewrite <- app_assoc.
  exists oci, (env_VCNCreate E (w ++ evs)%list (NewVCNManager oci) ("p-" +:+ name)).
  destruct (env_VCNCreate E _ _ _) as [vcn|err]; [|done].
  by destruct (Id vcn).
Qed.

Lemma last_snoc_app (l1 l2 : list Event) (x : Event) :
  last (l1 ++ l2 ++ [x])%list = Some x.
Proof. rewrite app_assoc. apply last_snoc. Qed.

(** C6, as stated: every error of the create sequence reaches the caller
    wrapped with stage context. It fails at the first stage: an error of
    the network manager's [Create] is returned by
    [CreateOKEClusterFromRequest] as it is. *)
Lemma create_error_wrapped_counterexample :
  ~ (forall (E : Env) (request : pkgCluster.CreateClusterRequest.t)
            (orgId userId : uint) (w : World) oke request' err w',
       CreateOKEClusterFromRequest E request orgId userId w =
         Returns (oke, request', Some err) w' ->
       wrapped err = true).
Proof.
  intros H.
  specialize (H (sample_env (Err (Errorf "LimitExceeded")) (Ok sample_networkValues)
                            None None (Ok {| LifecycleState := "ACTIVE" |}))
                (sample_create_request [9%N]) 1%N 1%N []).
  vm_compute in H.
  specialize (H _ _ _ _ eq_refl). discriminate H.
Qed.

(** C6, amended. Each failing step of the create sequence ends the
    operation there: no further call is made and the cluster built so far is
    returned with the error. An error of the virtual-network step
    ([CreatePreconfiguredVCN]) or of the network-value step
    ([PopulateNetworkValues]) is returned by [CreateOKEClusterFromRequest]
    as it is; an error of the cluster manager is returned by
    [CreateCluster] wrapped with "error creating cluster", and an error of
    the role-binding step ([setClusterAdminRights]) wrapped with the message
    "error get/create clusterrolebinding". *)
Theorem create_sequence_errors (E : Env) :
  (forall request orgId userId w VCNID e w1,
     CreatePreconfiguredVCN E (new_OKECluster E request orgId userId)
       (pkgCluster.CreateClusterRequest.Name request) w =
       Returns (VCNID, Some e) w1 ->
     CreateOKEClusterFromRequest E request orgId userId w =
       Returns (new_OKECluster E request orgId userId, request, Some e) w1) /\
  (forall request orgId userId w VCNID w1 properties e w2,
     CreatePreconfiguredVCN E (new_OKECluster E request orgId userId)
       (pkgCluster.CreateClusterRequest.Name request) w =
       Returns (VCNID, None) w1 ->
     PopulateNetworkValues E (new_OKECluster E request orgId userId)
       (pkgCluster.CreateClusterRequest.Properties_CreateClusterOKE request)
       VCNID w1 = Returns (properties, Some e) w2 ->
     CreateOKEClusterFromRequest E request orgId userId w =
       Returns
         (new_OKECluster E request orgId userId,
          pkgCluster.CreateClusterRequest.with_CreateClusterOKE request properties,
          Some e) w2) /\
  (forall o w cm w1 after e,
     GetClusterManager E o w = Returns (Ok cm) w1 ->
     env_ManageOKECluster E w1 cm (model.ClusterModel.OKE (modelCluster o)) =
       (after, Some e) ->
     CreateCluster E o w =
       Returns (with_modelOKE o after, Some (Wrap e "error creating cluster"))
         (w1 ++ [Ev_ManageOKECluster cm (model.ClusterModel.OKE (modelCluster o))
                   after (Some e)])%list) /\
  (forall o w cm w1 after e w2,
     GetClusterManager E o w = Returns (Ok cm) w1 ->
     env_ManageOKECluster E w1 cm (model.ClusterModel.OKE (modelCluster o)) =
       (after, None) ->
     setClusterAdminRights E (with_modelOKE o after) "cluster-creator-admin-right"
       (w1 ++ [Ev_ManageOKECluster cm (model.ClusterModel.OKE (modelCluster o))
                 after None])%list = Returns (Some e) w2 ->
     CreateCluster E o w =
       Returns
         (with_modelOKE o after,
          Some (WithMessage e "error get/create clusterrolebinding")) w2).
Proof.
  split; [|split; [|split]].
  - intros request orgId userId w VCNID e w1 Hvcn.
    unfold CreateOKEClusterFromRequest. run. by rewrite Hvcn.
  - intros request orgId userId w VCNID w1 properties e w2 Hvcn Hpop.
    unfold CreateOKEClusterFromRequest. run. rewrite Hvcn. run. by rewrite Hpop.
  - intros o w cm w1 after e Hcm Happly.
    unfold CreateCluster. run. rewrite Hcm. unfold ManageOKECluster. run.
    by rewrite Happly.
  - intros o w cm w1 after e w2 Hcm Happly Hrbac.
    unfold CreateCluster. run. rewrite Hcm. unfold ManageOKECluster. run.
    rewrite Happly. cbn [fst snd]. by rewrite Hrbac.
Qed.

Lemma create_sequence_errors_witness :
  CreateOKEClusterFromRequest
    (sample_env (Err (Errorf "LimitExceeded")) (Ok sample_networkValues)
                None None (Ok {| LifecycleState := "ACTIVE" |}))
    (sample_create_request [9%N]) 1%N 1%N [] =
  Returns
    (new_OKECluster
       (sample_env (Err (Errorf "LimitExceeded")) (Ok sample_networkValues)
                   None None (Ok {| LifecycleState := "ACTIVE" |}))
       (sample_create_request [9%N]) 1%N 1%N,
     sample_create_request [9%N], Some (Errorf "LimitExceeded"))
    (world_of
       (CreatePreconfiguredVCN
          (sample_env (Err (Errorf "LimitExceeded")) (Ok sample_networkValues)
                      None None (Ok {| LifecycleState := "ACTIVE" |}))
          (new_OKECluster
             (sample_env (Err (Errorf "LimitExceeded")) (Ok sample_networkValues)
                         None None (Ok {| LifecycleState := "ACTIVE" |}))
             (sample_create_request [9%N]) 1%N 1%N)
          "demo" [])) /\
  CreateCluster
    (sample_env (Ok {| Id := Some "ocid1.vcn.x" |}) (Ok sample_networkValues)
                (Some (Errorf "engine unavailable")) None
                (Ok {| LifecycleState := "ACTIVE" |}))
    (sample_cluster "" []) [] =
  Returns
    (with_modelOKE (sample_cluster "" []) (sample_spec []),
     Some (Wrap (Errorf "engine unavailable") "error creating cluster"))
    (world_of
       (GetClusterManager
          (sample_env (Ok {| Id := Some "ocid1.vcn.x" |}) (Ok sample_networkValues)
                      (Some (Errorf "engine unavailable")) None
                      (Ok {| LifecycleState := "ACTIVE" |}))
          (sample_cluster "" []) []) ++
     [Ev_ManageOKECluster (NewClusterManager 1%N) (sample_spec []) (sample_spec [])
        (Some (Errorf "engine unavailable"))])%list.
Proof.
  split.
  - apply (proj1 (create_sequence_errors _)
             (sample_create_request [9%N]) 1%N 1%N [] "" (Errorf "LimitExceeded")).
    vm_compute. reflexivity.
  - apply (proj1 (proj2 (proj2 (create_sequence_errors _)))
             (sample_cluster "" []) [] (NewClusterManager 1%N)).
    + vm_compute. reflexivity.
    + vm_compute. reflexivity.
Defined.

(** ** Sample runs *)

(** A network manager that refuses to create the network: the caller of
    [CreateOKEClusterFromRequest] receives the manager's error itself. *)
Example create_refused_network :
  match
    CreateOKEClusterFromRequest
      (sample_env (Err (Errorf "LimitExceeded")) (Ok sample_networkValues)
                  None None (Ok {| LifecycleState := "ACTIVE" |}))
      (sample_create_request [9%N]) 1%N 1%N []
  with
  | Returns (_, _, err) _ => err = Some (Errorf "LimitExceeded")
  | Panics _ => False
  end.
Proof. vm_compute. reflexivity. Qed.

(** Creating a cluster of 9 instances on a network with 4 worker subnets
    gives a pool of 3 instances on each of 3 subnets and both load-balancer
    subnets set; [GetStatus] then reports 9 instances for the pool. *)
Example create_nine_then_status :
  match
    CreateOKEClusterFromRequest sample_env_ok (sample_create_request [9%N])
      1%N 1%N []
  with
  | Returns (oke, request, err) _ =>
      err = None /\
      oracle.Cluster.NodePools
        (pkgCluster.CreateClusterRequest.Properties_CreateClusterOKE request) =
        [Some {| oracle.NodePool.Count := 9%N;
                 oracle.NodePool.quantityPerSubnet := 3%N;
                 oracle.NodePool.subnetIds := ["s1"; "s2"; "s3"] |}] /\
      oracle.Cluster.lbSubnetID1
        (pkgCluster.CreateClusterRequest.Properties_CreateClusterOKE request) = "lb1" /\
      oracle.Cluster.lbSubnetID2
        (pkgCluster.CreateClusterRequest.Properties_CreateClusterOKE request) = "lb2" /\
      pkgCluster.NodePoolStatus.Count <$>
        (pkgCluster.GetClusterStatusResponse.NodePools
           (fst (GetStatus sample_env_ok oke)) !! "pool1") = Some 9%Z
  | Panics _ => False
  end.
Proof. vm_compute. repeat split; reflexivity. Qed.

(** Two stored pools of one name: the map keeps the entry of the later
    one. *)
Example status_same_name :
  pkgCluster.NodePoolStatus.Count <$>
    (pkgCluster.GetClusterStatusResponse.NodePools
       (fst (GetStatus sample_env_ok
               (sample_cluster "RUNNING"
                  [Some (sample_pool "pool1" 1%N ["s1"] false);
                   Some (sample_pool "pool1" 2%N ["s1"; "s2"] false)])))
     !! "pool1") = Some 4%Z.
Proof. vm_compute. reflexivity. Qed.

(** A quantity beyond the range of [int]: the reported count wraps. *)
Example status_count_wraps :
  getNodeCount (sample_pool "pool1" (2 ^ 63)%N ["s1"; "s2"] false) = 0%Z.
Proof. vm_compute. reflexivity. Qed.

(** * Further properties *)

(** ** More on the distribution *)

Lemma GetPoolQuantityValues_product (count : uint) (nv : NetworkValues) :
  count = 0%N \/ (3 <= length (WNSubnetIDs nv))%nat ->
  count =
  (fst (GetPoolQuantityValues count nv) *
   N.of_nat (length (snd (GetPoolQuantityValues count nv))))%N.
Proof.
  intros [->|Hl].
  - by rewrite GetPoolQuantityValues_degenerate by (by left).
  - destruct (N.eq_dec count 0) as [->|Hc].
    { by rewrite GetPoolQuantityValues_degenerate by (by left). }
    rewrite GetPoolQuantityValues_regular by done.
    destruct (N.eqb_spec (count `mod` 3) 0) as [H3|H3];
      [|destruct (N.eqb_spec (count `mod` 2) 0) as [H2|H2]];
      cbn [fst snd]; rewrite length_take, Nat.min_l by lia.
    + pose proof (N.div_mod count 3 ltac:(done)). lia.
    + pose proof (N.div_mod count 2 ltac:(done)). lia.
    + lia.
Qed.

(** X1. Whatever the count and the inventory, the subnets
    [GetPoolQuantityValues] assigns are the first ones of the worker
    subnets, at most 3 of them, and the quantity per subnet never exceeds
    the count. The result is the degenerate one (no subnet, equivalently
    quantity 0) exactly when the count is 0 or fewer than 3 worker subnets
    exist; the load-balancer subnets play no part. *)
Theorem GetPoolQuantityValues_bounds (count : uint) (nv : NetworkValues) :
  let q := fst (GetPoolQuantityValues count nv) in
  let ids := snd (GetPoolQuantityValues count nv) in
  ids `prefix_of` WNSubnetIDs nv /\
  (length ids <= 3)%nat /\
  (q <= count)%N /\
  (ids = [] <-> count = 0%N \/ (length (WNSubnetIDs nv) < 3)%nat) /\
  (q = 0%N <-> count = 0%N \/ (length (WNSubnetIDs nv) < 3)%nat) /\
  (forall lbs,
     GetPoolQuantityValues count
       {| LBSubnetIDs := lbs; WNSubnetIDs := WNSubnetIDs nv |} =
     GetPoolQuantityValues count nv).
Proof.
  intros q ids. subst q ids.
  destruct (decide (count = 0%N \/ (length (WNSubnetIDs nv) < 3)%nat)) as [Hd|Hr].
  - rewrite GetPoolQuantityValues_degenerate by done. cbn [fst snd].
    split; [apply prefix_nil|]. split; [simpl; lia|]. split; [lia|].
    split; [done|]. split; [done|].
    intros lbs. by rewrite GetPoolQuantityValues_degenerate.
  - assert (Hc : count <> 0%N) by tauto.
    assert (Hl : (3 <= length (WNSubnetIDs nv))%nat) by lia.
    split; [|split; [|split; [|split; [|split]]]].
    + rewrite GetPoolQuantityValues_regular by done.
      destruct (_ =? _)%N; [|destruct (_ =? _)%N]; apply prefix_take.
    + rewrite GetPoolQuantityValues_regular by done.
      destruct (_ =? _)%N; [|destruct (_ =? _)%N];
        cbn [snd]; rewrite length_take; lia.
    + rewrite GetPoolQuantityValues_regular by done.
      destruct (_ =? _)%N; [|destruct (_ =? _)%N]; cbn [fst];
        [apply N.Div0.div_le_upper_bound; lia
        |apply N.Div0.div_le_upper_bound; lia|lia].
    + split; [|done]. intros Hnil. exfalso.
      rewrite GetPoolQuantityValues_regular in Hnil by done.
      destruct (WNSubnetIDs nv) as [|s wn]; [simpl in Hl; lia|].
      destruct (_ =? _)%N; [|destruct (_ =? _)%N]; discriminate.
    + split; [|done]. intros Hq. exfalso.
      pose proof (GetPoolQuantityValues_product count nv (or_intror Hl)) as Hp.
      rewrite Hq in Hp. lia.
    + intros lbs. by rewrite !GetPoolQuantityValues_regular.
Qed.

(** X2. A stored pool that holds the quantity and as many subnets as
    [GetPoolQuantityValues] gives for a count reports that count through
    [getNodeCount], provided the count is 0 or the network has at least 3
    worker subnets, and the count is below 2^63. *)
Theorem getNodeCount_of_distribution (count : uint) (nv : NetworkValues)
  (np : modelOracle.NodePool.t) :
  count = 0%N \/ (3 <= length (WNSubnetIDs nv))%nat ->
  (count < 2 ^ 63)%N ->
  modelOracle.NodePool.QuantityPerSubnet np = fst (GetPoolQuantityValues count nv) ->
  length (modelOracle.NodePool.Subnets np) =
    length (snd (GetPoolQuantityValues count nv)) ->
  getNodeCount np = Z.of_N count.
Proof.
  intros Hd Hlt Hq Hs. rewrite getNodeCount_wrap, Hq, Hs.
  pose proof (GetPoolQuantityValues_product count nv Hd) as Hp.
  rewrite <- nat_N_Z, <- N2Z.inj_mul, <- Hp.
  apply wrap_int_small. lia.
Qed.

Lemma getNodeCount_of_distribution_witness :
  getNodeCount (sample_pool "pool1" 3%N ["s1"; "s2"; "s3"] false) = 9%Z.
Proof.
  apply (getNodeCount_of_distribution 9%N sample_networkValues
           (sample_pool "pool1" 3%N ["s1"; "s2"; "s3"] false)).
  - right. simpl. lia.
  - reflexivity.
  - reflexivity.
  - reflexivity.
Defined.

(** X3. [getNodeCount] always lies in the range of a 64-bit [int] and
    agrees with the product of the quantity and the number of subnets
    modulo 2^64: beyond 2^63 the reported count is not the product, and it
    can be negative. *)
Theorem getNodeCount_range (np : modelOracle.NodePool.t) :
  (- 2 ^ 63 <= getNodeCount np < 2 ^ 63)%Z /\
  (getNodeCount np `mod` 2 ^ 64 =
   (Z.of_N (modelOracle.NodePool.QuantityPerSubnet np) *
    Z.of_nat (length (modelOracle.NodePool.Subnets np))) `mod` 2 ^ 64)%Z /\
  ((2 ^ 63 <= Z.of_N (modelOracle.NodePool.QuantityPerSubnet np) *
              Z.of_nat (length (modelOracle.NodePool.Subnets np)) < 2 ^ 64)%Z ->
   (getNodeCount np < 0)%Z).
Proof.
  rewrite getNodeCount_wrap.
  set (p := (Z.of_N _ * Z.of_nat _)%Z). unfold wrap_int.
  pose proof (Z.mod_pos_bound (p + 2 ^ 63) (2 ^ 64) ltac:(lia)) as Hb.
  split; [lia|]. split.
  - rewrite Zminus_mod, Zmod_mod, <- Zminus_mod. f_equal. lia.
  - intros Hp.
    replace (p + 2 ^ 63)%Z with (p - 2 ^ 63 + 1 * 2 ^ 64)%Z by lia.
    rewrite Z_mod_plus_full, Z.mod_small by lia. lia.
Qed.

Lemma getNodeCount_range_witness :
  (getNodeCount (sample_pool "pool1" (2 ^ 63)%N ["s1"] false) < 0)%Z.
Proof.
  apply (proj2 (proj2 (getNodeCount_range
                         (sample_pool "pool1" (2 ^ 63)%N ["s1"] false)))).
  vm_compute. split; [discriminate|reflexivity].
Defined.

(** ** More on the status projection *)

Lemma GetStatus_loop_dom (nps : list (option modelOracle.NodePool.t))
  (m0 : gmap string pkgCluster.NodePoolStatus.t) :
  dom (foldl GetStatus_body m0 nps) =
  dom m0 ∪ list_to_set (omap (fmap modelOracle.NodePool.Name) nps).
Proof.
  revert m0. induction nps as [|[np|] nps IH]; intros m0; simpl.
  - by rewrite (right_id_L ∅ (∪)).
  - rewrite IH, dom_insert_L.
    by rewrite (comm_L (∪) {[_]} (dom m0)), (assoc_L (∪)).
  - by rewrite IH.
Qed.

Lemma GetStatus_loop_skips_nil (nps : list (option modelOracle.NodePool.t))
  (m0 : gmap string pkgCluster.NodePoolStatus.t) :
  foldl GetStatus_body m0 (Some <$> omap id nps) = foldl GetStatus_body m0 nps.
Proof.
  revert m0. induction nps as [|[np|] nps IH]; intros m0; simpl; by rewrite ?IH.
Qed.

Lemma size_list_to_set_le (l : list string) :
  (size (list_to_set (C:=gset string) l) <= length l)%nat.
Proof.
  induction l as [|n l IH].
  - rewrite list_to_set_nil, size_empty. done.
  - rewrite list_to_set_cons, size_union_alt, size_singleton.
    assert (size (list_to_set (C:=gset string) l ∖ {[n]}) <=
            size (list_to_set (C:=gset string) l))%nat.
    { apply subseteq_size, subseteq_difference_l. done. }
    simpl. lia.
Qed.

(** X4. The node pools [GetStatus] reports are keyed by exactly the names
    of the stored pools that are not nil: nil entries of the pool list
    contribute nothing, there are never more entries than such pools, and
    there is one entry per pool when their names are pairwise different. *)
Theorem GetStatus_keys (E : Env) (o : OKECluster) :
  let pools := modelOracle.Cluster.NodePools (model.ClusterModel.OKE (modelCluster o)) in
  let names := omap (fmap modelOracle.NodePool.Name) pools in
  let reported := pkgCluster.GetClusterStatusResponse.NodePools (fst (GetStatus E o)) in
  dom reported = list_to_set names /\
  reported = GetStatus_nodePools (Some <$> omap id pools) /\
  (size reported <= length names)%nat /\
  (NoDup names -> size reported = length names).
Proof.
  intros pools names reported. subst reported. cbn [GetStatus fst].
  cbn [pkgCluster.GetClusterStatusResponse.NodePools]. fold pools.
  unfold GetStatus_nodePools.
  assert (Hdom : dom (foldl GetStatus_body ∅ pools) = list_to_set names).
  { by rewrite GetStatus_loop_dom, dom_empty_L, (left_id_L ∅ (∪)). }
  split; [done|]. split; [by rewrite GetStatus_loop_skips_nil|].
  rewrite <- size_dom, Hdom. split; [apply size_list_to_set_le|].
  intros Hnd. by apply size_list_to_set.
Qed.

Lemma GetStatus_keys_witness :
  size (pkgCluster.GetClusterStatusResponse.NodePools
          (fst (GetStatus sample_env_ok
                  (sample_cluster "RUNNING"
                     [Some (sample_pool "a" 1%N ["s1"] false); None;
                      Some (sample_pool "b" 2%N ["s1"; "s2"] false)])))) =
  length ["a"; "b"].
Proof.
  apply (proj2 (proj2 (proj2
           (GetStatus_keys sample_env_ok
              (sample_cluster "RUNNING"
                 [Some (sample_pool "a" 1%N ["s1"] false); None;
                  Some (sample_pool "b" 2%N ["s1"; "s2"] false)]))))).
  simpl. apply NoDup_cons. split; [|apply NoDup_singleton].
  intros Hin. apply list_elem_of_singleton in Hin. discriminate.
Defined.

(** ** The OCI client *)


(** ** More on the details query *)

Ltac with_oci_run :=
  match goal with
  | |- context [GetOCIWithRegion ?E ?o ?region ?w] =>
      let res := fresh "res" in
      let evs := fresh "evs" in
      let Hauth := fresh "Hauth" in
      destruct (GetOCIWithRegion_run E o region w) as (res & evs & -> & Hauth)
  end.

Lemma last_app_cons (l1 l2 : list Event) (x : Event) :
  last (l1 ++ x :: l2) = last (x :: l2).
Proof.
  rewrite last_app. destruct (last (x :: l2)) eqn:H; [done|].
  by apply last_None in H.
Qed.

Lemma last_auth (evs : list Event) (ev : Event) :
  auth_events evs -> last evs = Some ev -> is_auth_event ev = true.
Proof.
  intros Hauth Hlast. apply (auth_events_elem _ _ Hauth).
  apply last_Some in Hlast as [l ->]. apply elem_of_app. right. apply list_elem_of_here.
Qed.

(** X6. [GetClusterDetails] never panics and returns either details with
    no error or no details with an error, never both and never neither. It
    returns details exactly when its last call is a [GetCluster] that
    answered with a cluster in state ACTIVE; that call asks for the cluster
    id of the stored spec. *)
Theorem GetClusterDetails_outcome (E : Env) (o : OKECluster) (w : World) :
  let out := GetClusterDetails E o w in
  let evs := new_events w out in
  ((exists d, out = Returns (Some d, None) (world_of out)) \/
   (exists e, out = Returns (None, Some e) (world_of out))) /\
  ((exists d, out = Returns (Some d, None) (world_of out)) <->
   (exists ce ocid cl, last evs = Some (Ev_GetCluster ce ocid (Ok cl)) /\
                       LifecycleState cl = "ACTIVE")) /\
  (forall ce ocid res, Ev_GetCluster ce ocid res ∈ evs ->
     ocid = modelOracle.Cluster.OCID (model.ClusterModel.OKE (modelCluster o))).
Proof.
  intros out evs. subst evs out. unfold GetClusterDetails. run. with_oci_run.
  destruct res as [oci|err].
  2:{ rewrite new_events_app. split; [right; by eexists|]. split.
      - split; [by intros [d [=]]|]. intros (ce & ocid & cl & Hlast & _).
        apply (last_auth _ _ Hauth) in Hlast. discriminate.
      - intros ce ocid res Hin. not_auth. }
  unfold NewContainerEngineClient. run.
  destruct (env_NewContainerEngineClient E _ _) as [ce'|err].
  2:{ rewrite <- app_assoc, new_events_app. split; [right; by eexists|]. split.
      - split; [by intros [d [=]]|]. intros (ce & ocid & cl & Hlast & _).
        rewrite last_snoc in Hlast. discriminate.
      - intros ce ocid res Hin. in_trace Hin; [not_auth|discriminate]. }
  unfold GetCluster. run.
  destruct (env_GetCluster E _ _ _) as [cl|err].
  2:{ rewrite <- !app_assoc, new_events_app. split; [right; by eexists|]. split.
      - split; [by intros [d [=]]|]. intros (ce & ocid & cl & Hlast & _).
        rewrite last_snoc_app in Hlast. discriminate.
      - intros ce ocid res Hin. in_trace Hin; [not_auth|discriminate|].
        by injection Hin as _ -> _. }
  destruct (String.eqb_spec (LifecycleState cl) "ACTIVE") as [Heq|Hne]; cbn [negb];
    cbn [GetStatus]; run; rewrite <- !app_assoc, new_events_app.
  - split; [left; by eexists|]. split.
    + split; [|intros _; by eexists]. intros _. eexists _, _, _.
      split; [apply last_snoc_app|done].
    + intros ce ocid res Hin. in_trace Hin; [not_auth|discriminate|].
      by injection Hin as _ -> _.
  - split; [right; by eexists|]. split.
    + split; [by intros [d [=]]|]. intros (ce & ocid & cl' & Hlast & Hactive).
      rewrite last_snoc_app in Hlast. injection Hlast as _ _ <-. contradiction.
    + intros ce ocid res Hin. in_trace Hin; [not_auth|discriminate|].
      by injection Hin as _ -> _.
Qed.

(** What the details of a pool and its status have in common. *)
Lemma GetClusterDetails_loop_agrees (nps : list (option modelOracle.NodePool.t))
  (m0 : gmap string pkgCluster.NodePoolStatus.t)
  (d0 : gmap string pkgCluster.NodeDetails.t) (name : string) :
  (pkgCluster.NodePoolStatus.Count <$> m0 !! name =
   pkgCluster.NodeDetails.Count <$> d0 !! name) ->
  pkgCluster.NodePoolStatus.Count <$> foldl GetStatus_body m0 nps !! name =
  pkgCluster.NodeDetails.Count <$>
    foldl (fun nodePools np =>
             match np with
             | None => nodePools
             | Some np =>
                 let count := getNodeCount np in
                 <[modelOracle.NodePool.Name np :=
                     {| pkgCluster.NodeDetails.CreatorBaseFields :=
                          NewCreatorBaseFields (modelOracle.NodePool.CreatedAt np)
                                               (modelOracle.NodePool.CreatedBy np);
                        pkgCluster.NodeDetails.Version := modelOracle.NodePool.Version np;
                        pkgCluster.NodeDetails.Count := count;
                        pkgCluster.NodeDetails.MinCount := count;
                        pkgCluster.NodeDetails.MaxCount := count |}]> nodePools
             end) d0 nps !! name.
Proof.
  revert m0 d0. induction nps as [|[np|] nps IH]; intros m0 d0 H0; simpl; [done| |by apply IH].
  apply IH. destruct (decide (modelOracle.NodePool.Name np = name)) as [<-|Hne].
  - by rewrite !lookup_insert_eq.
  - by rewrite !lookup_insert_ne.
Qed.

Lemma GetClusterDetails_loop_uniform (nps : list (option modelOracle.NodePool.t))
  (d0 : gmap string pkgCluster.NodeDetails.t) (name : string)
  (d : pkgCluster.NodeDetails.t) :
  (forall d', d0 !! name = Some d' ->
     pkgCluster.NodeDetails.MinCount d' = pkgCluster.NodeDetails.Count d' /\
     pkgCluster.NodeDetails.MaxCount d' = pkgCluster.NodeDetails.Count d') ->
  foldl (fun nodePools np =>
           match np with
           | None => nodePools
           | Some np =>
               let count := getNodeCount np in
               <[modelOracle.NodePool.Name np :=
                   {| pkgCluster.NodeDetails.CreatorBaseFields :=
                        NewCreatorBaseFields (modelOracle.NodePool.CreatedAt np)
                                             (modelOracle.NodePool.CreatedBy np);
                      pkgCluster.NodeDetails.Version := modelOracle.NodePool.Version np;
                      pkgCluster.NodeDetails.Count := count;
                      pkgCluster.NodeDetails.MinCount := count;
                      pkgCluster.NodeDetails.MaxCount := count |}]> nodePools
           end) d0 nps !! name = Some d ->
  pkgCluster.NodeDetails.MinCount d = pkgCluster.NodeDetails.Count d /\
  pkgCluster.NodeDetails.MaxCount d = pkgCluster.NodeDetails.Count d.
Proof.
  revert d0. induction nps as [|[np|] nps IH]; intros d0 H0 H; simpl in H;
    [by apply H0| |by eapply IH].
  eapply IH; [|done]. intros d'.
  destruct (decide (modelOracle.NodePool.Name np = name)) as [<-|Hne].
  - rewrite lookup_insert_eq. by intros [= <-].
  - rewrite lookup_insert_ne by done. apply H0.
Qed.

(** X7. The details [GetClusterDetails] returns come from the stored
    cluster, not from the cluster the engine reported: name, id, location,
    version and status are those of the model, and the node pools are keyed
    and counted as [GetStatus] reports them (same count under every name,
    with [MinCount = MaxCount = Count]). *)
Theorem GetClusterDetails_from_model (E : Env) (o : OKECluster) (w w' : World)
  (d : pkgCluster.DetailsResponse.t) :
  GetClusterDetails E o w = Returns (Some d, None) w' ->
  pkgCluster.DetailsResponse.Name d = GetName o /\
  pkgCluster.DetailsResponse.Id d = GetID o /\
  pkgCluster.DetailsResponse.Location d = GetLocation o /\
  pkgCluster.DetailsResponse.MasterVersion d =
    modelOracle.Cluster.Version (model.ClusterModel.OKE (modelCluster o)) /\
  pkgCluster.DetailsResponse.Status d = model.ClusterModel.Status (modelCluster o) /\
  (forall name,
     pkgCluster.NodeDetails.Count <$> pkgCluster.DetailsResponse.NodePools d !! name =
     pkgCluster.NodePoolStatus.Count <$>
       pkgCluster.GetClusterStatusResponse.NodePools (fst (GetStatus E o)) !! name) /\
  (forall name nd, pkgCluster.DetailsResponse.NodePools d !! name = Some nd ->
     pkgCluster.NodeDetails.MinCount nd = pkgCluster.NodeDetails.Count nd /\
     pkgCluster.NodeDetails.MaxCount nd = pkgCluster.NodeDetails.Count nd).
Proof.
  unfold GetClusterDetails. run. with_oci_run.
  destruct res as [oci|err]; [|by intros [=]].
  unfold NewContainerEngineClient. run.
  destruct (env_NewContainerEngineClient E _ _) as [ce'|err]; [|by intros [=]].
  unfold GetCluster. run.
  destruct (env_GetCluster E _ _ _) as [cl|err]; [|by intros [=]].
  destruct (negb _); [by intros [=]|].
  cbn [GetStatus]. run. intros [= <- _].
  cbn [pkgCluster.DetailsResponse.Name pkgCluster.DetailsResponse.Id
       pkgCluster.DetailsResponse.Location pkgCluster.DetailsResponse.MasterVersion
       pkgCluster.DetailsResponse.Status pkgCluster.DetailsResponse.NodePools
       pkgCluster.GetClusterStatusResponse.Name
       pkgCluster.GetClusterStatusResponse.ResourceID
       pkgCluster.GetClusterStatusResponse.Location
       pkgCluster.GetClusterStatusResponse.NodePools fst].
  repeat (split; [done|]). split.
  - intros name. symmetry. unfold GetClusterDetails_nodePools, GetStatus_nodePools.
    apply GetClusterDetails_loop_agrees. by rewrite !lookup_empty.
  - intros name nd. unfold GetClusterDetails_nodePools.
    apply GetClusterDetails_loop_uniform. intros d'. by rewrite lookup_empty.
Qed.

Lemma GetClusterDetails_from_model_witness :
  match
    GetClusterDetails sample_env_ok
      (sample_cluster "RUNNING" [Some (sample_pool "pool1" 3%N ["s1"; "s2"; "s3"] false)])
      []
  with
  | Returns (Some d, _) _ => pkgCluster.DetailsResponse.Name d = "demo"
  | _ => False
  end.
Proof.
  destruct (GetClusterDetails sample_env_ok
              (sample_cluster "RUNNING"
                 [Some (sample_pool "pool1" 3%N ["s1"; "s2"; "s3"] false)]) [])
    as [[[d|] [e|]] w'|w'] eqn:Hrun; try (vm_compute in Hrun; discriminate Hrun).
  apply (GetClusterDetails_from_model sample_env_ok _ [] w' d Hrun).
Defined.

(** ** The API endpoint *)

(** X8. [GetAPIEndpoint] makes the calls of the details query (client,
    container-engine client, [GetCluster] for the stored cluster id). When
    one of them fails it returns the endpoint cached so far together with
    the error, and the cluster is untouched. When the cluster is obtained
    it returns "https://" followed by the reported Kubernetes endpoint,
    with no error, and caches that value on the cluster, whose model it
    leaves alone. It panics exactly when the reported cluster has no
    endpoints or no Kubernetes endpoint. *)
Theorem GetAPIEndpoint_cache (E : Env)
  (Endpoints_Kubernetes : World -> LiveCluster -> option (option string))
  (o : OKECluster) (w : World) :
  let out := GetAPIEndpoint E Endpoints_Kubernetes o w in
  let evs := new_events w out in
  (forall o' s e w', out = Returns (o', (s, Some e)) w' ->
     o' = o /\ s = APIEndpoint o) /\
  (forall o' s w', out = Returns (o', (s, None)) w' ->
     exists ce cl host,
       last evs = Some (Ev_GetCluster ce
                          (modelOracle.Cluster.OCID
                             (model.ClusterModel.OKE (modelCluster o))) (Ok cl)) /\
       Endpoints_Kubernetes w' cl = Some (Some host) /\
       s = "https://" +:+ host /\
       APIEndpoint o' = s /\
       modelCluster o' = modelCluster o) /\
  ((exists w', out = Panics w') <->
   (exists ce ocid cl,
      last evs = Some (Ev_GetCluster ce ocid (Ok cl)) /\
      (Endpoints_Kubernetes (world_of out) cl = None \/
       Endpoints_Kubernetes (world_of out) cl = Some None))).
Proof.
  intros out evs. subst evs out. unfold GetAPIEndpoint. run. with_oci_run.
  destruct res as [oci|err].
  2:{ rewrite new_events_app. split; [by intros o' s e w' [= <- <- _ _]|].
      split; [by intros o' s w' [=]|]. split; [by intros [w' [=]]|].
      intros (ce & ocid & cl & Hlast & _).
      apply (last_auth _ _ Hauth) in Hlast. discriminate. }
  unfold NewContainerEngineClient. run.
  destruct (env_NewContainerEngineClient E _ _) as [ce'|err].
  2:{ rewrite <- app_assoc, new_events_app. split; [by intros o' s e w' [= <- <- _ _]|].
      split; [by intros o' s w' [=]|]. split; [by intros [w' [=]]|].
      intros (ce & ocid & cl & Hlast & _). rewrite last_snoc in Hlast. discriminate. }
  unfold GetCluster. run.
  destruct (env_GetCluster E _ _ _) as [cl|err].
  2:{ rewrite <- !app_assoc, new_events_app. split; [by intros o' s e w' [= <- <- _ _]|].
      split; [by intros o' s w' [=]|]. split; [by intros [w' [=]]|].
      intros (ce & ocid & cl & Hlast & _). rewrite last_snoc_app in Hlast.
      discriminate. }
  destruct (Endpoints_Kubernetes _ cl) as [[host|]|] eqn:Hend;
    rewrite <- !app_assoc in *;
    rewrite ?new_events_app, ?new_events_app_panic; cbn [world_of].
  - split; [by intros o' s e w' [=]|]. split.
    + intros o' s w' [= <- <- <-]. exists ce', cl, host.
      split; [apply last_snoc_app|]. repeat split; done.
    + split; [by intros [w' [=]]|].
      intros (ce & ocid & cl' & Hlast & Hnil). rewrite last_snoc_app in Hlast.
      injection Hlast as _ _ <-. rewrite Hend in Hnil. by destruct Hnil.
  - split; [by intros o' s e w' [=]|]. split; [by intros o' s w' [=]|].
    split; [|by eexists]. intros _. eexists _, _, _.
    split; [apply last_snoc_app|]. rewrite Hend. by right.
  - split; [by intros o' s e w' [=]|]. split; [by intros o' s w' [=]|].
    split; [|by eexists]. intros _. eexists _, _, _.
    split; [apply last_snoc_app|]. rewrite Hend. by left.
Qed.

Lemma GetAPIEndpoint_cache_witness :
  exists ce cl host,
    last (new_events []
            (GetAPIEndpoint sample_env_ok (fun _ _ => Some (Some "203.0.113.7:6443"))
               (sample_cluster "RUNNING" []) [])) =
    Some (Ev_GetCluster ce
            (modelOracle.Cluster.OCID
               (model.ClusterModel.OKE (modelCluster (sample_cluster "RUNNING" []))))
            (Ok cl)) /\
    (fun _ _ => Some (Some "203.0.113.7:6443"))
      (world_of
         (GetAPIEndpoint sample_env_ok (fun _ _ => Some (Some "203.0.113.7:6443"))
            (sample_cluster "RUNNING" []) []))
      cl = Some (Some host) /\
    "https://203.0.113.7:6443" = "https://" +:+ host /\
    APIEndpoint
      {| modelCluster := modelCluster (sample_cluster "RUNNING" []);
         APIEndpoint := "https://203.0.113.7:6443" |} = "https://203.0.113.7:6443" /\
    modelCluster
      {| modelCluster := modelCluster (sample_cluster "RUNNING" []);
         APIEndpoint := "https://203.0.113.7:6443" |} =
    modelCluster (sample_cluster "RUNNING" []).
Proof.
  apply (proj1 (proj2 (GetAPIEndpoint_cache sample_env_ok
                         (fun _ _ => Some (Some "203.0.113.7:6443"))
                         (sample_cluster "RUNNING" []) []))
           {| modelCluster := modelCluster (sample_cluster "RUNNING" []);
              APIEndpoint := "https://203.0.113.7:6443" |}
           "https://203.0.113.7:6443"
           (world_of
              (GetAPIEndpoint sample_env_ok (fun _ _ => Some (Some "203.0.113.7:6443"))
                 (sample_cluster "RUNNING" []) []))).
  vm_compute. reflexivity.
Defined.

(** ** The role binding *)

Lemma setClusterAdminRights_run (E : Env) (o : OKECluster) (name : string)
  (w : World) :
  exists err revs,
    setClusterAdminRights E o name w = Returns err (w ++ revs)%list /\
    Rbac_calls E o name err revs.
Proof.
  unfold setClusterAdminRights, GetK8sConfig, getConfig, GetK8sConnection,
    GetSecretWithValidation, getSecret, ClusterRoleBindings_Create. run.
  destruct (env_getConfig E _ _) as [cfg|e].
  2:{ eexists _, _. split; [done|constructor]. }
  destruct (env_GetK8sConnection E _ _) as [client|e]; rewrite <- ?app_assoc; cbn [app].
  2:{ eexists _, _. split; [done|constructor]. }
  destruct (env_getSecret E _ _ _) as [secret|e]; rewrite <- ?app_assoc; cbn [app].
  2:{ eexists _, _. split; [done|constructor]. }
  destruct (String.eqb_spec (default "" (Values secret !! secretOracle_UserOCID E)) "")
    as [Hempty|Hfull].
  { eexists _, _. split; [done|by constructor]. }
  rewrite <- ?app_assoc; cbn [app].
  destruct (env_ClusterRoleBindingsCreate E _ _ _) as [e|] eqn:Hcreate.
  - eexists _, _. split; [done|].
    exact (Rbac_asked E o name cfg client secret (Some e) Hfull).
  - eexists _, _. split; [done|].
    exact (Rbac_asked E o name cfg client secret None Hfull).
Qed.

(** X9. [setClusterAdminRights] never panics. The role binding it asks for
    is its last call; it carries the given name, the role "cluster-admin"
    of kind "ClusterRole" and one subject of kind "User" named by the entry
    "user_ocid" of the secret read just before. It asks for no binding when
    the secret has no (or an empty) entry under the user-OCID key, and then
    returns the error "empty user OCID". When that key is "user_ocid", the
    subject of every binding it asks for has a name that is not empty. *)
Theorem setClusterAdminRights_binding (E : Env) (o : OKECluster) (name : string)
  (w : World) :
  let out := setClusterAdminRights E o name w in
  let evs := new_events w out in
  (exists err, out = Returns err (world_of out)) /\
  (forall client b err, Ev_ClusterRoleBindingsCreate client b err ∈ evs ->
     last evs = Some (Ev_ClusterRoleBindingsCreate client b err) /\
     rbac.ObjectMeta_Name b = name /\
     rbac.Ref b =
       {| rbac.RoleKind := "ClusterRole"; rbac.RoleName := "cluster-admin";
          rbac.RoleAPIGroup := v1beta1_GroupName E |} /\
     exists org sid secret,
       Ev_getSecret org sid (Ok secret) ∈ evs /\
       default "" (Values secret !! secretOracle_UserOCID E) <> "" /\
       rbac.Subjects b =
         [ {| rbac.Kind := "User";
              rbac.Name := default "" (Values secret !! "user_ocid");
              rbac.APIGroup := v1_GroupName E |} ] /\
       (secretOracle_UserOCID E = "user_ocid" ->
        forall s, s ∈ rbac.Subjects b -> rbac.Name s <> "")) /\
  (forall org sid secret, Ev_getSecret org sid (Ok secret) ∈ evs ->
     default "" (Values secret !! secretOracle_UserOCID E) = "" ->
     out = Returns (Some (New "empty user OCID")) (world_of out) /\
     forall client b err, Ev_ClusterRoleBindingsCreate client b err ∉ evs).
Proof.
  intros out evs. subst evs out.
  destruct (setClusterAdminRights_run E o name w) as (err & revs & -> & Hcalls).
  rewrite new_events_app. cbn [world_of]. split; [by eexists|].
  destruct Hcalls as [e|cfg e|cfg client e|cfg client secret Hempty
                     |cfg client secret err Hfull].
  1-4: split;
       [intros client' b err Hin; in_trace Hin; discriminate
       |intros org sid secret' Hin Hem; in_trace Hin; try discriminate].
  - injection Hin as _ _ <-. split; [done|].
    intros client' b err Hin. in_trace Hin; discriminate.
  - split.
    + intros client' b err' Hin. in_trace Hin; try discriminate.
      injection Hin as -> -> ->. split; [done|]. split; [done|]. split; [done|].
      eexists _, _, secret. split; [do 2 apply list_elem_of_further; apply list_elem_of_here|].
      split; [done|]. split; [done|].
      intros Hkey s Hs. apply list_elem_of_singleton in Hs as ->.
      cbn [rbac.Name]. by rewrite <- Hkey.
    + intros org sid secret' Hin Hem. in_trace Hin; try discriminate.
      injection Hin as _ _ <-. contradiction.
Qed.

Lemma setClusterAdminRights_binding_witness :
  rbac.ObjectMeta_Name (admin_binding sample_env_ok "binding"
      {| Values := {[ "user_ocid" := "ocid1.user.x" ]} |}) = "binding".
Proof.
  apply (proj1 (proj2 (setClusterAdminRights_binding sample_env_ok
                         (sample_cluster "RUNNING" []) "binding" []))
           3%N (admin_binding sample_env_ok "binding"
                  {| Values := {[ "user_ocid" := "ocid1.user.x" ]} |}) None).
  vm_compute. apply list_elem_of_In. do 3 right. left. reflexivity.
Defined.

(** X10. Every error [setClusterAdminRights] returns is the error of its
    last call wrapped ([errors.Wrap]) with the message of the failing step,
    or the error "empty user OCID"; it returns no error exactly when its
    last call is a role binding request that succeeded. *)
Theorem setClusterAdminRights_errors (E : Env) (o : OKECluster) (name : string)
  (w : World) :
  let out := setClusterAdminRights E o name w in
  let evs := new_events w out in
  (forall err w', out = Returns (Some err) w' ->
     err = New "empty user OCID" \/
     exists e msg ev,
       err = Wrap e msg /\ last evs = Some ev /\ event_error ev = Some e /\
       msg ∈ ["error getting k8s config"; "error getting k8s client";
              "error getting secret"; "creating cluster role binding failed"]) /\
  ((exists w', out = Returns None w') <->
   (exists client b, last evs = Some (Ev_ClusterRoleBindingsCreate client b None))).
Proof.
  intros out evs. subst evs out.
  destruct (setClusterAdminRights_run E o name w) as (err & revs & -> & Hcalls).
  rewrite new_events_app.
  destruct Hcalls as [e|cfg e|cfg client e|cfg client secret Hempty
                     |cfg client secret [e|] Hfull].
  - split.
    + intros err w' [= <- _]. right. eexists e, _, _. split; [done|].
      split; [done|]. split; [done|]. apply list_elem_of_here.
    + split; [by intros [w' [=]]|by intros (client & b & [=])].
  - split.
    + intros err w' [= <- _]. right. eexists e, _, _. split; [done|].
      split; [done|]. split; [done|]. apply list_elem_of_further, list_elem_of_here.
    + split; [by intros [w' [=]]|by intros (client' & b & [=])].
  - split.
    + intros err w' [= <- _]. right. eexists e, _, _. split; [done|].
      split; [done|]. split; [done|].
      do 2 apply list_elem_of_further. apply list_elem_of_here.
    + split; [by intros [w' [=]]|by intros (client' & b & [=])].
  - split.
    + intros err w' [= <- _]. by left.
    + split; [by intros [w' [=]]|by intros (client' & b & [=])].
  - split.
    + intros err w' [= <- _]. right. eexists e, _, _. split; [done|].
      split; [done|]. split; [done|].
      do 3 apply list_elem_of_further. apply list_elem_of_here.
    + split; [by intros [w' [=]]|by intros (client' & b & [=])].
  - split.
    + by intros err w' [=].
    + split; [intros _; by eexists _, _|intros _; by eexists].
Qed.

Lemma setClusterAdminRights_errors_witness :
  Wrap (Errorf "Forbidden") "creating cluster role binding failed" =
    New "empty user OCID" \/
  exists e msg ev,
    Wrap (Errorf "Forbidden") "creating cluster role binding failed" = Wrap e msg /\
    last (new_events []
            (setClusterAdminRights
               (sample_env (Ok {| Id := Some "ocid1.vcn.x" |}) (Ok sample_networkValues)
                           None (Some (Errorf "Forbidden"))
                           (Ok {| LifecycleState := "ACTIVE" |}))
               (sample_cluster "RUNNING" []) "binding" [])) = Some ev /\
    event_error ev = Some e /\
    msg ∈ ["error getting k8s config"; "error getting k8s client";
           "error getting secret"; "creating cluster role binding failed"].
Proof.
  apply (proj1 (setClusterAdminRights_errors
                  (sample_env (Ok {| Id := Some "ocid1.vcn.x" |}) (Ok sample_networkValues)
                              None (Some (Errorf "Forbidden"))
                              (Ok {| LifecycleState := "ACTIVE" |}))
                  (sample_cluster "RUNNING" []) "binding" [])
           (Wrap (Errorf "Forbidden") "creating cluster role binding failed")
           (world_of
              (setClusterAdminRights
                 (sample_env (Ok {| Id := Some "ocid1.vcn.x" |}) (Ok sample_networkValues)
                             None (Some (Errorf "Forbidden"))
                             (Ok {| LifecycleState := "ACTIVE" |}))
                 (sample_cluster "RUNNING" []) "binding" []))).
  vm_compute. reflexivity.
Defined.

(** ** More on creating a cluster *)

Lemma GetClusterManager_run_failed (E : Env) (o : OKECluster) (w : World) :
  exists res evs,
    GetClusterManager E o w = Returns res (w ++ evs)%list /\
    auth_events evs /\
    (forall e, res = Err e -> failed_with evs e).
Proof.
  unfold GetClusterManager, GetOCIWithRegion, GetOCI, getSecret, NewOCI, ChangeRegion.
  run.
  destruct (env_getSecret E w _ _) as [s|e].
  2:{ eexists _, [_]. split; [done|]. split; [by repeat constructor|].
      intros e' [= <-]. by eexists. }
  destruct (env_NewOCI E _ _) as [oci|e]; rewrite <- ?app_assoc; cbn [app].
  2:{ eexists _, [_; _]. split; [done|]. split; [by repeat constructor|].
      intros e' [= <-]. by eexists. }
  destruct (env_ChangeRegion E _ _ _) as [e|]; rewrite <- ?app_assoc; cbn [app].
  - eexists _, [_; _; _]. split; [done|]. split; [by repeat constructor|].
    intros e' [= <-]. by eexists.
  - eexists _, [_; _; _]. split; [done|]. split; [by repeat constructor|].
    by intros e' [=].
Qed.

Lemma CreateCluster_runs (E : Env) (o : OKECluster) (w : World) :
  CreateCluster_run E o w (CreateCluster E o w).
Proof.
  unfold CreateCluster. run.
  destruct (GetClusterManager_run_failed E o w) as (res & evs & -> & Hauth & Hfail).
  destruct res as [cm|e]; [|constructor; [done|by apply Hfail]].
  unfold ManageOKECluster. run. rewrite <- app_assoc.
  destruct (env_ManageOKECluster E _ _ _) as [after [e|]]; cbn [fst snd];
    [by constructor|].
  destruct (setClusterAdminRights_run E (with_modelOKE o after)
              "cluster-creator-admin-right"
              (w ++ evs ++
               [Ev_ManageOKECluster cm (model.ClusterModel.OKE (modelCluster o))
                  after None])%list)
    as (err & revs & -> & Hcalls).
  rewrite <- !app_assoc. cbn [app].
  destruct err as [e|].
  - exact (CreateCluster_applied E o w evs cm after (Some e) revs Hauth Hcalls).
  - exact (CreateCluster_applied E o w evs cm after None revs Hauth Hcalls).
Qed.

Lemma Rbac_calls_events (E : Env) (o : OKECluster) (name : string)
  (err : option error) (revs : list Event) :
  Rbac_calls E o name err revs ->
  Forall (fun ev => is_rbac_event ev = true \/ is_auth_event ev = true) revs /\
  (forall cm s a e, Ev_ManageOKECluster cm s a e ∉ revs).
Proof.
  intros [e|cfg e|cfg client e|cfg client secret Hempty|cfg client secret e Hfull];
    (split; [repeat constructor; by (left + right)
            |intros cm s a e' Hin; in_trace Hin; discriminate]).
Qed.

(** X11. In [CreateCluster] the spec submitted to the cluster manager is
    the stored spec, and it is submitted at most once. No call of the
    role-binding step (kubeconfig, Kubernetes connection, role binding
    request) is made before the cluster manager has returned without error,
    and the binding asked for is named "cluster-creator-admin-right".
    Whatever the cluster manager answers, the cluster afterwards holds the
    spec as the manager left it. *)
Theorem CreateCluster_order (E : Env) (o : OKECluster) (w : World) :
  let out := CreateCluster E o w in
  let evs := new_events w out in
  (forall l1 cm s a e l2, evs = (l1 ++ Ev_ManageOKECluster cm s a e :: l2)%list ->
     s = model.ClusterModel.OKE (modelCluster o) /\
     auth_events l1 /\
     (forall cm' s' a' e', Ev_ManageOKECluster cm' s' a' e' ∉ l2) /\
     exists err, out = Returns (with_modelOKE o a, err) (world_of out)) /\
  (forall l1 ev l2, evs = (l1 ++ ev :: l2)%list -> is_rbac_event ev = true ->
     exists cm s a, Ev_ManageOKECluster cm s a None ∈ l1) /\
  (forall client b err, Ev_ClusterRoleBindingsCreate client b err ∈ evs ->
     rbac.ObjectMeta_Name b = "cluster-creator-admin-right").
Proof.
  intros out evs. subst evs out.
  destruct (CreateCluster_runs E o w)
    as [evs e Hauth _|evs cm after e Hauth|evs cm after err revs Hauth Hcalls];
    rewrite new_events_app; cbn [world_of].
  - split; [|split].
    + intros l1 cm s a e' l2 Heq.
      assert (Hin : Ev_ManageOKECluster cm s a e' ∈ evs)
        by (rewrite Heq; apply elem_of_app; right; apply list_elem_of_here).
      not_auth.
    + intros l1 ev l2 Heq Hev.
      assert (Hin : ev ∈ evs)
        by (rewrite Heq; apply elem_of_app; right; apply list_elem_of_here).
      apply (auth_events_elem _ _ Hauth) in Hin. by destruct ev.
    + intros client b err Hin. not_auth.
  - split; [|split].
    + intros l1 cm' s a e' l2 Heq.
      apply split_after_auth in Heq as [(-> & [= _ <- <- _] & <-)|(l1' & _ & Heq)];
        [|by destruct l1'|done|done].
      split; [done|]. split; [done|]. split; [|by eexists].
      intros cm'' s' a' e'' Hin. by apply elem_of_nil in Hin.
    + intros l1 ev l2 Heq Hev.
      assert (Hin : ev ∈ (evs ++ [Ev_ManageOKECluster cm
                                     (model.ClusterModel.OKE (modelCluster o))
                                     after (Some e)])%list)
        by (rewrite Heq; apply elem_of_app; right; apply list_elem_of_here).
      in_trace Hin.
      * apply (auth_events_elem _ _ Hauth) in Hin. by destruct ev.
      * by subst ev.
    + intros client b err Hin. in_trace Hin; [not_auth|discriminate].
  - destruct (Rbac_calls_events _ _ _ _ _ Hcalls) as [Hrevs Hnomanage].
    split; [|split].
    + intros l1 cm' s a e' l2 Heq.
      apply split_after_auth in Heq as [(-> & [= _ <- <- _] & <-)|(l1' & _ & Heq)];
        [| |done|done].
      * split; [done|]. split; [done|]. split; [done|]. by eexists.
      * exfalso. apply (Hnomanage cm' s a e'). rewrite Heq.
        apply elem_of_app; right; apply list_elem_of_here.
    + intros l1 ev l2 Heq Hev.
      apply split_after_auth in Heq as [(_ & <- & _)|(l1' & -> & _)];
        [done| |done|by destruct ev].
      eexists _, _, _. after_auth.
    + intros client b err' Hin. in_trace Hin; [not_auth|discriminate|].
      destruct Hcalls; in_trace Hin; try discriminate.
      by injection Hin as _ -> _.
Qed.

Lemma CreateCluster_order_witness :
  exists cm s a,
    Ev_ManageOKECluster cm s a None ∈
      take 4 (new_events [] (CreateCluster sample_env_ok (sample_cluster "" []) [])).
Proof.
  apply (proj1 (proj2 (CreateCluster_order sample_env_ok (sample_cluster "" []) []))
           (take 4 (new_events [] (CreateCluster sample_env_ok (sample_cluster "" []) [])))
           (Ev_getConfig 7%N (Ok "kubeconfig"))
           (drop 5 (new_events [] (CreateCluster sample_env_ok (sample_cluster "" []) [])))).
  - vm_compute. reflexivity.
  - reflexivity.
Defined.

(** X12. [CreateCluster] never panics. It returns no error exactly when
    its last call is a role binding request that succeeded. An error is
    either the error of the failed client construction, returned as it is
    with the cluster untouched and the cluster manager never called; or the
    cluster manager's error wrapped with "error creating cluster", that
    call being the last one; or the role-binding step's error with the
    message "error get/create clusterrolebinding" added, after the cluster
    manager returned without error. *)
Theorem CreateCluster_result (E : Env) (o : OKECluster) (w : World) :
  let out := CreateCluster E o w in
  let evs := new_events w out in
  (exists o' err, out = Returns (o', err) (world_of out)) /\
  ((exists o' w', out = Returns (o', None) w') <->
   (exists client b, last evs = Some (Ev_ClusterRoleBindingsCreate client b None))) /\
  (forall o' err w', out = Returns (o', Some err) w' ->
     (o' = o /\ auth_events evs /\
      exists ev, last evs = Some ev /\ event_error ev = Some err) \/
     (exists cm s a e,
        err = Wrap e "error creating cluster" /\
        last evs = Some (Ev_ManageOKECluster cm s a (Some e))) \/
     (exists cm s a e,
        err = WithMessage e "error get/create clusterrolebinding" /\
        Ev_ManageOKECluster cm s a None ∈ evs)).
Proof.
  intros out evs. subst evs out.
  destruct (CreateCluster_runs E o w)
    as [evs e Hauth Hfail|evs cm after e Hauth|evs cm after err revs Hauth Hcalls];
    rewrite new_events_app; cbn [world_of].
  - split; [by eexists _, _|]. split.
    + split; [by intros (o' & w' & [=])|]. intros (client & b & Hlast).
      apply (last_auth _ _ Hauth) in Hlast. discriminate.
    + intros o' err w' [= <- <- _]. by left.
  - split; [by eexists _, _|]. split.
    + split; [by intros (o' & w' & [=])|]. intros (client & b & Hlast).
      rewrite last_snoc in Hlast. discriminate.
    + intros o' err w' [= <- <- _]. right; left. eexists _, _, _, _.
      split; [done|]. apply last_snoc.
  - split; [by eexists _, _|]. split.
    + split.
      * intros (o' & w' & Hret).
        destruct Hcalls as [e| cfg e|cfg client' e|cfg client' secret Hempty
                           |cfg client' secret [e|] Hfull];
          try discriminate Hret.
        eexists _, _. rewrite last_app_cons. reflexivity.
      * intros (client & b & Hlast). rewrite last_app_cons in Hlast.
        destruct Hcalls as [e| cfg e|cfg client' e|cfg client' secret Hempty
                           |cfg client' secret [e|] Hfull];
          try (cbn in Hlast; discriminate); by eexists _, _.
    + intros o' err' w' Hret. destruct err as [e|]; [|discriminate Hret].
      injection Hret as <- <- _. right; right. eexists _, _, _, _.
      split; [done|]. after_auth.
Qed.

Lemma CreateCluster_result_witness :
  exists client b,
    last (new_events [] (CreateCluster sample_env_ok (sample_cluster "" []) [])) =
    Some (Ev_ClusterRoleBindingsCreate client b None).
Proof.
  apply (proj1 (proj1 (proj2 (CreateCluster_result sample_env_ok
                                (sample_cluster "" []) [])))).
  eexists _, _. vm_compute. reflexivity.
Defined.

(** ** More on updating a cluster *)

Lemma UpdateCluster_runs (E : Env) (o : OKECluster)
  (r : pkgCluster.UpdateClusterRequest.t) (userId : uint) (w : World) :
  match
    PopulateNetworkValues E o (pkgCluster.UpdateClusterRequest.UpdateProperties_OKE r)
      (modelOracle.Cluster.VCNID (model.ClusterModel.OKE (modelCluster o))) w
  with
  | Panics w1 => UpdateCluster E o r userId w = Panics w1
  | Returns (c, Some e) w1 =>
      UpdateCluster E o r userId w = Returns (o, update_request_of c, Some e) w1
  | Returns (c, None) w1 =>
      Update_tail E o c userId w1 (UpdateCluster E o r userId w)
  end.
Proof.
  unfold UpdateCluster. run.
  destruct (PopulateNetworkValues E o _ _ w) as [[c [e|]] w1|w1]; run; [done| |done].
  unfold CreateModelFromUpdateRequest. run.
  fold (update_request_of c).
  destruct (env_CreateModelFromUpdateRequest E _ _ _ _) as [model|e];
    [|by constructor].
  destruct (GetClusterManager_run_failed E o
              (w1 ++ [Ev_CreateModelFromUpdateRequest
                        (model.ClusterModel.OKE (modelCluster o))
                        (update_request_of c) userId (Ok model)])%list)
    as (res & evs & -> & Hauth & Hfail).
  rewrite <- !app_assoc. cbn [app].
  destruct res as [cm|e]; [|constructor; [done|by apply Hfail]].
  unfold ManageOKECluster. run.
  rewrite <- !app_assoc. cbn [app].
  destruct (env_ManageOKECluster E _ _ _) as [after [e|]]; cbn [fst snd];
    [by constructor|].
  destruct (keep_NodePools [] (modelOracle.Cluster.NodePools after)) as [nodePools|] eqn:Hkeep.
  - by apply Update_applied.
  - by apply Update_nil_pool.
Qed.

Lemma filter_kept_live (l : list (option modelOracle.NodePool.t)) :
  Forall live_pool (List.filter kept l) /\
  List.filter kept l `sublist_of` l /\
  (forall p, p ∈ l -> live_pool p -> p ∈ List.filter kept l).
Proof.
  split; [|split].
  - apply Forall_forall. intros p Hin. apply list_elem_of_In, filter_In in Hin as [_ Hk].
    destruct p as [np|]; [|discriminate]. exists np. split; [done|].
    simpl in Hk. by destruct (modelOracle.NodePool.Delete np).
  - induction l as [|p l IH]; simpl; [done|].
    destruct (kept p); [by apply sublist_skip|by apply sublist_cons].
  - intros p Hin (np & -> & Hd). apply list_elem_of_In, filter_In.
    split; [by apply list_elem_of_In|]. simpl. by rewrite Hd.
Qed.

Lemma keep_NodePools_None (nps acc : list (option modelOracle.NodePool.t)) :
  keep_NodePools acc nps = None <-> None ∈ nps.
Proof.
  revert acc. induction nps as [|[np|] nps IH]; intros acc; simpl.
  - split; [done|]. intros Hin. by apply elem_of_nil in Hin.
  - destruct (negb _); rewrite IH; split;
      try (intros Hin; by apply list_elem_of_further);
      intros Hin; apply elem_of_cons in Hin as [?|?]; done.
  - split; [intros _; apply list_elem_of_here|done].
Qed.

Lemma populate_NodePools_None (nv : NetworkValues)
  (nps : list (option oracle.NodePool.t)) :
  populate_NodePools nv nps = None <-> None ∈ nps.
Proof.
  induction nps as [|[np|] nps IH]; simpl.
  - split; [done|]. intros Hin. by apply elem_of_nil in Hin.
  - destruct (GetPoolQuantityValues _ _) as [q ids].
    destruct (populate_NodePools nv nps) as [rest|].
    + split; [done|]. intros Hin. apply elem_of_cons in Hin as [?|Hin]; [done|].
      by apply IH in Hin.
    + split; [|done]. intros _. apply list_elem_of_further. by apply IH.
  - split; [intros _; apply list_elem_of_here|done].
Qed.

Lemma auth_not_network (ev : Event) :
  is_auth_event ev = true -> is_network_event ev = false.
Proof. by destruct ev. Qed.

Lemma last_app_failed (l evs : list Event) (e : error) :
  failed_with evs e -> last (l ++ evs) = last evs.
Proof. intros (ev & Hlast & _). by rewrite last_app, Hlast. Qed.

Lemma last_cons_failed (x : Event) (evs : list Event) (e : error) :
  failed_with evs e -> last (x :: evs) = last evs.
Proof. intros (ev & Hlast & _). by destruct evs. Qed.

(** Splits a run of [UpdateCluster] into the ways it can end. *)
Ltac update_cases E o r userId w :=
  let Hrun := fresh "Hrun" in
  pose proof (UpdateCluster_runs E o r userId w) as Hrun;
  revert Hrun;
  destruct (PopulateNetworkValues_run E o
              (pkgCluster.UpdateClusterRequest.UpdateProperties_OKE r)
              (modelOracle.Cluster.VCNID (model.ClusterModel.OKE (modelCluster o))) w)
    as [evs err Hauth|evs oci err Hauth|evs oci nv Hauth Hlb|evs oci nv Hauth Hlb Hnil
       |evs oci nv lb1 lb2 nps Hauth Hlb Hnps];
  cbn beta iota; intros Hrun;
  [rewrite Hrun|rewrite Hrun|rewrite Hrun|rewrite Hrun
  |destruct Hrun as [e|model evs' e Hauth' Hfail|model evs' cm after e Hauth'
                    |model evs' cm after Hauth' Hkeep
                    |model evs' cm after nodePools Hauth' Hkeep]];
  rewrite <- ?app_assoc; cbn [app];
  rewrite ?new_events_app, ?new_events_app_panic; cbn [world_of].

(** X13. [UpdateCluster] never asks the network manager to create or to
    delete a network: the only network call it makes is the query of the
    subnets of the stored network. The update constructor is given the
    stored spec, the user and the request already holding the stored
    network id. The cluster manager is called at most once, as the last
    call, with the spec the update constructor built. *)
Theorem UpdateCluster_calls (E : Env) (o : OKECluster)
  (r : pkgCluster.UpdateClusterRequest.t) (userId : uint) (w : World) :
  let stored := model.ClusterModel.OKE (modelCluster o) in
  let out := UpdateCluster E o r userId w in
  let evs := new_events w out in
  (forall ev, ev ∈ evs -> is_network_event ev = true ->
     exists m res, ev = Ev_GetNetworkValues m (modelOracle.Cluster.VCNID stored) res) /\
  (forall cur req uid res, Ev_CreateModelFromUpdateRequest cur req uid res ∈ evs ->
     cur = stored /\ uid = userId /\
     oracle.Cluster.vcnID (pkgCluster.UpdateClusterRequest.UpdateProperties_OKE req) =
     modelOracle.Cluster.VCNID stored) /\
  (forall cm s a e, Ev_ManageOKECluster cm s a e ∈ evs ->
     last evs = Some (Ev_ManageOKECluster cm s a e) /\
     exists cur req, Ev_CreateModelFromUpdateRequest cur req userId (Ok s) ∈ evs).
Proof.
  intros stored out evs. subst evs out stored.
  update_cases E o r userId w.
  all: split; [|split].
  all: try (intros ev Hin Hnet; in_trace Hin;
            try (apply (auth_events_elem _ _ Hauth) in Hin;
                 apply auth_not_network in Hin; congruence);
            try (apply (auth_events_elem _ _ Hauth') in Hin;
                 apply auth_not_network in Hin; congruence);
            try (subst ev; discriminate Hnet);
            subst ev; by eexists _, _).
  all: try (intros cur req uid res Hin; in_trace Hin;
            try not_auth; try discriminate;
            by injection Hin as -> -> -> _).
  all: intros cm' s a e' Hin; in_trace Hin; try not_auth; try discriminate.
  all: injection Hin as -> -> -> ->.
  all: split; [by rewrite !app_comm_cons, ?app_assoc, last_snoc|].
  all: eexists _, _; apply elem_of_app; right;
       apply list_elem_of_further, list_elem_of_here.
Qed.

Lemma UpdateCluster_calls_witness :
  exists m res,
    Ev_GetNetworkValues (NewVCNManager 1%N) "ocid1.vcn.x" (Ok sample_networkValues) =
    Ev_GetNetworkValues m
      (modelOracle.Cluster.VCNID
         (model.ClusterModel.OKE (modelCluster (sample_cluster "RUNNING" [])))) res.
Proof.
  apply (proj1 (UpdateCluster_calls sample_env_ok (sample_cluster "RUNNING" [])
                  (sample_update_request [6%N]) 1%N [])
           (Ev_GetNetworkValues (NewVCNManager 1%N) "ocid1.vcn.x"
              (Ok sample_networkValues))).
  - vm_compute. apply list_elem_of_In. do 3 right. left. reflexivity.
  - reflexivity.
Defined.

(** X14. When [UpdateCluster] returns without error, its last call is the
    cluster manager's, which returned no error, and the cluster holds the
    spec as the manager left it except for the pool list: the stored pools
    are, in the same order, exactly the pools of that spec that are not
    marked for deleting, none of them nil. The rest of the cluster model is
    what it was. *)
Theorem UpdateCluster_success (E : Env) (o o' : OKECluster)
  (r r' : pkgCluster.UpdateClusterRequest.t) (userId : uint) (w w' : World) :
  UpdateCluster E o r userId w = Returns (o', r', None) w' ->
  let pools' := modelOracle.Cluster.NodePools (model.ClusterModel.OKE (modelCluster o')) in
  exists cm s a,
    last (new_events w (UpdateCluster E o r userId w)) =
      Some (Ev_ManageOKECluster cm s a None) /\
    o' = with_modelOKE o (modelOracle.Cluster.with_NodePools a pools') /\
    Forall live_pool pools' /\
    pools' `sublist_of` modelOracle.Cluster.NodePools a /\
    (forall p, p ∈ modelOracle.Cluster.NodePools a -> live_pool p -> p ∈ pools').
Proof.
  update_cases E o r userId w; intros Hret; try discriminate Hret.
  injection Hret as <- _ _. cbn zeta.
  cbn [modelCluster with_modelOKE model.ClusterModel.OKE model.ClusterModel.with_OKE
       modelOracle.Cluster.NodePools modelOracle.Cluster.with_NodePools].
  apply keep_NodePools_spec in Hkeep as ->. cbn [app].
  destruct (filter_kept_live (modelOracle.Cluster.NodePools after)) as (Hlive & Hsub & Hall).
  eexists cm, model, after.
  split; [by rewrite !app_comm_cons, ?app_assoc, last_snoc|]. done.
Qed.

Lemma UpdateCluster_success_witness :
  exists cm s a,
    last (new_events []
            (UpdateCluster sample_env_ok
               (sample_cluster "RUNNING"
                  [Some (sample_pool "old" 1%N ["s1"] true);
                   Some (sample_pool "new" 2%N ["s1"; "s2"; "s3"] false)])
               (sample_update_request [6%N]) 1%N [])) =
      Some (Ev_ManageOKECluster cm s a None) /\
    sample_cluster "RUNNING" [Some (sample_pool "new" 2%N ["s1"; "s2"; "s3"] false)] =
      with_modelOKE
        (sample_cluster "RUNNING"
           [Some (sample_pool "old" 1%N ["s1"] true);
            Some (sample_pool "new" 2%N ["s1"; "s2"; "s3"] false)])
        (modelOracle.Cluster.with_NodePools a
           [Some (sample_pool "new" 2%N ["s1"; "s2"; "s3"] false)]) /\
    Forall live_pool [Some (sample_pool "new" 2%N ["s1"; "s2"; "s3"] false)] /\
    [Some (sample_pool "new" 2%N ["s1"; "s2"; "s3"] false)]
      `sublist_of` modelOracle.Cluster.NodePools a /\
    (forall p, p ∈ modelOracle.Cluster.NodePools a -> live_pool p ->
       p ∈ [Some (sample_pool "new" 2%N ["s1"; "s2"; "s3"] false)]).
Proof.
  apply (UpdateCluster_success sample_env_ok
           (sample_cluster "RUNNING"
              [Some (sample_pool "old" 1%N ["s1"] true);
               Some (sample_pool "new" 2%N ["s1"; "s2"; "s3"] false)])
           (sample_cluster "RUNNING"
              [Some (sample_pool "new" 2%N ["s1"; "s2"; "s3"] false)])
           (sample_update_request [6%N])
           (update_request_of
              (fst (fst (match
                           UpdateCluster sample_env_ok
                             (sample_cluster "RUNNING"
                                [Some (sample_pool "old" 1%N ["s1"] true);
                                 Some (sample_pool "new" 2%N ["s1"; "s2"; "s3"] false)])
                             (sample_update_request [6%N]) 1%N []
                         with
                         | Returns (_, r', _) _ =>
                             (pkgCluster.UpdateClusterRequest.UpdateProperties_OKE r', 0, 0)
                         | Panics _ => (sample_request_spec [], 0, 0)
                         end))))
           1%N []
           (world_of
              (UpdateCluster sample_env_ok
                 (sample_cluster "RUNNING"
                    [Some (sample_pool "old" 1%N ["s1"] true);
                     Some (sample_pool "new" 2%N ["s1"; "s2"; "s3"] false)])
                 (sample_update_request [6%N]) 1%N []))).
  vm_compute. reflexivity.
Defined.

(** X15. The request given to [UpdateCluster] is written to before the
    cluster manager is called and keeps what was written whatever happens
    later: once the subnets of the network were obtained, the request holds
    the stored network id, and, when there are 2 load-balancer subnets, both
    their ids and the quantity and subnets of every pool, even if
    [UpdateCluster] then returns an error. If the subnets were not obtained
    the request is what it was. Its version and the counts of its pools
    never change. *)
Theorem UpdateCluster_request_written (E : Env) (o o' : OKECluster)
  (r r' : pkgCluster.UpdateClusterRequest.t) (userId : uint) (w w' : World)
  (returned : option error) :
  UpdateCluster E o r userId w = Returns (o', r', returned) w' ->
  let c := pkgCluster.UpdateClusterRequest.UpdateProperties_OKE r in
  let c' := pkgCluster.UpdateClusterRequest.UpdateProperties_OKE r' in
  let evs := new_events w (UpdateCluster E o r userId w) in
  oracle.Cluster.Version c' = oracle.Cluster.Version c /\
  (forall m id nv, Ev_GetNetworkValues m id (Ok nv) ∈ evs ->
     oracle.Cluster.vcnID c' =
       modelOracle.Cluster.VCNID (model.ClusterModel.OKE (modelCluster o)) /\
     (length (LBSubnetIDs nv) = 2%nat ->
      LBSubnetIDs nv = [oracle.Cluster.lbSubnetID1 c'; oracle.Cluster.lbSubnetID2 c'] /\
      Forall2 (populated nv) (oracle.Cluster.NodePools c) (oracle.Cluster.NodePools c')) /\
     (length (LBSubnetIDs nv) <> 2%nat ->
      oracle.Cluster.NodePools c' = oracle.Cluster.NodePools c /\
      returned = Some (Errorf "Invalid network config: there must be 2 loadbalancer subnets!"))) /\
  ((forall m id nv, Ev_GetNetworkValues m id (Ok nv) ∉ evs) -> c' = c).
Proof.
  intros Hret c c' evs. subst evs c c'. revert Hret.
  update_cases E o r userId w; intros Hret; try discriminate Hret;
    injection Hret as _ <- <- _;
    cbn [pkgCluster.UpdateClusterRequest.UpdateProperties_OKE update_request_of
         oracle.Cluster.Version oracle.Cluster.vcnID oracle.Cluster.NodePools
         oracle.Cluster.lbSubnetID1 oracle.Cluster.lbSubnetID2 oracle.Cluster.SetVCNID].
  1-2: split; [done|]; split; [|done];
       intros m id nv' Hin; in_trace Hin; try not_auth; discriminate.
  - split; [done|]. split.
    + intros m id nv' Hin. in_trace Hin; try not_auth.
      injection Hin as _ _ <-. split; [done|]. split; [done|].
      intros _. by split.
    + intros Hno. exfalso. eapply Hno. after_auth.
  - split; [done|]. split.
    + intros m id nv' Hin. in_trace Hin; try not_auth; try discriminate.
      injection Hin as _ _ <-. split; [done|]. split; [|by rewrite Hlb].
      intros _. split; [done|]. by apply populate_NodePools_spec.
    + intros Hno. exfalso. eapply Hno. after_auth.
  - split; [done|]. split.
    + intros m id nv' Hin. in_trace Hin; try not_auth; try discriminate.
      injection Hin as _ _ <-. split; [done|]. split; [|by rewrite Hlb].
      intros _. split; [done|]. by apply populate_NodePools_spec.
    + intros Hno. exfalso. eapply Hno. after_auth.
  - split; [done|]. split.
    + intros m id nv' Hin. in_trace Hin; try not_auth; try discriminate.
      injection Hin as _ _ <-. split; [done|]. split; [|by rewrite Hlb].
      intros _. split; [done|]. by apply populate_NodePools_spec.
    + intros Hno. exfalso. eapply Hno. after_auth.
  - split; [done|]. split.
    + intros m id nv' Hin. in_trace Hin; try not_auth; try discriminate.
      injection Hin as _ _ <-. split; [done|]. split; [|by rewrite Hlb].
      intros _. split; [done|]. by apply populate_NodePools_spec.
    + intros Hno. exfalso. eapply Hno. after_auth.
Qed.

Lemma UpdateCluster_request_written_witness :
  oracle.Cluster.vcnID
    {| oracle.Cluster.Version := "v1.10.3";
       oracle.Cluster.NodePools :=
         [Some {| oracle.NodePool.Count := 6%N;
                  oracle.NodePool.quantityPerSubnet := 2%N;
                  oracle.NodePool.subnetIds := ["s1"; "s2"; "s3"] |}];
       oracle.Cluster.vcnID := "ocid1.vcn.x";
       oracle.Cluster.lbSubnetID1 := "lb1";
       oracle.Cluster.lbSubnetID2 := "lb2" |} =
  modelOracle.Cluster.VCNID
    (model.ClusterModel.OKE (modelCluster (sample_cluster "RUNNING" []))).
Proof.
  refine (proj1 (proj1 (proj2
            (UpdateCluster_request_written
               (sample_env (Ok {| Id := Some "ocid1.vcn.x" |}) (Ok sample_networkValues)
                           (Some (Errorf "engine unavailable")) None
                           (Ok {| LifecycleState := "ACTIVE" |}))
               (sample_cluster "RUNNING" []) (sample_cluster "RUNNING" [])
               (sample_update_request [6%N])
               (update_request_of
                  {| oracle.Cluster.Version := "v1.10.3";
                     oracle.Cluster.NodePools :=
                       [Some {| oracle.NodePool.Count := 6%N;
                                oracle.NodePool.quantityPerSubnet := 2%N;
                                oracle.NodePool.subnetIds := ["s1"; "s2"; "s3"] |}];
                     oracle.Cluster.vcnID := "ocid1.vcn.x";
                     oracle.Cluster.lbSubnetID1 := "lb1";
                     oracle.Cluster.lbSubnetID2 := "lb2" |})
               1%N []
               (world_of
                  (UpdateCluster
                     (sample_env (Ok {| Id := Some "ocid1.vcn.x" |})
                                 (Ok sample_networkValues)
                                 (Some (Errorf "engine unavailable")) None
                                 (Ok {| LifecycleState := "ACTIVE" |}))
                     (sample_cluster "RUNNING" []) (sample_update_request [6%N]) 1%N []))
               (Some (Errorf "engine unavailable")) _))
            (NewVCNManager 1%N) "ocid1.vcn.x" sample_networkValues _)).
  - vm_compute. reflexivity.
  - vm_compute. apply list_elem_of_In. do 3 right. left. reflexivity.
Defined.

(** X16. [UpdateCluster] panics in exactly two situations: the subnets of
    the network were obtained with 2 load-balancer subnets and the request
    holds a nil pool (nothing was submitted yet); or the cluster manager
    applied the spec without error and the spec it left holds a nil pool
    (the spec is applied, the stored cluster is not updated). *)
Theorem UpdateCluster_panics (E : Env) (o : OKECluster)
  (r : pkgCluster.UpdateClusterRequest.t) (userId : uint) (w : World) :
  let out := UpdateCluster E o r userId w in
  let evs := new_events w out in
  (exists w', out = Panics w') <->
  (exists m id nv,
     last evs = Some (Ev_GetNetworkValues m id (Ok nv)) /\
     length (LBSubnetIDs nv) = 2%nat /\
     None ∈ oracle.Cluster.NodePools
              (pkgCluster.UpdateClusterRequest.UpdateProperties_OKE r)) \/
  (exists cm s a,
     last evs = Some (Ev_ManageOKECluster cm s a None) /\
     None ∈ modelOracle.Cluster.NodePools a).
Proof.
  intros out evs. subst evs out.
  update_cases E o r userId w.
  - split; [by intros [w' [=]]|].
    intros [(m & id & nv & Hlast & _)|(cm & s & a & Hlast & _)];
      apply (last_auth _ _ Hauth) in Hlast; discriminate.
  - split; [by intros [w' [=]]|]. rewrite last_snoc.
    intros [(m & id & nv & Hlast & _)|(cm & s & a & Hlast & _)]; discriminate.
  - split; [by intros [w' [=]]|]. rewrite last_snoc.
    intros [(m & id & nv' & [= _ _ <-] & Hlen & _)|(cm & s & a & Hlast & _)];
      [contradiction|discriminate].
  - split; [|by eexists]. intros _. left. eexists _, _, nv.
    split; [apply last_snoc|]. split; [done|]. by apply populate_NodePools_None in Hnil.
  - split; [by intros [w' [=]]|]. rewrite last_app_cons. simpl.
    intros [(m & id & nv' & Hlast & _)|(cm & s & a & Hlast & _)]; discriminate.
  - split; [by intros [w' [=]]|].
    rewrite last_app_cons. cbn [last]. rewrite (last_cons_failed _ _ _ Hfail).
    intros [(m & id & nv' & Hlast & _)|(cm & s & a & Hlast & _)];
      apply (last_auth _ _ Hauth') in Hlast; discriminate.
  - split; [by intros [w' [=]]|]. rewrite !app_comm_cons, ?app_assoc, last_snoc.
    intros [(m & id & nv' & Hlast & _)|(cm' & s & a & Hlast & _)]; discriminate.
  - split; [|by eexists]. intros _. right. eexists _, _, after.
    split; [by rewrite !app_comm_cons, ?app_assoc, last_snoc|].
    by apply keep_NodePools_None in Hkeep.
  - split; [by intros [w' [=]]|]. rewrite !app_comm_cons, ?app_assoc, last_snoc.
    intros [(m & id & nv' & Hlast & _)|(cm' & s & a & [= _ _ <- ] & Hnil)];
      [discriminate|].
    apply (keep_NodePools_None _ []) in Hnil. congruence.
Qed.

Lemma UpdateCluster_panics_witness :
  exists w',
    UpdateCluster sample_env_ok (sample_cluster "RUNNING" [None])
      (sample_update_request [6%N]) 1%N [] = Panics w'.
Proof.
  apply (proj2 (UpdateCluster_panics sample_env_ok (sample_cluster "RUNNING" [None])
                  (sample_update_request [6%N]) 1%N [])).
  right. eexists _, _, (sample_spec [None]).
  split; [vm_compute; reflexivity|]. apply list_elem_of_here.
Defined.

(** ** More on network values *)

Lemma populated_Count (nv : NetworkValues) (nps nps' : list (option oracle.NodePool.t)) :
  Forall2 (populated nv) nps nps' ->
  map (option_map oracle.NodePool.Count) nps' =
  map (option_map oracle.NodePool.Count) nps.
Proof.
  induction 1 as [|p p' nps nps' (np & np' & -> & -> & Hc & _) _ IH]; [done|].
  simpl. by rewrite Hc, IH.
Qed.

(** X17. Every value [PopulateNetworkValues] returns holds the version and
    the pool counts of the spec it was given, pool by pool. The only
    network call it makes is one query of the subnets of the given network,
    as its last call; unless that query answered with an inventory, the
    spec returned is the spec given. *)
Theorem PopulateNetworkValues_frame (E : Env) (o : OKECluster)
  (r : oracle.Cluster.t) (VCNID : string) (w : World) :
  let out := PopulateNetworkValues E o r VCNID w in
  let evs := new_events w out in
  (forall r' err w', out = Returns (r', err) w' ->
     oracle.Cluster.Version r' = oracle.Cluster.Version r /\
     map (option_map oracle.NodePool.Count) (oracle.Cluster.NodePools r') =
       map (option_map oracle.NodePool.Count) (oracle.Cluster.NodePools r) /\
     ((forall m id nv, Ev_GetNetworkValues m id (Ok nv) ∉ evs) ->
      r' = r /\ err <> None)) /\
  (forall ev, ev ∈ evs -> is_network_event ev = true ->
     last evs = Some ev /\ exists m res, ev = Ev_GetNetworkValues m VCNID res).
Proof.
  intros out evs. subst evs out.
  destruct (PopulateNetworkValues_run E o r VCNID w)
    as [evs err Hauth|evs oci err Hauth|evs oci nv Hauth Hlb|evs oci nv Hauth Hlb Hnil
       |evs oci nv lb1 lb2 nps Hauth Hlb Hnps];
    rewrite ?new_events_app, ?new_events_app_panic; (split; [intros r' err' w' Hret|]).
  all: try (intros ev Hin Hnet; in_trace Hin;
            [apply (auth_events_elem _ _ Hauth) in Hin;
             apply auth_not_network in Hin; congruence|];
            subst ev; split; [apply last_snoc|by eexists _, _]).
  - injection Hret as <- <- _. by repeat split.
  - intros ev Hin Hnet. apply (auth_events_elem _ _ Hauth) in Hin.
    apply auth_not_network in Hin. congruence.
  - injection Hret as <- <- _. by repeat split.
  - injection Hret as <- <- _. split; [done|]. split; [done|].
    intros Hno. exfalso. eapply Hno. after_auth.
  - discriminate Hret.
  - injection Hret as <- <- _. split; [done|]. split.
    + apply populate_NodePools_spec in Hnps. by apply (populated_Count nv).
    + intros Hno. exfalso. eapply Hno. after_auth.
Qed.

Lemma PopulateNetworkValues_frame_witness :
  oracle.Cluster.Version (oracle.Cluster.SetVCNID (sample_request_spec [6%N]) "ocid1.vcn.x") =
  oracle.Cluster.Version (sample_request_spec [6%N]).
Proof.
  apply (proj1 (PopulateNetworkValues_frame
                  (sample_env (Ok {| Id := Some "ocid1.vcn.x" |})
                              (Ok {| LBSubnetIDs := ["lb1"]; WNSubnetIDs := [] |})
                              None None (Ok {| LifecycleState := "ACTIVE" |}))
                  (sample_cluster "" []) (sample_request_spec [6%N]) "ocid1.vcn.x" [])
           (oracle.Cluster.SetVCNID (sample_request_spec [6%N]) "ocid1.vcn.x")
           (Some (Errorf "Invalid network config: there must be 2 loadbalancer subnets!"))
           (world_of
              (PopulateNetworkValues
                 (sample_env (Ok {| Id := Some "ocid1.vcn.x" |})
                             (Ok {| LBSubnetIDs := ["lb1"]; WNSubnetIDs := [] |})
                             None None (Ok {| LifecycleState := "ACTIVE" |}))
                 (sample_cluster "" []) (sample_request_spec [6%N]) "ocid1.vcn.x" []))).
  vm_compute. reflexivity.
Defined.

Lemma populated_distributed (nv : NetworkValues)
  (nps nps' : list (option oracle.NodePool.t)) :
  Forall2 (populated nv) nps nps' ->
  ((3 <= length (WNSubnetIDs nv))%nat -> Forall distributed nps') /\
  ((length (WNSubnetIDs nv) < 3)%nat ->
   Forall (fun p => exists np, p = Some np /\
                      oracle.NodePool.quantityPerSubnet np = 0%N /\
                      oracle.NodePool.subnetIds np = []) nps').
Proof.
  induction 1 as [|p p' nps nps' (np & np' & -> & -> & Hc & Hd) _ [IH3 IH0]];
    [by split|].
  split; intros Hl; constructor; auto.
  - exists np'. split; [done|].
    pose proof (GetPoolQuantityValues_product (oracle.NodePool.Count np) nv
                  (or_intror Hl)) as Hp.
    rewrite <- Hd in Hp. cbn [fst snd] in Hp. by rewrite Hc.
  - exists np'. split; [done|].
    rewrite GetPoolQuantityValues_degenerate in Hd by (by right).
    by injection Hd as -> ->.
Qed.

(** X18. After [PopulateNetworkValues] returned without error, what the
    pools hold depends on the worker subnets of the inventory it obtained.
    With at least 3 of them, every pool holds as many instances as it asks
    for: its count is its quantity per subnet times the number of its
    subnets. With fewer than 3, every pool is left with quantity 0 and no
    subnet, whatever its count, and no error is reported. *)
Theorem PopulateNetworkValues_pools (E : Env) (o : OKECluster)
  (r r' : oracle.Cluster.t) (VCNID : string) (w w' : World)
  (m : VCNManager) (id : string) (nv : NetworkValues) :
  PopulateNetworkValues E o r VCNID w = Returns (r', None) w' ->
  Ev_GetNetworkValues m id (Ok nv) ∈
    new_events w (PopulateNetworkValues E o r VCNID w) ->
  ((3 <= length (WNSubnetIDs nv))%nat ->
   Forall distributed (oracle.Cluster.NodePools r')) /\
  ((length (WNSubnetIDs nv) < 3)%nat ->
   Forall (fun p => exists np, p = Some np /\
                      oracle.NodePool.quantityPerSubnet np = 0%N /\
                      oracle.NodePool.subnetIds np = [])
          (oracle.Cluster.NodePools r')).
Proof.
  destruct (PopulateNetworkValues_run E o r VCNID w)
    as [evs err Hauth|evs oci err Hauth|evs oci nv' Hauth Hlb|evs oci nv' Hauth Hlb Hnil
       |evs oci nv' lb1 lb2 nps Hauth Hlb Hnps];
    rewrite ?new_events_app, ?new_events_app_panic; intros Hret Hin;
    try discriminate Hret.
  injection Hret as <- _. in_trace Hin; [not_auth|]. injection Hin as _ _ <-.
  apply populate_NodePools_spec in Hnps. by apply populated_distributed in Hnps.
Qed.

Lemma PopulateNetworkValues_pools_witness :
  Forall (fun p => exists np, p = Some np /\
                     oracle.NodePool.quantityPerSubnet np = 0%N /\
                     oracle.NodePool.subnetIds np = [])
    [Some {| oracle.NodePool.Count := 6%N;
             oracle.NodePool.quantityPerSubnet := 0%N;
             oracle.NodePool.subnetIds := [] |}].
Proof.
  refine (proj2 (PopulateNetworkValues_pools
                   (sample_env (Ok {| Id := Some "ocid1.vcn.x" |})
                               (Ok {| LBSubnetIDs := ["lb1"; "lb2"];
                                      WNSubnetIDs := ["s1"; "s2"] |})
                               None None (Ok {| LifecycleState := "ACTIVE" |}))
                   (sample_cluster "" []) (sample_request_spec [6%N])
                   {| oracle.Cluster.Version := "v1.10.3";
                      oracle.Cluster.NodePools :=
                        [Some {| oracle.NodePool.Count := 6%N;
                                 oracle.NodePool.quantityPerSubnet := 0%N;
                                 oracle.NodePool.subnetIds := [] |}];
                      oracle.Cluster.vcnID := "ocid1.vcn.x";
                      oracle.Cluster.lbSubnetID1 := "lb1";
                      oracle.Cluster.lbSubnetID2 := "lb2" |}
                   "ocid1.vcn.x" []
                   (world_of
                      (PopulateNetworkValues
                         (sample_env (Ok {| Id := Some "ocid1.vcn.x" |})
                                     (Ok {| LBSubnetIDs := ["lb1"; "lb2"];
                                            WNSubnetIDs := ["s1"; "s2"] |})
                                     None None (Ok {| LifecycleState := "ACTIVE" |}))
                         (sample_cluster "" []) (sample_request_spec [6%N])
                         "ocid1.vcn.x" []))
                   (NewVCNManager 1%N) "ocid1.vcn.x"
                   {| LBSubnetIDs := ["lb1"; "lb2"]; WNSubnetIDs := ["s1"; "s2"] |}
                   _ _) _).
  - vm_compute. reflexivity.
  - vm_compute. apply list_elem_of_In. do 3 right. left. reflexivity.
  - simpl. lia.
Defined.

(** ** More on building a cluster from a request *)

(** Splits a run of [CreateOKEClusterFromRequest] into the ways it can
    end. *)
Ltac from_request_cases E request orgId userId w :=
  unfold CreateOKEClusterFromRequest; run;
  destruct (CreatePreconfiguredVCN_run E (new_OKECluster E request orgId userId)
              (pkgCluster.CreateClusterRequest.Name request) w)
    as (evs & Hauth & [(err & ->)|(oci & [vcn|err] & ->)]); run;
  [ | destruct (Id vcn) as [id|] eqn:Hid; run;
      [ match goal with
        | |- context [PopulateNetworkValues ?E' ?o' ?r' ?v' ?w'] =>
            destruct (PopulateNetworkValues_run E' o' r' v' w')
              as [evs' err Hauth'|evs' oci' err Hauth'|evs' oci' nv Hauth' Hlb
                 |evs' oci' nv Hauth' Hlb Hnil
                 |evs' oci' nv lb1 lb2 nps Hauth' Hlb Hnps]
        end; run;
        [ | | | | unfold CreateModelFromCreateRequest; run;
                  match goal with
                  | |- context [env_CreateModelFromCreateRequest ?E' ?w' ?r' ?u'] =>
                      destruct (env_CreateModelFromCreateRequest E' w' r' u')
                        as [model|err]
                  end ]
      | ]
  | ];
  rewrite <- ?app_assoc; cbn [app];
  rewrite ?new_events_app, ?new_events_app_panic; cbn [world_of].

(** X19. [CreateOKEClusterFromRequest] never asks for a network to be
    deleted and never calls the cluster manager: a network it created
    stays when a later step fails. Its only network calls are the creation
    of the network named "p-" followed by the cluster name and the query of
    the subnets of the network just created. Whenever it returns an error,
    the cluster it returns is the freshly built one, with an empty provider
    spec. *)
Theorem CreateOKEClusterFromRequest_calls (E : Env)
  (request : pkgCluster.CreateClusterRequest.t) (orgId userId : uint) (w : World) :
  let out := CreateOKEClusterFromRequest E request orgId userId w in
  let evs := new_events w out in
  (forall ev, ev ∈ evs -> is_network_event ev = true ->
     (exists m res,
        ev = Ev_VCNCreate m
               ("p-" +:+ pkgCluster.CreateClusterRequest.Name request) res) \/
     (exists m id res m' vcn,
        ev = Ev_GetNetworkValues m id res /\
        Ev_VCNCreate m' ("p-" +:+ pkgCluster.CreateClusterRequest.Name request)
          (Ok vcn) ∈ evs /\
        Id vcn = Some id)) /\
  (forall cm s a e, Ev_ManageOKECluster cm s a e ∉ evs) /\
  (forall oke request' e w', out = Returns (oke, request', Some e) w' ->
     oke = new_OKECluster E request orgId userId /\
     model.ClusterModel.OKE (modelCluster oke) = modelOracle.Cluster.zero).
Proof.
  intros out evs. subst evs out.
  from_request_cases E request orgId userId w.
  all: split; [|split].
  all: try (intros oke request' e' w' Hret; try discriminate Hret;
            by injection Hret as <- _ _ _).
  all: try (intros cm s a e' Hin; in_trace Hin; try not_auth; discriminate).
  all: intros ev Hin Hnet; in_trace Hin;
       try (apply (auth_events_elem _ _ Hauth) in Hin;
            apply auth_not_network in Hin; congruence);
       try (apply (auth_events_elem _ _ Hauth') in Hin;
            apply auth_not_network in Hin; congruence);
       try (subst ev; discriminate Hnet);
       subst ev;
       try (left; by eexists _, _);
       right; eexists _, _, _, _, vcn; (split; [done|]); (split; [after_auth|done]).
Qed.

Lemma CreateOKEClusterFromRequest_calls_witness :
  model.ClusterModel.OKE
    (modelCluster
       (new_OKECluster
          (sample_env (Ok {| Id := Some "ocid1.vcn.x" |})
                      (Err (Errorf "ServiceUnavailable")) None None
                      (Ok {| LifecycleState := "ACTIVE" |}))
          (sample_create_request [9%N]) 1%N 1%N)) = modelOracle.Cluster.zero.
Proof.
  refine (proj2 (proj2 (proj2
            (CreateOKEClusterFromRequest_calls
               (sample_env (Ok {| Id := Some "ocid1.vcn.x" |})
                           (Err (Errorf "ServiceUnavailable")) None None
                           (Ok {| LifecycleState := "ACTIVE" |}))
               (sample_create_request [9%N]) 1%N 1%N []))
            (new_OKECluster
               (sample_env (Ok {| Id := Some "ocid1.vcn.x" |})
                           (Err (Errorf "ServiceUnavailable")) None None
                           (Ok {| LifecycleState := "ACTIVE" |}))
               (sample_create_request [9%N]) 1%N 1%N)
            (sample_create_request [9%N]) (Errorf "ServiceUnavailable")
            (world_of
               (CreateOKEClusterFromRequest
                  (sample_env (Ok {| Id := Some "ocid1.vcn.x" |})
                              (Err (Errorf "ServiceUnavailable")) None None
                              (Ok {| LifecycleState := "ACTIVE" |}))
                  (sample_create_request [9%N]) 1%N 1%N [])) _)).
  vm_compute. reflexivity.
Defined.

(** X20. When [CreateOKEClusterFromRequest] returns without error, it has
    created the network "p-" followed by the cluster name, obtained the
    subnets of that network, and its last call is the model constructor,
    given the request as written by then. The cluster returned holds the
    name, location, cloud and secret of the request, the organization and
    the user given, the OKE distribution and the spec the constructor
    built; the request returned holds the id of the created network, the
    two load-balancer subnets of the inventory and, in every pool, the
    distribution of its count. *)
Theorem CreateOKEClusterFromRequest_success (E : Env)
  (request request' : pkgCluster.CreateClusterRequest.t) (orgId userId : uint)
  (w w' : World) (oke : OKECluster) :
  CreateOKEClusterFromRequest E request orgId userId w =
    Returns (oke, request', None) w' ->
  let evs := new_events w (CreateOKEClusterFromRequest E request orgId userId w) in
  let c := pkgCluster.CreateClusterRequest.Properties_CreateClusterOKE request in
  let c' := pkgCluster.CreateClusterRequest.Properties_CreateClusterOKE request' in
  exists m vcn m2 nv model,
    Ev_VCNCreate m ("p-" +:+ pkgCluster.CreateClusterRequest.Name request) (Ok vcn) ∈ evs /\
    Id vcn = Some (oracle.Cluster.vcnID c') /\
    Ev_GetNetworkValues m2 (oracle.Cluster.vcnID c') (Ok nv) ∈ evs /\
    last evs = Some (Ev_CreateModelFromCreateRequest request' userId (Ok model)) /\
    LBSubnetIDs nv = [oracle.Cluster.lbSubnetID1 c'; oracle.Cluster.lbSubnetID2 c'] /\
    Forall2 (populated nv) (oracle.Cluster.NodePools c) (oracle.Cluster.NodePools c') /\
    request' = pkgCluster.CreateClusterRequest.with_CreateClusterOKE request c' /\
    oke = with_modelOKE (new_OKECluster E request orgId userId) model /\
    GetName oke = pkgCluster.CreateClusterRequest.Name request /\
    GetLocation oke = pkgCluster.CreateClusterRequest.Location request /\
    GetSecretId oke = pkgCluster.CreateClusterRequest.SecretId request /\
    GetOrganizationId oke = orgId /\
    GetDistribution oke = pkgCluster_OKE E /\
    model.ClusterModel.CreatedBy (modelCluster oke) = userId /\
    model.ClusterModel.OKE (modelCluster oke) = model.
Proof.
  from_request_cases E request orgId userId w; intros Hret; try discriminate Hret.
  injection Hret as <- <- _. cbn zeta.
  cbn [pkgCluster.CreateClusterRequest.Properties_CreateClusterOKE
       pkgCluster.CreateClusterRequest.with_CreateClusterOKE
       oracle.Cluster.vcnID oracle.Cluster.lbSubnetID1 oracle.Cluster.lbSubnetID2
       oracle.Cluster.NodePools].
  eexists _, vcn, _, nv, model.
  split; [after_auth|]. split; [done|].
  split; [apply elem_of_app; right; apply list_elem_of_further; after_auth|].
  split; [by rewrite last_app_cons, app_comm_cons, last_app_cons|].
  split; [done|]. split; [by apply populate_NodePools_spec|]. done.
Qed.

Lemma CreateOKEClusterFromRequest_success_witness :
  match
    CreateOKEClusterFromRequest sample_env_ok (sample_create_request [9%N]) 1%N 1%N []
  with
  | Returns (oke, request', _) _ =>
      exists m vcn m2 nv model,
        Ev_VCNCreate m "p-demo" (Ok vcn) ∈
          new_events []
            (CreateOKEClusterFromRequest sample_env_ok (sample_create_request [9%N])
               1%N 1%N []) /\
        Id vcn =
          Some (oracle.Cluster.vcnID
                  (pkgCluster.CreateClusterRequest.Properties_CreateClusterOKE request')) /\
        Ev_GetNetworkValues m2
          (oracle.Cluster.vcnID
             (pkgCluster.CreateClusterRequest.Properties_CreateClusterOKE request'))
          (Ok nv) ∈
          new_events []
            (CreateOKEClusterFromRequest sample_env_ok (sample_create_request [9%N])
               1%N 1%N []) /\
        last (new_events []
                (CreateOKEClusterFromRequest sample_env_ok (sample_create_request [9%N])
                   1%N 1%N [])) =
          Some (Ev_CreateModelFromCreateRequest request' 1%N (Ok model))
  | Panics _ => False
  end.
Proof.
  destruct (CreateOKEClusterFromRequest sample_env_ok (sample_create_request [9%N])
              1%N 1%N []) as [[[oke request'] [e|]] w'|w'] eqn:Hrun;
    try (vm_compute in Hrun; discriminate Hrun).
  destruct (CreateOKEClusterFromRequest_success sample_env_ok
              (sample_create_request [9%N]) request' 1%N 1%N [] w' oke Hrun)
    as (m & vcn & m2 & nv & model & H1 & H2 & H3 & H4 & _).
  rewrite Hrun in H1, H3, H4. by exists m, vcn, m2, nv, model.
Defined.

(** ** More on deleting a cluster *)

Lemma GetOCIWithRegion_run_failed (E : Env) (o : OKECluster) (region : string)
  (w : World) :
  exists res evs,
    GetOCIWithRegion E o region w = Returns res (w ++ evs)%list /\
    auth_events evs /\
    (forall e, res = Err e -> failed_with evs e).
Proof.
  unfold GetOCIWithRegion, GetOCI, getSecret, NewOCI, ChangeRegion. run.
  destruct (env_getSecret E w _ _) as [s|e].
  2:{ eexists _, [_]. split; [done|]. split; [by repeat constructor|].
      intros e' [= <-]. by eexists. }
  destruct (env_NewOCI E _ _) as [oci|e]; rewrite <- ?app_assoc; cbn [app].
  2:{ eexists _, [_; _]. split; [done|]. split; [by repeat constructor|].
      intros e' [= <-]. by eexists. }
  destruct (env_ChangeRegion E _ _ _) as [e|]; rewrite <- ?app_assoc; cbn [app].
  - eexists _, [_; _; _]. split; [done|]. split; [by repeat constructor|].
    intros e' [= <-]. by eexists.
  - eexists _, [_; _; _]. split; [done|]. split; [by repeat constructor|].
    by intros e' [=].
Qed.

(** X21. [DeleteCluster] returns no error exactly when its last call is a
    network deletion that succeeded. Every error it returns is the error of
    its last call, as that call returned it: nothing is wrapped and nothing
    is called after a failure. Its only network call is that deletion. *)
Theorem DeleteCluster_result (E : Env) (o : OKECluster) (w : World) :
  let out := DeleteCluster E o w in
  let evs := new_events w out in
  ((exists o' w', out = Returns (o', None) w') <->
   (exists m id, last evs = Some (Ev_VCNDelete m id None))) /\
  (forall o' e w', out = Returns (o', Some e) w' ->
     exists ev, last evs = Some ev /\ event_error ev = Some e) /\
  (forall ev, ev ∈ evs -> is_network_event ev = true ->
     last evs = Some ev /\ exists m id e, ev = Ev_VCNDelete m id e).
Proof.
  intros out evs. subst evs out. unfold DeleteCluster. fold (marked_deleting o). run.
  destruct (GetClusterManager_run_failed E (marked_deleting o) w)
    as (res & evs & -> & Hauth & Hfail).
  destruct res as [cm|e].
  2:{ rewrite new_events_app. split; [|split].
      - split; [by intros (o' & w' & [=])|]. intros (m & id & Hlast).
        apply (last_auth _ _ Hauth) in Hlast. discriminate.
      - intros o' e' w' [= _ <- _]. by apply Hfail.
      - intros ev Hin Hnet. apply (auth_events_elem _ _ Hauth) in Hin.
        apply auth_not_network in Hin. congruence. }
  unfold ManageOKECluster. run. rewrite <- app_assoc.
  destruct (env_ManageOKECluster E _ _ _) as [after [e|]]; cbn [fst snd].
  { rewrite new_events_app. split; [|split].
    - split; [by intros (o' & w' & [=])|]. intros (m & id & Hlast).
      rewrite last_snoc in Hlast. discriminate.
    - intros o' e' w' [= _ <- _]. eexists. split; [apply last_snoc|done].
    - intros ev Hin Hnet. in_trace Hin.
      + apply (auth_events_elem _ _ Hauth) in Hin.
        apply auth_not_network in Hin. congruence.
      + subst ev. discriminate Hnet. }
  unfold DeletePreconfiguredVCN. run.
  match goal with
  | |- context [GetOCIWithRegion ?E' ?o' ?r' ?w'] =>
      destruct (GetOCIWithRegion_run_failed E' o' r' w')
        as (res & evs' & -> & Hauth' & Hfail')
  end.
  rewrite <- !app_assoc. cbn [app].
  destruct res as [oci|e].
  2:{ rewrite new_events_app. specialize (Hfail' e eq_refl). split; [|split].
      - split; [by intros (o' & w' & [=])|]. intros (m & id & Hlast).
        rewrite last_app_cons, (last_cons_failed _ _ _ Hfail') in Hlast.
        apply (last_auth _ _ Hauth') in Hlast. discriminate.
      - intros o' e' w' [= _ <- _].
        rewrite last_app_cons, (last_cons_failed _ _ _ Hfail'). exact Hfail'.
      - intros ev Hin Hnet. in_trace Hin.
        + apply (auth_events_elem _ _ Hauth) in Hin.
          apply auth_not_network in Hin. congruence.
        + subst ev. discriminate Hnet.
        + apply (auth_events_elem _ _ Hauth') in Hin.
          apply auth_not_network in Hin. congruence. }
  unfold VCNManager_Delete. run. rewrite <- !app_assoc. cbn [app].
  destruct (env_VCNDelete E _ _ _) as [e|] eqn:Hdel; rewrite new_events_app.
  - split; [|split].
    + split; [by intros (o' & w' & [=])|]. intros (m & id & Hlast).
      rewrite !app_comm_cons, ?app_assoc, last_snoc in Hlast. discriminate.
    + intros o' e' w' [= _ <- _]. eexists.
      split; [by rewrite !app_comm_cons, ?app_assoc, last_snoc|done].
    + intros ev Hin Hnet. in_trace Hin.
      * apply (auth_events_elem _ _ Hauth) in Hin.
        apply auth_not_network in Hin. congruence.
      * subst ev. discriminate Hnet.
      * apply (auth_events_elem _ _ Hauth') in Hin.
        apply auth_not_network in Hin. congruence.
      * subst ev. split; [by rewrite !app_comm_cons, ?app_assoc, last_snoc|].
        by eexists _, _, _.
  - split; [|split].
    + split; [intros _|intros _; by eexists _, _]. eexists _, _.
      by rewrite !app_comm_cons, ?app_assoc, last_snoc.
    + by intros o' e' w' [=].
    + intros ev Hin Hnet. in_trace Hin.
      * apply (auth_events_elem _ _ Hauth) in Hin.
        apply auth_not_network in Hin. congruence.
      * subst ev. discriminate Hnet.
      * apply (auth_events_elem _ _ Hauth') in Hin.
        apply auth_not_network in Hin. congruence.
      * subst ev. split; [by rewrite !app_comm_cons, ?app_assoc, last_snoc|].
        by eexists _, _, _.
Qed.

Lemma DeleteCluster_result_witness :
  exists ev,
    last (new_events []
            (DeleteCluster
               (sample_env (Ok {| Id := Some "ocid1.vcn.x" |}) (Ok sample_networkValues)
                           (Some (Errorf "engine unavailable")) None
                           (Ok {| LifecycleState := "ACTIVE" |}))
               (sample_cluster "RUNNING" []) [])) = Some ev /\
    event_error ev = Some (Errorf "engine unavailable").
Proof.
  apply (proj1 (proj2 (DeleteCluster_result
                         (sample_env (Ok {| Id := Some "ocid1.vcn.x" |})
                                     (Ok sample_networkValues)
                                     (Some (Errorf "engine unavailable")) None
                                     (Ok {| LifecycleState := "ACTIVE" |}))
                         (sample_cluster "RUNNING" []) []))
           (with_modelOKE (marked_deleting (sample_cluster "RUNNING" []))
              (modelOracle.Cluster.with_Delete (sample_spec []) true))
           (Errorf "engine unavailable")
           (world_of
              (DeleteCluster
                 (sample_env (Ok {| Id := Some "ocid1.vcn.x" |})
                             (Ok sample_networkValues)
                             (Some (Errorf "engine unavailable")) None
                             (Ok {| LifecycleState := "ACTIVE" |}))
                 (sample_cluster "RUNNING" []) []))).
  vm_compute. reflexivity.
Defined.

(** ** Errors on the update path *)

Lemma PopulateNetworkValues_error (E : Env) (o : OKECluster) (r c : oracle.Cluster.t)
  (VCNID : string) (w w1 : World) (e : error) :
  PopulateNetworkValues E o r VCNID w = Returns (c, Some e) w1 ->
  exists evs, w1 = (w ++ evs)%list /\
    (e = Errorf "Invalid network config: there must be 2 loadbalancer subnets!" \/
     failed_with evs e).
Proof.
  unfold PopulateNetworkValues. run.
  destruct (GetOCIWithRegion_run_failed E o
              (model.ClusterModel.Location (modelCluster o)) w)
    as (res & evs & -> & Hauth & Hfail).
  destruct res as [oci|e'].
  2:{ intros [= _ <- <-]. exists evs. split; [done|]. right. by apply Hfail. }
  unfold VCNManager_GetNetworkValues. run. rewrite <- app_assoc.
  destruct (env_GetNetworkValues E _ _ _) as [nv|e'].
  2:{ intros [= _ <- <-]. eexists. split; [done|]. right. eexists.
      split; [apply last_snoc|done]. }
  destruct (negb _).
  - intros [= _ <- <-]. eexists. split; [done|]. by left.
  - destruct (populate_NodePools _ _); by intros [=].
Qed.

Lemma PopulateNetworkValues_extends (E : Env) (o : OKECluster) (r : oracle.Cluster.t)
  (VCNID : string) (w : World) :
  exists evs, world_of (PopulateNetworkValues E o r VCNID w) = (w ++ evs)%list.
Proof.
  destruct (PopulateNetworkValues_run E o r VCNID w); by eexists.
Qed.

(** X22. [UpdateCluster] wraps no error: an error it returns is either the
    error "Invalid network config: there must be 2 loadbalancer subnets!"
    or the error of its last call, as that call returned it, and nothing is
    called after a failure. *)
Theorem UpdateCluster_errors (E : Env) (o o' : OKECluster)
  (r r' : pkgCluster.UpdateClusterRequest.t) (userId : uint) (w w' : World)
  (e : error) :
  UpdateCluster E o r userId w = Returns (o', r', Some e) w' ->
  e = Errorf "Invalid network config: there must be 2 loadbalancer subnets!" \/
  exists ev,
    last (new_events w (UpdateCluster E o r userId w)) = Some ev /\
    event_error ev = Some e.
Proof.
  pose proof (UpdateCluster_runs E o r userId w) as Hrun.
  destruct (PopulateNetworkValues_extends E o
              (pkgCluster.UpdateClusterRequest.UpdateProperties_OKE r)
              (modelOracle.Cluster.VCNID (model.ClusterModel.OKE (modelCluster o))) w)
    as [evs0 Hw1].
  destruct (PopulateNetworkValues E o _ _ w) as [[c [e0|]] w1|w1] eqn:Hpop;
    cbn [world_of] in Hw1; subst w1.
  - rewrite Hrun. intros [= _ _ <- _].
    apply PopulateNetworkValues_error in Hpop as (evs & Heq & Herr).
    apply app_inv_head in Heq as <-. rewrite new_events_app.
    destruct Herr as [->|Hfail]; [by left|by right].
  - destruct Hrun as [e1|model evs' e1 Hauth' Hfail|model evs' cm after e1 Hauth'
                     |model evs' cm after Hauth' Hkeep
                     |model evs' cm after nodePools Hauth' Hkeep];
      rewrite <- ?app_assoc, ?new_events_app; intros Hret; try discriminate Hret;
      injection Hret as _ _ <- _; right.
    + eexists. split; [apply last_snoc|done].
    + rewrite last_app_cons, (last_cons_failed _ _ _ Hfail). exact Hfail.
    + eexists. split; [by rewrite !app_comm_cons, ?app_assoc, last_snoc|done].
  - rewrite Hrun. by intros [=].
Qed.

Lemma UpdateCluster_errors_witness :
  Errorf "engine unavailable" =
    Errorf "Invalid network config: there must be 2 loadbalancer subnets!" \/
  exists ev,
    last (new_events []
            (UpdateCluster
               (sample_env (Ok {| Id := Some "ocid1.vcn.x" |}) (Ok sample_networkValues)
                           (Some (Errorf "engine unavailable")) None
                           (Ok {| LifecycleState := "ACTIVE" |}))
               (sample_cluster "RUNNING" []) (sample_update_request [6%N]) 1%N [])) =
      Some ev /\
    event_error ev = Some (Errorf "engine unavailable").
Proof.
  apply (UpdateCluster_errors
           (sample_env (Ok {| Id := Some "ocid1.vcn.x" |}) (Ok sample_networkValues)
                       (Some (Errorf "engine unavailable")) None
                       (Ok {| LifecycleState := "ACTIVE" |}))
           (sample_cluster "RUNNING" []) (sample_cluster "RUNNING" [])
           (sample_update_request [6%N])
           (update_request_of
              {| oracle.Cluster.Version := "v1.10.3";
                 oracle.Cluster.NodePools :=
                   [Some {| oracle.NodePool.Count := 6%N;
                            oracle.NodePool.quantityPerSubnet := 2%N;
                            oracle.NodePool.subnetIds := ["s1"; "s2"; "s3"] |}];
                 oracle.Cluster.vcnID := "ocid1.vcn.x";
                 oracle.Cluster.lbSubnetID1 := "lb1";
                 oracle.Cluster.lbSubnetID2 := "lb2" |})
           1%N []
           (world_of
              (UpdateCluster
                 (sample_env (Ok {| Id := Some "ocid1.vcn.x" |}) (Ok sample_networkValues)
                             (Some (Errorf "engine unavailable")) None
                             (Ok {| LifecycleState := "ACTIVE" |}))
                 (sample_cluster "RUNNING" []) (sample_update_request [6%N]) 1%N []))).
  vm_compute. reflexivity.
Defined.

(** ** Witnesses of earlier statements *)

Lemma GetPoolQuantityValues_bounds_witness :
  snd (GetPoolQuantityValues 5%N
         {| LBSubnetIDs := ["lb1"; "lb2"]; WNSubnetIDs := ["s1"; "s2"] |}) = [].
Proof.
  apply (proj2 (proj1 (proj2 (proj2 (proj2
           (GetPoolQuantityValues_bounds 5%N
              {| LBSubnetIDs := ["lb1"; "lb2"]; WNSubnetIDs := ["s1"; "s2"] |})))))).
  right. simpl. lia.
Defined.

Lemma GetClusterDetails_outcome_witness :
  exists d,
    GetClusterDetails sample_env_ok (sample_cluster "RUNNING" []) [] =
    Returns (Some d, None)
      (world_of (GetClusterDetails sample_env_ok (sample_cluster "RUNNING" []) [])).
Proof.
  apply (proj2 (proj1 (proj2 (GetClusterDetails_outcome sample_env_ok
                                (sample_cluster "RUNNING" []) [])))).
  eexists _, _, _. split; [vm_compute; reflexivity|reflexivity].
Defined.
